(** * Read handlers of three IBM Cloud Terraform data sources

    A shallow embedding of

    - [ibm/service/kms/data_source_ibm_kms_key.go]
      (schema [DataSourceIBMKMSkey], handler [dataSourceIBMKMSKeyRead]),
    - [ibm/service/power/data_source_ibm_pi_storage_type_capacity.go]
      (handler [dataSourceIBMPIStorageTypeCapacityRead]),
    - the [project] package's [ibm_project_config] data source
      (handler [dataSourceIbmProjectConfigRead] and its [...ToMap] helpers),

    together with the properties of their pagination, error handling,
    identifier assignment and response flattening. *)

From Stdlib Require Import ZArith Lia Ascii String.
From stdpp Require Import base option list strings gmap fin_maps.

Set Warnings "-register-all".

Local Open Scope string_scope.
Local Open Scope Z_scope.

(** ** Go and Terraform plumbing *)

(** A Go [error] is carried by the text its [Error()] method yields:
    [fmt.Errorf] with the verb [%s] and [diag.FromErr] only ever use that
    text. *)
Definition error := string.

(** Values stored in [map[string]interface{}] and handed to
    [schema.ResourceData.Set].  A nil pointer or nil interface is [VNil];
    [VOther] stands for any Go value without a JSON form (a channel, a
    function, the float64 +Inf, ...), described by its [%v] rendering. *)
Inductive Value : Type :=
| VNil
| VString (s : string)
| VInt (z : Z)
| VBool (b : bool)
| VList (l : list Value)
| VMap (m : gmap string Value)
| VOther (desc : string).

(** A pointer field passed where an [interface{}] is expected. *)
Definition VPtr {A : Type} (inj : A -> Value) (p : option A) : Value :=
  match p with
  | Some a => inj a
  | None => VNil
  end.

(** The outcome of a Go call that may end in a run-time panic. *)
Inductive Res (A : Type) : Type :=
| Ok (a : A)
| Panic (msg : string).
Arguments Ok {A} a.
Arguments Panic {A} msg.

Definition nil_deref : string :=
  "runtime error: invalid memory address or nil pointer dereference".

(** [*p] for a pointer [p]. *)
Definition deref {A : Type} (p : option A) : Res A :=
  match p with
  | Some a => Ok a
  | None => Panic nil_deref
  end.

Definition res_bind {A B : Type} (m : Res A) (k : A -> Res B) : Res B :=
  match m with
  | Ok a => k a
  | Panic msg => Panic msg
  end.

Notation "'let!' x ':=' m 'in' k" := (res_bind m (fun x => k))
  (at level 10, x name, m at level 100, k at level 200, only parsing).

(** *** [schema.ResourceData] *)

(** The identifier ([None] until [SetId] is called) and the attributes,
    configured ones and computed ones alike. *)
Record ResourceData : Type := mkResourceData {
  Id : option string;
  attrs : gmap string Value;
}.

Definition SetId (v : string) (d : ResourceData) : ResourceData :=
  {| Id := Some v; attrs := attrs d |}.

(** [d.Get(k).(string)]: an attribute that is not set reads as the zero
    value. *)
Definition GetString (d : ResourceData) (k : string) : string :=
  match attrs d !! k with
  | Some (VString s) => s
  | _ => ""
  end.

(** [d.Get(k).(int)] *)
Definition GetInt (d : ResourceData) (k : string) : Z :=
  match attrs d !! k with
  | Some (VInt z) => z
  | _ => 0
  end.

(** [d.GetOk(k)] on a string attribute: [ok] only for a value that is set
    and is not the zero value. *)
Definition GetOkString (d : ResourceData) (k : string) : string * bool :=
  match attrs d !! k with
  | Some (VString s) => (s, negb (String.eqb s ""))
  | _ => ("", false)
  end.

Section ResourceDataSet.

(** The verdict of the schema's field writer on a value written to an
    attribute: [None] when the write is accepted, the error otherwise. *)
Variable SetErr : string -> Value -> option error.

(** [d.Set(k, v)]: the error, and the data after the call; a refused
    write stores nothing. *)
Definition dSet (k : string) (v : Value) (d : ResourceData)
  : option error * ResourceData :=
  match SetErr k v with
  | Some e => (Some e, d)
  | None => (None, {| Id := Id d; attrs := <[k := v]> (attrs d) |})
  end.

(** [d.Set(k, v)] as a statement, its result dropped. *)
Definition dSet_ (k : string) (v : Value) (d : ResourceData) : ResourceData :=
  snd (dSet k v d).

End ResourceDataSet.

(** *** [diag.Diagnostics] *)

Inductive diag_Severity : Type := SevError | SevWarning.

Record Diagnostic : Type := mkDiagnostic {
  severity : diag_Severity;
  Summary : string;
  Detail : string;
}.

Definition Diagnostics := list Diagnostic.

(** [diag.FromErr(err)] for a non-nil [err]. *)
Definition diag_FromErr (err : error) : Diagnostics :=
  [ {| severity := SevError; Summary := err; Detail := "" |} ].

(** [diag.Diagnostics.HasError()] *)
Definition HasError (ds : Diagnostics) : bool :=
  existsb (fun dg => match severity dg with SevError => true | SevWarning => false end) ds.

(** *** Go's [int] *)

(** [int] is 64 bits wide on the platforms the provider is built for;
    sums and differences wrap around. *)
Definition int_min : Z := - 2 ^ 63.
Definition int_max : Z := 2 ^ 63 - 1.

Definition int_wrap (z : Z) : Z := (z + 2 ^ 63) mod 2 ^ 64 - 2 ^ 63.

Definition int_add (a b : Z) : Z := int_wrap (a + b).
Definition int_sub (a b : Z) : Z := int_wrap (a - b).

Definition int_range (z : Z) : Prop := int_min <= z <= int_max.

(** *** [strings.Split(s, ":")] *)

Definition colon : ascii := ":"%char.

(** One more segment than there are colons; the empty string splits into
    one empty segment. *)
Fixpoint Split (s : string) : list string :=
  match s with
  | EmptyString => [ "" ]
  | String c s' =>
      if Ascii.eqb c colon then "" :: Split s'
      else
        match Split s' with
        | seg :: rest => String c seg :: rest
        | [] => [ String c "" ]
        end
  end.

(** Whether a string contains a colon. *)
Fixpoint has_colon (s : string) : bool :=
  match s with
  | EmptyString => false
  | String c s' => Ascii.eqb c colon || has_colon s'
  end.

(** [fmt.Sprintf("%s", err)] for an [err] that may be nil. *)
Definition fmt_s_err (err : option error) : string :=
  match err with
  | Some e => e
  | None => "%!s(<nil>)"
  end.

(** ** The [ibm_kms_key] data source *)

Module KMS.

(** The fields of [kp.Key] the handler reads. *)
Record Key : Type := mkKey {
  ID : string;
  Name : string;
  CRN : string;
  Extractable : bool;
  Aliases : list string;
  KeyRingID : string;
}.

(** [kp.Keys]: [Metadata.NumberOfKeys] and [Keys]. *)
Record Keys : Type := mkKeys {
  Metadata_NumberOfKeys : Z;
  Keys_Keys : list Key;
}.

(** The key-protect client: the two fields the handler assigns. *)
Record API : Type := mkAPI {
  URL : string;
  Config_InstanceID : string;
}.

(** [rc.ResourceInstance] *)
Record ResourceInstance : Type := mkResourceInstance {
  Extensions : gmap string Value;
}.

(** Lines 185-189: the instance identifier the handler works with, the
    third segment from the end when [instance_id] is a CRN. *)
Definition instanceIDOf (d : ResourceData) : string :=
  let instanceID := GetString d "instance_id" in
  let CrnInstanceID := Split instanceID in
  if (3 <? length CrnInstanceID)%nat
  then nth (length CrnInstanceID - 3) CrnInstanceID ""
  else instanceID.

(** The default page size of the key-protect API. *)
Definition pageSize : Z := 200.

(** The state of the pagination loop.  [calls] is a ghost field: the
    [(limit, offset)] arguments of the [GetKeys] calls made so far, oldest
    first. *)
Record Page : Type := mkPage {
  offset : Z;
  totalKeys : list Key;
  calls : list (Z * Z);
}.

Inductive LoopStep : Type :=
| Continue (s : Page)
| Break (s : Page)
| Return (err : error) (s : Page).

Inductive LoopResult : Type :=
| Done (s : Page)
| Failed (err : error) (s : Page)
| OutOfFuel.

(** What a run of the handler amounts to: it returns an [error] (nil or
    not) and leaves the resource data behind, or it never returns. *)
Inductive ReadResult : Type :=
| Returned (err : option error) (d : ResourceData)
| Diverges.

Section Steps.

(** [kp.Policy], and [flex.FlattenKeyPolicies] of package [flex]. *)
Variable Policy : Type.
Variable FlattenKeyPolicies : list Policy -> Value.
Variable SetErr : string -> Value -> option error.

(** [meta.(conns.ClientSession)] and the services behind the clients it
    hands out.  A Go result [(v, err)] is [inr v] for a nil [err] and
    [inl err] otherwise.  [GetKeys api n limit offset] is the answer to
    the [n]-th [GetKeys] call of the run, so that the service may answer
    equal requests differently.  [GetResourceInstance] yields
    [(instanceData, resp, err)], with [resp] as the verb [%s] prints it. *)
Record ClientSession : Type := mkClientSession {
  KeyManagementAPI : error + API;
  ResourceControllerV2API : option error;
  GetResourceInstance : string -> option ResourceInstance * string * option error;
  KmsEndpointURL : API -> string -> gmap string Value -> error + string;
  GetKeys : API -> nat -> Z -> Z -> error + Keys;
  GetPolicies : API -> string -> error + list Policy;
  GetKey : API -> string -> error + Key;
}.

Variable meta : ClientSession.
Variable api : API.

Definition called (limit off : Z) (s : Page) : Page :=
  {| offset := offset s; totalKeys := totalKeys s;
     calls := calls s ++ [ (limit, off) ] |}.

Definition appendKeys (keys : Keys) (s : Page) : Page :=
  {| offset := offset s; totalKeys := totalKeys s ++ Keys_Keys keys;
     calls := calls s |}.

Definition setOffset (off : Z) (s : Page) : Page :=
  {| offset := off; totalKeys := totalKeys s; calls := calls s |}.

(** One turn of the [for { ... }] loop that runs when a limit is
    passed. *)
Definition loopBody (limitVal : Z) (s : Page) : LoopStep :=
  if offset s <? limitVal then
    if int_sub limitVal (offset s) <? pageSize then
      match GetKeys meta api (length (calls s))
                    (int_sub limitVal (offset s)) (offset s) with
      | inl err =>
          Return ("[ERROR] Get Keys failed with error: " +:+ err)
                 (called (int_sub limitVal (offset s)) (offset s) s)
      | inr keys =>
          Break (appendKeys keys
                   (called (int_sub limitVal (offset s)) (offset s) s))
      end
    else
      match GetKeys meta api (length (calls s)) pageSize (offset s) with
      | inl err =>
          Return ("[ERROR] Get Keys failed with error: " +:+ err)
                 (called pageSize (offset s) s)
      | inr keys =>
          let numOfKeysFetched := Metadata_NumberOfKeys keys in
          let s' := appendKeys keys (called pageSize (offset s) s) in
          if (numOfKeysFetched <? pageSize)
             || (int_add (offset s) pageSize =? limitVal)
          then Break s'
          else Continue (setOffset (int_add (offset s) pageSize) s')
      end
  else Continue s.

Fixpoint loop (fuel : nat) (limitVal : Z) (s : Page) : LoopResult :=
  match fuel with
  | O => OutOfFuel
  | S fuel' =>
      match loopBody limitVal s with
      | Continue s' => loop fuel' limitVal s'
      | Break s' => Done s'
      | Return err s' => Failed err s'
      end
  end.

Definition startPage : Page := {| offset := 0; totalKeys := []; calls := [] |}.

(** Lines 215-258: the keys fetched for the [key_name] lookup. *)
Definition fetchKeys (fuel : nat) (limitVal : Z) : LoopResult :=
  if limitVal =? 0 then
    match GetKeys meta api 0 0 0 with
    | inl err =>
        Failed ("[ERROR] Get Keys failed with error: " +:+ err)
               (called 0 0 startPage)
    | inr keys => Done (appendKeys keys (called 0 0 startPage))
    end
  else loop fuel limitVal startPage.

(** The map built for one key, the same in all three branches. *)
Definition keyEntry (key : Key) : error + gmap string Value :=
  let keyInstance : gmap string Value := ∅ in
  let keyInstance := <["id" := VString (ID key)]> keyInstance in
  let keyInstance := <["name" := VString (Name key)]> keyInstance in
  let keyInstance := <["crn" := VString (CRN key)]> keyInstance in
  let keyInstance := <["standard_key" := VBool (Extractable key)]> keyInstance in
  let keyInstance := <["aliases" := VList (VString <$> Aliases key)]> keyInstance in
  let keyInstance := <["key_ring_id" := VString (KeyRingID key)]> keyInstance in
  match GetPolicies meta api (ID key) with
  | inl err => inl ("[ERROR] Failed to read policies: " +:+ err)
  | inr policies =>
      if (length policies =? 0)%nat then inr keyInstance
      else inr (<["policies" := FlattenKeyPolicies policies]> keyInstance)
  end.

(** [for _, key := range matchKeys { ... keyMap = append(keyMap, keyInstance) }] *)
Fixpoint keyMapLoop (matchKeys : list Key) (keyMap : list Value)
  : error + list Value :=
  match matchKeys with
  | [] => inr keyMap
  | key :: rest =>
      match keyEntry key with
      | inl err => inl err
      | inr keyInstance => keyMapLoop rest (keyMap ++ [ VMap keyInstance ])
      end
  end.

Definition nameEq (keyName : string) (keyData : Key) : bool :=
  String.eqb (Name keyData) keyName.

(** The three statements that close every branch. *)
Definition store (instanceID : string) (keyMap : list Value)
                 (d : ResourceData) : ResourceData :=
  let d := SetId instanceID d in
  let d := dSet_ SetErr "keys" (VList keyMap) d in
  dSet_ SetErr "instance_id" (VString instanceID) d.

(** Lines 260-303: from the fetched keys to the stored result. *)
Definition selectByName (instanceID v : string) (totalKeys : list Key)
                        (d : ResourceData) : ReadResult :=
  if (length totalKeys =? 0)%nat then
    Returned (Some ("[ERROR] No keys in instance  " +:+ instanceID)) d
  else
    let '(keyName, matchKeys) :=
      if negb (String.eqb v "") then (v, filter (fun k => nameEq v k = true) totalKeys)
      else ("", totalKeys) in
    if (length matchKeys =? 0)%nat then
      Returned (Some ("[ERROR] No keys with name " +:+ keyName
                      +:+ " in instance  " +:+ instanceID)) d
    else
      match keyMapLoop matchKeys [] with
      | inl err => Returned (Some err) d
      | inr keyMap => Returned None (store instanceID keyMap d)
      end.

(** The [key_id] and [alias] branches: one [GetKey] call. *)
Definition selectByID (instanceID id : string) (d : ResourceData) : ReadResult :=
  match GetKey meta api id with
  | inl err => Returned (Some ("[ERROR] Get Keys failed with error: " +:+ err)) d
  | inr key =>
      match keyEntry key with
      | inl err => Returned (Some err) d
      | inr keyInstance => Returned None (store instanceID [ VMap keyInstance ] d)
      end
  end.

End Steps.

Arguments KeyManagementAPI {Policy} _.
Arguments ResourceControllerV2API {Policy} _.
Arguments GetResourceInstance {Policy} _ _.
Arguments KmsEndpointURL {Policy} _ _ _ _.
Arguments GetKeys {Policy} _ _ _ _ _.
Arguments GetPolicies {Policy} _ _ _.
Arguments GetKey {Policy} _ _ _.
Arguments loopBody {Policy} _ _ _ _.
Arguments loop {Policy} _ _ _ _ _.
Arguments fetchKeys {Policy} _ _ _ _.
Arguments keyEntry {Policy} _ _ _ _.
Arguments keyMapLoop {Policy} _ _ _ _ _.
Arguments selectByName {Policy} _ _ _ _ _ _ _ _.
Arguments selectByID {Policy} _ _ _ _ _ _ _.

Section Read.

Context {Policy : Type}.
Variable FlattenKeyPolicies : list Policy -> Value.
Variable SetErr : string -> Value -> option error.

(** Lines 212-361: the three ways to look keys up, by name, by
    identifier, by alias. *)
Definition lookupKeys (fuel : nat) (d : ResourceData) (meta : ClientSession Policy)
                      (api : API) (instanceID : string) : ReadResult :=
  let '(v, ok) := GetOkString d "key_name" in
  if ok then
    let limitVal := GetInt d "limit" in
    match fetchKeys meta api fuel limitVal with
    | OutOfFuel => Diverges
    | Failed err _ => Returned (Some err) d
    | Done s =>
        selectByName FlattenKeyPolicies SetErr meta api instanceID v (totalKeys s) d
    end
  else
    let '(v, ok) := GetOkString d "key_id" in
    if ok then
      selectByID FlattenKeyPolicies SetErr meta api instanceID v d
    else
      let aliasName := GetString d "alias" in
      selectByID FlattenKeyPolicies SetErr meta api instanceID aliasName d.

(** [dataSourceIBMKMSKeyRead(d, meta)].  [fuel] bounds the number of
    turns of the pagination loop; a run that needs more is reported as
    [Diverges]. *)
Definition dataSourceIBMKMSKeyRead (fuel : nat) (d : ResourceData)
                                   (meta : ClientSession Policy) : ReadResult :=
  match KeyManagementAPI meta with
  | inl err => Returned (Some err) d
  | inr api =>
      let instanceID := instanceIDOf d in
      let endpointType := GetString d "endpoint_type" in
      match ResourceControllerV2API meta with
      | Some err => Returned (Some err) d
      | None =>
          let '(instanceData, resp, err) := GetResourceInstance meta instanceID in
          match err, instanceData with
          | None, Some instanceData =>
              let extensions := Extensions instanceData in
              match KmsEndpointURL meta api endpointType extensions with
              | inl err => Returned (Some err) d
              | inr URL =>
                  let api := {| URL := URL; Config_InstanceID := instanceID |} in
                  lookupKeys fuel d meta api instanceID
              end
          | _, _ =>
              Returned
                (Some ("[ERROR] Error retrieving resource instance: "
                       +:+ fmt_s_err err +:+ " with resp code: " +:+ resp)) d
          end
      end
  end.

End Read.

End KMS.

(** ** The [ibm_pi_storage_type_capacity] data source *)

Module Power.

Definition PITypeName : string := "pi_storage_type".

(** Attribute names that package [power] and the power client's [helpers]
    declare outside the files embedded here. *)
Definition PICloudInstanceId : string := "pi_cloud_instance_id".
Definition Attr_MaximumStorageAllocation : string := "maximum_storage_allocation".
Definition Attr_StoragePoolsCapacity : string := "storage_pools_capacity".
Definition Attr_MaxAllocationSize : string := "max_allocation_size".
Definition Attr_StoragePool : string := "storage_pool".
Definition Attr_StorageType : string := "storage_type".
Definition Attr_PoolName : string := "pool_name".
Definition Attr_TotalCapacity : string := "total_capacity".

(** [models.MaximumStorageAllocation]: three pointer fields. *)
Record MaximumStorageAllocation : Type := mkMaximumStorageAllocation {
  msa_MaxAllocationSize : option Z;
  msa_StoragePool : option string;
  msa_StorageType : option string;
}.

(** [models.StoragePoolCapacity]: the fields the handler reads. *)
Record StoragePoolCapacity : Type := mkStoragePoolCapacity {
  sp_MaxAllocationSize : option Z;
  sp_PoolName : string;
  sp_StorageType : string;
  sp_TotalCapacity : Z;
}.

(** [models.StorageTypeCapacity]; [StoragePoolsCapacity] is a slice of
    pointers. *)
Record StorageTypeCapacity : Type := mkStorageTypeCapacity {
  stc_MaximumStorageAllocation : option MaximumStorageAllocation;
  stc_StoragePoolsCapacity : list (option StoragePoolCapacity);
}.

(** [meta.(conns.ClientSession)] and the storage-capacity client built on
    it for a cloud instance. *)
Record ClientSession : Type := mkClientSession {
  IBMPISession : option error;
  GetStorageTypeCapacity : string -> string -> error + StorageTypeCapacity;
}.

Section Read.

(** [flex.Flatten] of package [flex]. *)
Variable Flatten : gmap string Value -> Value.
Variable SetErr : string -> Value -> option error.

(** The map built for one entry of [StoragePoolsCapacity]. *)
Definition poolEntry (sp : option StoragePoolCapacity) : Res Value :=
  let! sp := deref sp in
  let! maxAllocationSize := deref (sp_MaxAllocationSize sp) in
  let data : gmap string Value := ∅ in
  let data := <[Attr_MaxAllocationSize := VInt maxAllocationSize]> data in
  let data := <[Attr_PoolName := VString (sp_PoolName sp)]> data in
  let data := <[Attr_StorageType := VString (sp_StorageType sp)]> data in
  let data := <[Attr_TotalCapacity := VInt (sp_TotalCapacity sp)]> data in
  Ok (VMap data).

(** [for _, sp := range stc.StoragePoolsCapacity { ... result = append(result, data) }] *)
Fixpoint poolsLoop (pools : list (option StoragePoolCapacity))
                   (result : list Value) : Res (list Value) :=
  match pools with
  | [] => Ok result
  | sp :: rest =>
      let! data := poolEntry sp in
      poolsLoop rest (result ++ [ data ])
  end.

(** [if stc.MaximumStorageAllocation != nil { ... }] *)
Definition setMaximumStorageAllocation
    (stc : StorageTypeCapacity) (d : ResourceData) : Res ResourceData :=
  match stc_MaximumStorageAllocation stc with
  | Some msa =>
      let! maxAllocationSize := deref (msa_MaxAllocationSize msa) in
      let! storagePool := deref (msa_StoragePool msa) in
      let! storageType := deref (msa_StorageType msa) in
      let data : gmap string Value := ∅ in
      let data := <[Attr_MaxAllocationSize := VInt maxAllocationSize]> data in
      let data := <[Attr_StoragePool := VString storagePool]> data in
      let data := <[Attr_StorageType := VString storageType]> data in
      Ok (dSet_ SetErr Attr_MaximumStorageAllocation (Flatten data) d)
  | None => Ok d
  end.

(** [dataSourceIBMPIStorageTypeCapacityRead(ctx, d, meta)]: the
    diagnostics returned (nil is [[]]) and the resource data left
    behind, or a panic.  The [log.Printf] on the failure path leaves no
    trace in either. *)
Definition dataSourceIBMPIStorageTypeCapacityRead
    (d : ResourceData) (meta : ClientSession) : Res (Diagnostics * ResourceData) :=
  match IBMPISession meta with
  | Some err => Ok (diag_FromErr err, d)
  | None =>
      let cloudInstanceID := GetString d PICloudInstanceId in
      let storageType := GetString d PITypeName in
      match GetStorageTypeCapacity meta cloudInstanceID storageType with
      | inl err => Ok (diag_FromErr err, d)
      | inr stc =>
          let d := SetId (cloudInstanceID +:+ "/" +:+ storageType) d in
          let! d := setMaximumStorageAllocation stc d in
          let! result := poolsLoop (stc_StoragePoolsCapacity stc) [] in
          let d := dSet_ SetErr Attr_StoragePoolsCapacity (VList result) d in
          Ok ([], d)
      end
  end.

End Read.

End Power.

(** ** The [ibm_project_config] data source *)

Module Project.

(** [strfmt.DateTime], by its instant in Unix milliseconds. *)
Definition DateTime : Type := Z.

(** *** The models of [projectv1] the handler reads *)

Record ProjectConfigNeedsAttentionState : Type := mkNeedsAttentionState {
  nas_EventID : option string;
  nas_Event : option string;
  nas_Severity : option string;
  nas_ActionURL : option string;
  nas_Target : option string;
  nas_TriggeredBy : option string;
  nas_Timestamp : option string;
}.

(** [Value] is an [interface{}]; nil is [VNil]. *)
Record OutputValue : Type := mkOutputValue {
  ov_Name : option string;
  ov_Description : option string;
  ov_Value : Value;
}.

Record ProjectDefinitionReference : Type := mkProjectDefinitionReference {
  pdr_Name : option string;
}.

Record ProjectReference : Type := mkProjectReference {
  pr_ID : option string;
  pr_Href : option string;
  pr_Definition : option ProjectDefinitionReference;
  pr_Crn : option string;
}.

Record Script : Type := mkScript {
  sc_Type : option string;
  sc_Path : option string;
  sc_ShortDescription : option string;
}.

Record SchematicsMetadata : Type := mkSchematicsMetadata {
  sm_WorkspaceCrn : option string;
  sm_ValidatePreScript : option Script;
  sm_ValidatePostScript : option Script;
  sm_DeployPreScript : option Script;
  sm_DeployPostScript : option Script;
  sm_UndeployPreScript : option Script;
  sm_UndeployPostScript : option Script;
}.

Record ProjectComplianceProfile : Type := mkProjectComplianceProfile {
  cp_ID : option string;
  cp_InstanceID : option string;
  cp_InstanceLocation : option string;
  cp_AttachmentID : option string;
  cp_ProfileName : option string;
}.

Record ProjectConfigAuth : Type := mkProjectConfigAuth {
  auth_TrustedProfileID : option string;
  auth_Method : option string;
  auth_ApiKey : option string;
}.

(** [ProjectConfigDefinitionResponseDAConfigDefinitionPropertiesResponse] *)
Record DAConfigDefinition : Type := mkDAConfigDefinition {
  da_ComplianceProfile : option ProjectComplianceProfile;
  da_LocatorID : option string;
  da_Description : option string;
  da_Name : option string;
  da_EnvironmentID : option string;
  da_Authorizations : option ProjectConfigAuth;
  da_Inputs : option (gmap string Value);
  da_Settings : option (gmap string Value);
}.

(** [ProjectConfigDefinitionResponseResourceConfigDefinitionPropertiesResponse] *)
Record ResourceConfigDefinition : Type := mkResourceConfigDefinition {
  rcd_ResourceCrns : option (list string);
  rcd_Description : option string;
  rcd_Name : option string;
  rcd_EnvironmentID : option string;
  rcd_Authorizations : option ProjectConfigAuth;
  rcd_Inputs : option (gmap string Value);
  rcd_Settings : option (gmap string Value);
}.

(** [ProjectConfigDefinitionResponse] *)
Record ConfigDefinition : Type := mkConfigDefinition {
  def_ComplianceProfile : option ProjectComplianceProfile;
  def_LocatorID : option string;
  def_Description : option string;
  def_Name : option string;
  def_EnvironmentID : option string;
  def_Authorizations : option ProjectConfigAuth;
  def_Inputs : option (gmap string Value);
  def_Settings : option (gmap string Value);
  def_ResourceCrns : option (list string);
}.

(** [ProjectConfigDefinitionResponseIntf]: the dynamic type behind the
    interface, a non-nil pointer to one of the three structs or to
    something else. *)
Inductive ProjectConfigDefinitionResponseIntf : Type :=
| IsDAConfigDefinition (model : DAConfigDefinition)
| IsResourceConfigDefinition (model : ResourceConfigDefinition)
| IsConfigDefinition (model : ConfigDefinition)
| IsOtherSubtype.

Record ProjectConfigVersionDefinitionSummary : Type := mkVersionDefinitionSummary {
  vds_EnvironmentID : option string;
  vds_LocatorID : option string;
}.

Record ProjectConfigVersionSummary : Type := mkVersionSummary {
  vs_Definition : option ProjectConfigVersionDefinitionSummary;
  vs_State : option string;
  vs_Version : option Z;
  vs_Href : option string;
}.

Record ProjectConfig : Type := mkProjectConfig {
  pc_Version : option Z;
  pc_IsDraft : option bool;
  pc_NeedsAttentionState : list ProjectConfigNeedsAttentionState;
  pc_CreatedAt : option DateTime;
  pc_ModifiedAt : option DateTime;
  pc_LastSavedAt : option DateTime;
  pc_Outputs : list OutputValue;
  pc_Project : option ProjectReference;
  pc_Schematics : option SchematicsMetadata;
  pc_State : option string;
  pc_UpdateAvailable : option bool;
  pc_Href : option string;
  pc_Definition : option ProjectConfigDefinitionResponseIntf;
  pc_ApprovedVersion : option ProjectConfigVersionSummary;
  pc_DeployedVersion : option ProjectConfigVersionSummary;
}.

(** [meta.(conns.ClientSession)] and the project client behind it. *)
Record ClientSession : Type := mkClientSession {
  ProjectV1 : option error;
  GetConfigWithContext : string -> string -> error + ProjectConfig;
}.

(** What a [...ToMap] helper returns: [(modelMap, err)]. *)
Definition ToMap : Type := Res (gmap string Value * option error).

(** [if p != nil { modelMap[k] = p }] *)
Definition setIfPresent {A : Type} (k : string) (inj : A -> Value)
    (p : option A) (modelMap : gmap string Value) : gmap string Value :=
  match p with
  | Some a => <[k := inj a]> modelMap
  | None => modelMap
  end.

(** The dynamic type of an [interface{}], as a failed type assertion
    prints it. *)
Definition typeName (v : Value) : string :=
  match v with
  | VNil => "nil"
  | VString _ => "string"
  | VInt _ => "int64"
  | VBool _ => "bool"
  | VList _ => "[]interface {}"
  | VMap _ => "map[string]interface {}"
  | VOther desc => desc
  end.

(** [f.(map[string]interface{})] *)
Definition assertMap (f : Value) : Res (gmap string Value) :=
  match f with
  | VMap m => Ok m
  | _ => Panic ("interface conversion: interface {} is " +:+ typeName f
                +:+ ", not map[string]interface {}")
  end.

(** A step of a [...ToMap] body: [Ok (modelMap, None)] goes on with
    [modelMap], [Ok (modelMap, Some err)] is [return modelMap, err]. *)
Definition andThen (r : ToMap) (k : gmap string Value -> ToMap) : ToMap :=
  match r with
  | Ok (modelMap, None) => k modelMap
  | _ => r
  end.

Notation "'let?' x ':=' m 'in' k" := (andThen m (fun x => k))
  (at level 10, x name, m at level 100, k at level 200, only parsing).

(** [subMap, err := f(p); if err != nil { return modelMap, err };
    modelMap[k] = []map[string]interface{}{subMap}] *)
Definition nested (k : string) (sub : ToMap) (modelMap : gmap string Value) : ToMap :=
  match sub with
  | Panic msg => Panic msg
  | Ok (_, Some err) => Ok (modelMap, Some err)
  | Ok (subMap, None) => Ok (<[k := VList [ VMap subMap ]]> modelMap, None)
  end.

(** The same under [if p != nil { ... }]. *)
Definition nestedIfPresent {A : Type} (k : string) (f : A -> ToMap)
    (p : option A) (modelMap : gmap string Value) : ToMap :=
  match p with
  | Some a => nested k (f a) modelMap
  | None => Ok (modelMap, None)
  end.

Section ToMaps.

(** [stringify] of package [project], [flex.IntValue], and from the Go
    library [fmt.Sprintf("%v", v)], [json.Marshal] (which hands back a
    nil slice together with a non-nil error) and the decoder behind
    [json.Unmarshal] for an input that is not empty. *)
Variable stringify : Value -> string.
Variable IntValue : option Z -> Z.
Variable fmt_v : Value -> string.
Variable json_Marshal : Value -> error + string.
Variable json_decode : string -> option Value.

(** [var f interface{}; json.Unmarshal(b, &f)]: the value of [f]
    afterwards.  An empty input is a syntax error, and an error leaves
    [f] nil. *)
Definition json_Unmarshal (b : string) : Value :=
  if String.eqb b "" then VNil
  else match json_decode b with
       | Some v => v
       | None => VNil
       end.

Definition dataSourceIbmProjectConfigProjectConfigNeedsAttentionStateToMap
    (model : ProjectConfigNeedsAttentionState) : ToMap :=
  let modelMap : gmap string Value := ∅ in
  let modelMap := <["event_id" := VPtr VString (nas_EventID model)]> modelMap in
  let modelMap := <["event" := VPtr VString (nas_Event model)]> modelMap in
  let modelMap := setIfPresent "severity" VString (nas_Severity model) modelMap in
  let modelMap := setIfPresent "action_url" VString (nas_ActionURL model) modelMap in
  let modelMap := setIfPresent "target" VString (nas_Target model) modelMap in
  let modelMap := setIfPresent "triggered_by" VString (nas_TriggeredBy model) modelMap in
  let modelMap := <["timestamp" := VPtr VString (nas_Timestamp model)]> modelMap in
  Ok (modelMap, None).

Definition dataSourceIbmProjectConfigOutputValueToMap (model : OutputValue) : ToMap :=
  let modelMap : gmap string Value := ∅ in
  let modelMap := <["name" := VPtr VString (ov_Name model)]> modelMap in
  let modelMap := setIfPresent "description" VString (ov_Description model) modelMap in
  match ov_Value model with
  | VNil => Ok (modelMap, None)
  | value =>
      let modelMap := <["value_json" := VString (stringify value)]> modelMap in
      match json_Marshal value with
      | inr jsonStr => Ok (modelMap, None)
      | inl err =>
          let jsonStr := "" in
          let b := jsonStr in
          let f := json_Unmarshal b in
          let! valueMap := assertMap f in
          let modelMap := <["value" := VMap valueMap]> modelMap in
          Ok (modelMap, None)
      end
  end.

Definition dataSourceIbmProjectConfigProjectDefinitionReferenceToMap
    (model : option ProjectDefinitionReference) : ToMap :=
  let modelMap : gmap string Value := ∅ in
  let! model := deref model in
  let modelMap := <["name" := VPtr VString (pdr_Name model)]> modelMap in
  Ok (modelMap, None).

Definition dataSourceIbmProjectConfigProjectReferenceToMap
    (model : ProjectReference) : ToMap :=
  let modelMap : gmap string Value := ∅ in
  let modelMap := <["id" := VPtr VString (pr_ID model)]> modelMap in
  let modelMap := <["href" := VPtr VString (pr_Href model)]> modelMap in
  let? modelMap :=
    nested "definition"
      (dataSourceIbmProjectConfigProjectDefinitionReferenceToMap (pr_Definition model))
      modelMap in
  let modelMap := <["crn" := VPtr VString (pr_Crn model)]> modelMap in
  Ok (modelMap, None).

Definition dataSourceIbmProjectConfigScriptToMap (model : Script) : ToMap :=
  let modelMap : gmap string Value := ∅ in
  let modelMap := setIfPresent "type" VString (sc_Type model) modelMap in
  let modelMap := setIfPresent "path" VString (sc_Path model) modelMap in
  let modelMap :=
    setIfPresent "short_description" VString (sc_ShortDescription model) modelMap in
  Ok (modelMap, None).

Definition dataSourceIbmProjectConfigSchematicsMetadataToMap
    (model : SchematicsMetadata) : ToMap :=
  let modelMap : gmap string Value := ∅ in
  let modelMap := setIfPresent "workspace_crn" VString (sm_WorkspaceCrn model) modelMap in
  let? modelMap :=
    nestedIfPresent "validate_pre_script" dataSourceIbmProjectConfigScriptToMap
      (sm_ValidatePreScript model) modelMap in
  let? modelMap :=
    nestedIfPresent "validate_post_script" dataSourceIbmProjectConfigScriptToMap
      (sm_ValidatePostScript model) modelMap in
  let? modelMap :=
    nestedIfPresent "deploy_pre_script" dataSourceIbmProjectConfigScriptToMap
      (sm_DeployPreScript model) modelMap in
  let? modelMap :=
    nestedIfPresent "deploy_post_script" dataSourceIbmProjectConfigScriptToMap
      (sm_DeployPostScript model) modelMap in
  let? modelMap :=
    nestedIfPresent "undeploy_pre_script" dataSourceIbmProjectConfigScriptToMap
      (sm_UndeployPreScript model) modelMap in
  let? modelMap :=
    nestedIfPresent "undeploy_post_script" dataSourceIbmProjectConfigScriptToMap
      (sm_UndeployPostScript model) modelMap in
  Ok (modelMap, None).

Definition dataSourceIbmProjectConfigProjectComplianceProfileToMap
    (model : ProjectComplianceProfile) : ToMap :=
  let modelMap : gmap string Value := ∅ in
  let modelMap := setIfPresent "id" VString (cp_ID model) modelMap in
  let modelMap := setIfPresent "instance_id" VString (cp_InstanceID model) modelMap in
  let modelMap :=
    setIfPresent "instance_location" VString (cp_InstanceLocation model) modelMap in
  let modelMap := setIfPresent "attachment_id" VString (cp_AttachmentID model) modelMap in
  let modelMap := setIfPresent "profile_name" VString (cp_ProfileName model) modelMap in
  Ok (modelMap, None).

Definition dataSourceIbmProjectConfigProjectConfigAuthToMap
    (model : ProjectConfigAuth) : ToMap :=
  let modelMap : gmap string Value := ∅ in
  let modelMap :=
    setIfPresent "trusted_profile_id" VString (auth_TrustedProfileID model) modelMap in
  let modelMap := setIfPresent "method" VString (auth_Method model) modelMap in
  let modelMap := setIfPresent "api_key" VString (auth_ApiKey model) modelMap in
  Ok (modelMap, None).

(** [for k, v := range m { out[k] = fmt.Sprintf("%v", v) }] *)
Definition sprintAll (m : gmap string Value) : Value :=
  VMap ((fun v => VString (fmt_v v)) <$> m).

Definition stringList (l : list string) : Value := VList (VString <$> l).

Definition dataSourceIbmProjectConfigProjectConfigDefinitionResponseDAConfigDefinitionPropertiesResponseToMap
    (model : DAConfigDefinition) : ToMap :=
  let modelMap : gmap string Value := ∅ in
  let? modelMap :=
    nestedIfPresent "compliance_profile"
      dataSourceIbmProjectConfigProjectComplianceProfileToMap
      (da_ComplianceProfile model) modelMap in
  let modelMap := setIfPresent "locator_id" VString (da_LocatorID model) modelMap in
  let modelMap := <["description" := VPtr VString (da_Description model)]> modelMap in
  let modelMap := <["name" := VPtr VString (da_Name model)]> modelMap in
  let modelMap := setIfPresent "environment_id" VString (da_EnvironmentID model) modelMap in
  let? modelMap :=
    nestedIfPresent "authorizations" dataSourceIbmProjectConfigProjectConfigAuthToMap
      (da_Authorizations model) modelMap in
  let modelMap := setIfPresent "inputs" sprintAll (da_Inputs model) modelMap in
  let modelMap := setIfPresent "settings" sprintAll (da_Settings model) modelMap in
  Ok (modelMap, None).

Definition dataSourceIbmProjectConfigProjectConfigDefinitionResponseResourceConfigDefinitionPropertiesResponseToMap
    (model : ResourceConfigDefinition) : ToMap :=
  let modelMap : gmap string Value := ∅ in
  let modelMap := setIfPresent "resource_crns" stringList (rcd_ResourceCrns model) modelMap in
  let modelMap := <["description" := VPtr VString (rcd_Description model)]> modelMap in
  let modelMap := <["name" := VPtr VString (rcd_Name model)]> modelMap in
  let modelMap := setIfPresent "environment_id" VString (rcd_EnvironmentID model) modelMap in
  let? modelMap :=
    nestedIfPresent "authorizations" dataSourceIbmProjectConfigProjectConfigAuthToMap
      (rcd_Authorizations model) modelMap in
  let modelMap := setIfPresent "inputs" sprintAll (rcd_Inputs model) modelMap in
  let modelMap := setIfPresent "settings" sprintAll (rcd_Settings model) modelMap in
  Ok (modelMap, None).

(** The type switch; the last case returns a nil map, which reads as
    the empty one. *)
Definition dataSourceIbmProjectConfigProjectConfigDefinitionResponseToMap
    (model : ProjectConfigDefinitionResponseIntf) : ToMap :=
  match model with
  | IsDAConfigDefinition model =>
      dataSourceIbmProjectConfigProjectConfigDefinitionResponseDAConfigDefinitionPropertiesResponseToMap model
  | IsResourceConfigDefinition model =>
      dataSourceIbmProjectConfigProjectConfigDefinitionResponseResourceConfigDefinitionPropertiesResponseToMap model
  | IsConfigDefinition model =>
      let modelMap : gmap string Value := ∅ in
      let? modelMap :=
        nestedIfPresent "compliance_profile"
          dataSourceIbmProjectConfigProjectComplianceProfileToMap
          (def_ComplianceProfile model) modelMap in
      let modelMap := setIfPresent "locator_id" VString (def_LocatorID model) modelMap in
      let modelMap := setIfPresent "description" VString (def_Description model) modelMap in
      let modelMap := setIfPresent "name" VString (def_Name model) modelMap in
      let modelMap :=
        setIfPresent "environment_id" VString (def_EnvironmentID model) modelMap in
      let? modelMap :=
        nestedIfPresent "authorizations"
          dataSourceIbmProjectConfigProjectConfigAuthToMap
          (def_Authorizations model) modelMap in
      let modelMap := setIfPresent "inputs" sprintAll (def_Inputs model) modelMap in
      let modelMap := setIfPresent "settings" sprintAll (def_Settings model) modelMap in
      let modelMap :=
        setIfPresent "resource_crns" stringList (def_ResourceCrns model) modelMap in
      Ok (modelMap, None)
  | IsOtherSubtype =>
      Ok (∅,
          Some "Unrecognized projectv1.ProjectConfigDefinitionResponseIntf subtype encountered")
  end.

Definition dataSourceIbmProjectConfigProjectConfigVersionDefinitionSummaryToMap
    (model : option ProjectConfigVersionDefinitionSummary) : ToMap :=
  let modelMap : gmap string Value := ∅ in
  let! model := deref model in
  let modelMap := setIfPresent "environment_id" VString (vds_EnvironmentID model) modelMap in
  let modelMap := setIfPresent "locator_id" VString (vds_LocatorID model) modelMap in
  Ok (modelMap, None).

Definition dataSourceIbmProjectConfigProjectConfigVersionSummaryToMap
    (model : ProjectConfigVersionSummary) : ToMap :=
  let modelMap : gmap string Value := ∅ in
  let? modelMap :=
    nested "definition"
      (dataSourceIbmProjectConfigProjectConfigVersionDefinitionSummaryToMap
         (vs_Definition model))
      modelMap in
  let modelMap := <["state" := VPtr VString (vs_State model)]> modelMap in
  let modelMap := <["version" := VInt (IntValue (vs_Version model))]> modelMap in
  let modelMap := <["href" := VPtr VString (vs_Href model)]> modelMap in
  Ok (modelMap, None).

End ToMaps.

(** *** The handler *)

(** Where a statement of the handler leaves it: on the next statement
    with a value in hand, at a [return] of diagnostics, or in a panic. *)
Inductive Flow (A : Type) : Type :=
| Next (a : A) (d : ResourceData)
| Exit (diags : Diagnostics) (d : ResourceData)
| Crash (msg : string).
Arguments Next {A} a d.
Arguments Exit {A} diags d.
Arguments Crash {A} msg.

Definition Stmt (A : Type) : Type := ResourceData -> Flow A.

Definition seq {A B : Type} (m : Stmt A) (k : A -> Stmt B) : Stmt B :=
  fun d =>
    match m d with
    | Next a d' => k a d'
    | Exit diags d' => Exit diags d'
    | Crash msg => Crash msg
    end.

Definition pure {A : Type} (a : A) : Stmt A := fun d => Next a d.

Notation "'let*' x ':=' m 'in' k" := (seq m (fun x => k))
  (at level 10, x name, m at level 100, k at level 200, only parsing).
Notation "m '>>' k" := (seq m (fun _ => k))
  (at level 100, k at level 200, right associativity, only parsing).

(** The handler falls off its last statement into [return nil]. *)
Definition run (m : Stmt unit) (d : ResourceData) : Res (Diagnostics * ResourceData) :=
  match m d with
  | Next _ d' => Ok ([], d')
  | Exit diags d' => Ok (diags, d')
  | Crash msg => Panic msg
  end.

Section Read.

Variable stringify : Value -> string.
Variable IntValue : option Z -> Z.
Variable fmt_v : Value -> string.
Variable json_Marshal : Value -> error + string.
Variable json_decode : string -> option Value.

(** [flex.DateTimeToString] *)
Variable DateTimeToString : option DateTime -> string.

(** [flex.TerraformErrorf(err, summary, resource, operation)] and the
    [GetDiag] method of the problem it builds. *)
Variable TerraformProblem : Type.
Variable TerraformErrorf : error -> string -> string -> string -> TerraformProblem.
Variable GetDiag : TerraformProblem -> Diagnostics.

Variable SetErr : string -> Value -> option error.

Definition resourceName : string := "(Data) ibm_project_config".

(** [if err = d.Set(k, v); err != nil { tfErr := ...; return tfErr.GetDiag() }] *)
Definition setAttr (k : string) (v : Value) : Stmt unit :=
  fun d =>
    match dSet SetErr k v d with
    | (Some err, d') =>
        Exit (GetDiag (TerraformErrorf err ("Error setting " +:+ k +:+ ": " +:+ err)
                                       resourceName "read")) d'
    | (None, d') => Next tt d'
    end.

(** [modelMap, err := f(...); if err != nil { tfErr := ...; return tfErr.GetDiag() }] *)
Definition toMapOrExit (r : ToMap) : Stmt (gmap string Value) :=
  fun d =>
    match r with
    | Panic msg => Crash msg
    | Ok (_, Some err) =>
        Exit (GetDiag (TerraformErrorf err err resourceName "read")) d
    | Ok (modelMap, None) => Next modelMap d
    end.

(** [for _, modelItem := range items { ...; out = append(out, modelMap) }] *)
Fixpoint eachToMap {A : Type} (f : A -> ToMap) (items : list A)
                   (out : list Value) : Stmt (list Value) :=
  match items with
  | [] => pure out
  | modelItem :: rest =>
      let* modelMap := toMapOrExit (f modelItem) in
      eachToMap f rest (out ++ [ VMap modelMap ])
  end.

(** [out := []map[string]interface{}{}; if p != nil { ...; out = append(out, modelMap) }] *)
Definition optionalToMap {A : Type} (f : A -> ToMap) (p : option A) : Stmt (list Value) :=
  match p with
  | Some model =>
      let* modelMap := toMapOrExit (f model) in
      pure [ VMap modelMap ]
  | None => pure []
  end.

(** The statements after [d.SetId(...)]. *)
Definition setAttributes (projectConfig : ProjectConfig) : Stmt unit :=
  setAttr "version" (VInt (IntValue (pc_Version projectConfig))) >>
  setAttr "is_draft" (VPtr VBool (pc_IsDraft projectConfig)) >>
  let* needsAttentionState :=
    eachToMap dataSourceIbmProjectConfigProjectConfigNeedsAttentionStateToMap
              (pc_NeedsAttentionState projectConfig) [] in
  setAttr "needs_attention_state" (VList needsAttentionState) >>
  setAttr "created_at" (VString (DateTimeToString (pc_CreatedAt projectConfig))) >>
  setAttr "modified_at" (VString (DateTimeToString (pc_ModifiedAt projectConfig))) >>
  setAttr "last_saved_at" (VString (DateTimeToString (pc_LastSavedAt projectConfig))) >>
  let* outputs :=
    eachToMap (dataSourceIbmProjectConfigOutputValueToMap
                 stringify json_Marshal json_decode)
              (pc_Outputs projectConfig) [] in
  setAttr "outputs" (VList outputs) >>
  let* project :=
    optionalToMap dataSourceIbmProjectConfigProjectReferenceToMap
                  (pc_Project projectConfig) in
  setAttr "project" (VList project) >>
  let* schematics :=
    optionalToMap dataSourceIbmProjectConfigSchematicsMetadataToMap
                  (pc_Schematics projectConfig) in
  setAttr "schematics" (VList schematics) >>
  setAttr "state" (VPtr VString (pc_State projectConfig)) >>
  setAttr "update_available" (VPtr VBool (pc_UpdateAvailable projectConfig)) >>
  setAttr "href" (VPtr VString (pc_Href projectConfig)) >>
  let* definition :=
    optionalToMap (dataSourceIbmProjectConfigProjectConfigDefinitionResponseToMap fmt_v)
                  (pc_Definition projectConfig) in
  setAttr "definition" (VList definition) >>
  let* approvedVersion :=
    optionalToMap (dataSourceIbmProjectConfigProjectConfigVersionSummaryToMap IntValue)
                  (pc_ApprovedVersion projectConfig) in
  setAttr "approved_version" (VList approvedVersion) >>
  let* deployedVersion :=
    optionalToMap (dataSourceIbmProjectConfigProjectConfigVersionSummaryToMap IntValue)
                  (pc_DeployedVersion projectConfig) in
  setAttr "deployed_version" (VList deployedVersion).

(** [dataSourceIbmProjectConfigRead(context, d, meta)]; the
    [log.Printf] calls on the failure paths leave no trace in the
    result. *)
Definition dataSourceIbmProjectConfigRead
    (d : ResourceData) (meta : ClientSession) : Res (Diagnostics * ResourceData) :=
  match ProjectV1 meta with
  | Some err =>
      Ok (GetDiag (TerraformErrorf err err resourceName "read"), d)
  | None =>
      let ProjectID := GetString d "project_id" in
      let ID := GetString d "project_config_id" in
      match GetConfigWithContext meta ProjectID ID with
      | inl err =>
          Ok (GetDiag (TerraformErrorf err ("GetConfigWithContext failed: " +:+ err)
                                       resourceName "read"), d)
      | inr projectConfig =>
          let d := SetId (ProjectID +:+ "/" +:+ ID) d in
          run (setAttributes projectConfig) d
      end
  end.

End Read.

End Project.

(** ** The schema of [ibm_kms_key] *)

(** The part of the plugin SDK's [helper/schema] package the data source
    relies on.  The package is a library outside the sources embedded
    here; it is given the behaviour it has on configurations whose values
    are known. *)
Module schema.

Inductive ValueType : Type :=
| TypeBool | TypeInt | TypeFloat | TypeString | TypeList | TypeMap | TypeSet.

Inductive ElemOf (S : Type) : Type :=
| NoElem
| ElemSchema (s : S)
| ElemResource (fields : list (string * S)).
Arguments NoElem {S}.
Arguments ElemSchema {S} s.
Arguments ElemResource {S} fields.

(** [SchemaValidateFunc]: the value and its key to warnings and errors. *)
Definition SchemaValidateFunc : Type := Value -> string -> list string * list error.

Inductive Schema : Type := mkSchema {
  Type_ : ValueType;
  Optional : bool;
  Required : bool;
  Computed : bool;
  Description : string;
  Default : option Value;
  ExactlyOneOf : list string;
  ValidateFunc : option SchemaValidateFunc;
  Elem : ElemOf Schema;
}.

(** A [&schema.Schema{Type: t}] literal; the functions below fill in
    further fields. *)
Definition ofType (t : ValueType) : Schema :=
  {| Type_ := t; Optional := false; Required := false; Computed := false;
     Description := ""; Default := None; ExactlyOneOf := [];
     ValidateFunc := None; Elem := NoElem |}.

Definition optional (s : Schema) : Schema :=
  {| Type_ := Type_ s; Optional := true; Required := Required s;
     Computed := Computed s; Description := Description s; Default := Default s;
     ExactlyOneOf := ExactlyOneOf s; ValidateFunc := ValidateFunc s; Elem := Elem s |}.

Definition required (s : Schema) : Schema :=
  {| Type_ := Type_ s; Optional := Optional s; Required := true;
     Computed := Computed s; Description := Description s; Default := Default s;
     ExactlyOneOf := ExactlyOneOf s; ValidateFunc := ValidateFunc s; Elem := Elem s |}.

Definition computed (s : Schema) : Schema :=
  {| Type_ := Type_ s; Optional := Optional s; Required := Required s;
     Computed := true; Description := Description s; Default := Default s;
     ExactlyOneOf := ExactlyOneOf s; ValidateFunc := ValidateFunc s; Elem := Elem s |}.

Definition described (text : string) (s : Schema) : Schema :=
  {| Type_ := Type_ s; Optional := Optional s; Required := Required s;
     Computed := Computed s; Description := text; Default := Default s;
     ExactlyOneOf := ExactlyOneOf s; ValidateFunc := ValidateFunc s; Elem := Elem s |}.

Definition withDefault (v : Value) (s : Schema) : Schema :=
  {| Type_ := Type_ s; Optional := Optional s; Required := Required s;
     Computed := Computed s; Description := Description s; Default := Some v;
     ExactlyOneOf := ExactlyOneOf s; ValidateFunc := ValidateFunc s; Elem := Elem s |}.

Definition exactlyOneOf (keys : list string) (s : Schema) : Schema :=
  {| Type_ := Type_ s; Optional := Optional s; Required := Required s;
     Computed := Computed s; Description := Description s; Default := Default s;
     ExactlyOneOf := keys; ValidateFunc := ValidateFunc s; Elem := Elem s |}.

Definition validatedBy (f : SchemaValidateFunc) (s : Schema) : Schema :=
  {| Type_ := Type_ s; Optional := Optional s; Required := Required s;
     Computed := Computed s; Description := Description s; Default := Default s;
     ExactlyOneOf := ExactlyOneOf s; ValidateFunc := Some f; Elem := Elem s |}.

Definition withElem (e : ElemOf Schema) (s : Schema) : Schema :=
  {| Type_ := Type_ s; Optional := Optional s; Required := Required s;
     Computed := Computed s; Description := Description s; Default := Default s;
     ExactlyOneOf := ExactlyOneOf s; ValidateFunc := ValidateFunc s; Elem := e |}.

(** A [schema.Resource]'s [Schema] field, in source order. *)
Definition schemaMap : Type := list (string * Schema).

(** The configuration under validation: the attributes the user wrote,
    with their (known) values. *)
Abbreviation ResourceConfig := (gmap string Value).

Inductive ValidationError : Type :=
| OneOfMissing (keys : list string)
| OneOfConflict (keys specified : list string)
| MissingRequired (k : string)
| ComputedOnly (k : string)
| WrongType (k : string)
| Invalid (k : string) (err : error)
| UnknownKey (k : string).

Definition specifiedIn (c : ResourceConfig) (k : string) : bool :=
  bool_decide (is_Some (c !! k)).

(** [removeDuplicates]: the first occurrence of every element. *)
Fixpoint removeDuplicates (seen elements : list string) : list string :=
  match elements with
  | [] => []
  | x :: rest =>
      if existsb (String.eqb x) seen then removeDuplicates seen rest
      else x :: removeDuplicates (x :: seen) rest
  end.

(** [sort.Strings] *)
Fixpoint insertSorted (x : string) (l : list string) : list string :=
  match l with
  | [] => [ x ]
  | y :: rest => if String.leb x y then x :: l else y :: insertSorted x rest
  end.

Definition sort_Strings (l : list string) : list string := foldr insertSorted [] l.

(** [validateExactlyOneAttribute]: among the keys of [ExactlyOneOf] and
    the attribute's own, none set or more than one set is an error. *)
Definition validateExactlyOneAttribute (k : string) (s : Schema) (c : ResourceConfig)
  : option ValidationError :=
  match ExactlyOneOf s with
  | [] => None
  | _ =>
      let allKeys := sort_Strings (removeDuplicates [] (ExactlyOneOf s ++ [ k ])) in
      let specified := List.filter (specifiedIn c) allKeys in
      if (length specified =? 0)%nat then Some (OneOfMissing allKeys)
      else if (1 <? length specified)%nat then Some (OneOfConflict allKeys specified)
      else None
  end.

Definition hasType (t : ValueType) (v : Value) : bool :=
  match t, v with
  | TypeBool, VBool _ => true
  | TypeInt, VInt _ => true
  | TypeString, VString _ => true
  | TypeList, VList _ => true
  | TypeSet, VList _ => true
  | TypeMap, VMap _ => true
  | _, _ => false
  end.

(** [validateType] for the shapes the data source uses: the value has the
    declared type, and [ValidateFunc], when given, reports no error. *)
Definition validateType (k : string) (raw : Value) (s : Schema) : list ValidationError :=
  if negb (hasType (Type_ s) raw) then [ WrongType k ]
  else
    match ValidateFunc s with
    | Some f => Invalid k <$> snd (f raw k)
    | None => []
    end.

(** [schemaMap.validate] for one attribute. *)
Definition validate (k : string) (s : Schema) (c : ResourceConfig) : list ValidationError :=
  match validateExactlyOneAttribute k s c with
  | Some e => [ e ]
  | None =>
      match c !! k with
      | None => if Required s then [ MissingRequired k ] else []
      | Some raw =>
          if negb (Required s) && negb (Optional s) then [ ComputedOnly k ]
          else validateType k raw s
      end
  end.

(** [TimeoutsConfigKey] *)
Definition TimeoutsConfigKey : string := "timeouts".

(** [_, ok := schema[subk]] *)
Definition declares (m : schemaMap) (subk : string) : bool :=
  existsb (fun '(k, _) => String.eqb k subk) m.

(** The keys of the configuration that [validateObject] reports as
    "Invalid or unknown key": those the schema does not declare, but for
    [timeouts]. *)
Definition unknownKeys (m : schemaMap) (c : ResourceConfig) : list string :=
  List.filter (fun subk => negb (declares m subk) && negb (String.eqb subk TimeoutsConfigKey))
              (map_to_list c).*1.

(** [schemaMap.validateObject] of the plugin SDK at the top level: the
    errors of the declared attributes, then one error for every key of the
    configuration that is not declared. *)
Definition validateObject (m : schemaMap) (c : ResourceConfig) : list ValidationError :=
  concat ((fun '(k, s) => validate k s c) <$> m) ++ (UnknownKey <$> unknownKeys m c).

(** [schemaMap.Validate]: the errors of the whole configuration. *)
Definition Validate (m : schemaMap) (c : ResourceConfig) : list ValidationError :=
  validateObject m c.

(** The defaults that stand in for what the configuration leaves out. *)
Fixpoint defaults (m : schemaMap) (c : ResourceConfig) : gmap string Value :=
  match m with
  | [] => ∅
  | (k, s) :: rest =>
      match c !! k, Default s with
      | None, Some v => <[k := v]> (defaults rest c)
      | _, _ => defaults rest c
      end
  end.

(** The resource data a read handler receives for a configuration. *)
Definition dataFor (m : schemaMap) (c : ResourceConfig) : ResourceData :=
  {| Id := None; attrs := c ∪ defaults m c |}.

End schema.

Module validate.

(** Modelled from the spec: [validate.ValidateAllowedStringValues] of
    package [ibm/validate] is not among the embedded sources; as the
    schema states for [endpoint_type] ("public or private"), the function
    it returns accepts a string exactly when it is one of [validValues],
    and reports one error otherwise. *)
Definition ValidateAllowedStringValues (validValues : list string)
  : schema.SchemaValidateFunc :=
  fun v k =>
    match v with
    | VString input =>
        if existsb (String.eqb input) validValues then ([], [])
        else ([], [ k +:+ " must contain a value from the allowed values, got "
                    +:+ input ])
    | _ => ([], [ k +:+ " must be a string" ])
    end.

End validate.

Module KMSSchema.
Import schema.

Definition policyFields : schemaMap :=
  [ ("id", computed (ofType TypeString));
    ("created_by", computed (ofType TypeString));
    ("creation_date", computed (ofType TypeString));
    ("crn", described "Cloud Resource Name (CRN) that uniquely identifies your cloud resources."
              (computed (ofType TypeString)));
    ("updated_by", computed (ofType TypeString));
    ("last_update_date", computed (ofType TypeString)) ].

(** [DataSourceIBMKMSkey().Schema] *)
Definition DataSourceIBMKMSkey : schemaMap :=
  [ ("instance_id",
     described "Key protect or hpcs instance GUID" (required (ofType TypeString)));
    ("limit",
     described "Limit till the keys to be fetched" (optional (ofType TypeInt)));
    ("key_id",
     exactlyOneOf ["alias"; "key_name"; "key_id"] (optional (ofType TypeString)));
    ("key_name",
     exactlyOneOf ["alias"; "key_name"; "key_id"]
       (described "The name of the key to be fetched" (optional (ofType TypeString))));
    ("alias",
     exactlyOneOf ["alias"; "key_name"; "key_id"]
       (described "The alias associated with the key" (optional (ofType TypeString))));
    ("endpoint_type",
     withDefault (VString "public")
       (described "public or private"
          (validatedBy (validate.ValidateAllowedStringValues ["public"; "private"])
             (optional (ofType TypeString)))));
    ("keys",
     withElem (ElemResource
       [ ("aliases", withElem (ElemSchema (ofType TypeString)) (computed (ofType TypeList)));
         ("name", computed (ofType TypeString));
         ("key_ring_id",
          described "The key ring id of the key to be fetched" (computed (ofType TypeString)));
         ("crn", computed (ofType TypeString));
         ("id", computed (ofType TypeString));
         ("standard_key", computed (ofType TypeBool));
         ("policies",
          withElem (ElemResource
            [ ("rotation",
               withElem (ElemResource
                           (policyFields ++ [ ("interval_month", computed (ofType TypeInt)) ]))
                        (computed (ofType TypeList)));
              ("dual_auth_delete",
               withElem (ElemResource
                           (policyFields ++ [ ("enabled", computed (ofType TypeBool)) ]))
                        (computed (ofType TypeList))) ])
            (computed (ofType TypeList))) ])
       (computed (ofType TypeList))) ].

End KMSSchema.

(** ** Vocabulary of the properties *)

Section PaginationVocabulary.

Import KMS.

Context {Policy : Type}.
Variable meta : ClientSession Policy.
Variable api : API.

(** The [i]-th request of a paginated fetch up to [L] keys: the page
    size and the offset. *)
Definition page_request (L : Z) (i : nat) : Z * Z :=
  (Z.min pageSize (L - pageSize * Z.of_nat i), pageSize * Z.of_nat i).

(** The sum of the requested page sizes. *)
Definition total (cs : list (Z * Z)) : Z := foldr (fun c acc => fst c + acc) 0 cs.

(** The condition under which the page answered by [keys], requested as
    [c = (limit, offset)], is the last one: the page reports fewer keys
    than requested, or with it the offset reaches [L]. *)
Definition stops (L : Z) (c : Z * Z) (keys : Keys) : Prop :=
  Metadata_NumberOfKeys keys < fst c \/ snd c + fst c = L.

(** What holds of the calls made by a fetch that has ended. *)
Record Paged (L : Z) (cs : list (Z * Z)) : Prop := mkPaged {
  paged_request : forall i c, cs !! i = Some c -> c = page_request L i;
  paged_total : total cs <= L;
  paged_goes_on : forall i c,
    cs !! i = Some c -> (S i < length cs)%nat ->
    exists keys, GetKeys meta api i (fst c) (snd c) = inr keys /\ ~ stops L c keys;
}.

(** The last call and its answer. *)
Definition ended (L : Z) (r : LoopResult) : Prop :=
  match r with
  | OutOfFuel => False
  | Done s =>
      Paged L (calls s) /\
      exists c keys,
        last (calls s) = Some c /\
        GetKeys meta api (length (calls s) - 1) (fst c) (snd c) = inr keys /\
        stops L c keys
  | Failed err s =>
      Paged L (calls s) /\
      exists c e,
        last (calls s) = Some c /\
        GetKeys meta api (length (calls s) - 1) (fst c) (snd c) = inl e /\
        err = "[ERROR] Get Keys failed with error: " +:+ e
  end.

(** The loop invariant at the head of a turn. *)
Record Turn (L : Z) (s : Page) : Prop := mkTurn {
  turn_offset : 0 <= offset s < L;
  turn_count : offset s = pageSize * Z.of_nat (length (calls s));
  turn_request : forall i c, calls s !! i = Some c -> c = page_request L i;
  turn_total : total (calls s) = offset s;
  turn_goes_on : forall i c,
    calls s !! i = Some c ->
    exists keys, GetKeys meta api i (fst c) (snd c) = inr keys /\ ~ stops L c keys;
}.

End PaginationVocabulary.

(** ** Sample sessions and data *)

Module Sample.

Definition key (name : string) : KMS.Key :=
  {| KMS.ID := "id-" +:+ name; KMS.Name := name; KMS.CRN := "crn:" +:+ name;
     KMS.Extractable := false; KMS.Aliases := [ name +:+ "-alias" ];
     KMS.KeyRingID := "default" |}.

(** A key-protect instance whose every page reports as many keys as were
    asked for, and whose keys carry no policies. *)
Definition session : KMS.ClientSession unit :=
  {| KMS.KeyManagementAPI := inr {| KMS.URL := ""; KMS.Config_InstanceID := "" |};
     KMS.ResourceControllerV2API := None;
     KMS.GetResourceInstance := fun _ => (Some {| KMS.Extensions := ∅ |}, "200 OK", None);
     KMS.KmsEndpointURL := fun _ _ _ => inr "https://us-south.kms.cloud.ibm.com";
     KMS.GetKeys := fun _ _ limit _ =>
       inr {| KMS.Metadata_NumberOfKeys := limit;
              KMS.Keys_Keys := [ key "a"; key "b"; key "a" ] |};
     KMS.GetPolicies := fun _ _ => inr [];
     KMS.GetKey := fun _ id => inr (key id) |}.

(** The same instance with the policies service down. *)
Definition policiesDown : KMS.ClientSession unit :=
  {| KMS.KeyManagementAPI := KMS.KeyManagementAPI session;
     KMS.ResourceControllerV2API := KMS.ResourceControllerV2API session;
     KMS.GetResourceInstance := KMS.GetResourceInstance session;
     KMS.KmsEndpointURL := KMS.KmsEndpointURL session;
     KMS.GetKeys := KMS.GetKeys session;
     KMS.GetPolicies := fun _ _ => inl "503 Service Unavailable";
     KMS.GetKey := KMS.GetKey session |}.

Definition api : KMS.API :=
  {| KMS.URL := "https://us-south.kms.cloud.ibm.com"; KMS.Config_InstanceID := "guid-1" |}.

Definition crn : string := "crn:v1:bluemix:public:kms:us-south:a/acct:guid-1::".

(** A configuration that looks a key up by name, with a limit. *)
Definition byName (name : string) (limit : Z) : ResourceData :=
  {| Id := None;
     attrs := <["limit" := VInt limit]>
                (<["key_name" := VString name]>
                   (<["endpoint_type" := VString "public"]>
                      (<["instance_id" := VString crn]> ∅))) |}.

(** Every write is accepted. *)
Definition accept : string -> Value -> option error := fun _ _ => None.

Definition flattenPolicies : list unit -> Value := fun ps => VList ((fun _ => VNil) <$> ps).

End Sample.

Section KMSVocabulary.

Import KMS.

Context {Policy : Type}.

(** The handler gets past its preamble (lines 180-211) and goes on to
    look keys up through [api]: both clients are obtained, the resource
    instance is found and the endpoint URL is resolved. *)
Definition ready (meta : ClientSession Policy) (d : ResourceData) (api : API) : Prop :=
  exists api0 instanceData resp URL,
    KeyManagementAPI meta = inr api0 /\
    ResourceControllerV2API meta = None /\
    GetResourceInstance meta (instanceIDOf d) = (Some instanceData, resp, None) /\
    KmsEndpointURL meta api0 (GetString d "endpoint_type") (Extensions instanceData)
      = inr URL /\
    api = {| URL := URL; Config_InstanceID := instanceIDOf d |}.

End KMSVocabulary.

Section PowerVocabulary.

Import Power.

(** No pointer the handler dereferences is nil: the three fields of the
    maximum storage allocation, when there is one, and every entry of
    the pools with its maximum allocation size. *)
Definition allocationComplete (msa : option MaximumStorageAllocation) : bool :=
  match msa with
  | Some msa =>
      match msa_MaxAllocationSize msa, msa_StoragePool msa, msa_StorageType msa with
      | Some _, Some _, Some _ => true
      | _, _, _ => false
      end
  | None => true
  end.

Definition poolComplete (sp : option StoragePoolCapacity) : bool :=
  match sp with
  | Some sp =>
      match sp_MaxAllocationSize sp with
      | Some _ => true
      | None => false
      end
  | None => false
  end.

Definition complete (stc : StorageTypeCapacity) : bool :=
  allocationComplete (stc_MaximumStorageAllocation stc)
  && forallb poolComplete (stc_StoragePoolsCapacity stc).

(** The entry of [storage_pools_capacity] that stands for a pool. *)
Definition flattens (sp : option StoragePoolCapacity) (entry : Value) : Prop :=
  exists pool m,
    sp = Some pool /\ entry = VMap m /\
    m !! Attr_MaxAllocationSize = VInt <$> sp_MaxAllocationSize pool /\
    m !! Attr_PoolName = Some (VString (sp_PoolName pool)) /\
    m !! Attr_StorageType = Some (VString (sp_StorageType pool)) /\
    m !! Attr_TotalCapacity = Some (VInt (sp_TotalCapacity pool)).

End PowerVocabulary.

Module PowerSample.

Definition pool (name : string) (size : option Z) : Power.StoragePoolCapacity :=
  {| Power.sp_MaxAllocationSize := size; Power.sp_PoolName := name;
     Power.sp_StorageType := "tier1"; Power.sp_TotalCapacity := 1000 |}.

Definition capacity : Power.StorageTypeCapacity :=
  {| Power.stc_MaximumStorageAllocation :=
       Some {| Power.msa_MaxAllocationSize := Some 500;
               Power.msa_StoragePool := Some "pool-1";
               Power.msa_StorageType := Some "tier1" |};
     Power.stc_StoragePoolsCapacity :=
       [ Some (pool "pool-1" (Some 500)); Some (pool "pool-2" (Some 300)) ] |}.

(** A response in which the allocation lacks its size. *)
Definition capacityWithoutSize : Power.StorageTypeCapacity :=
  {| Power.stc_MaximumStorageAllocation :=
       Some {| Power.msa_MaxAllocationSize := None;
               Power.msa_StoragePool := Some "pool-1";
               Power.msa_StorageType := Some "tier1" |};
     Power.stc_StoragePoolsCapacity := [ Some (pool "pool-1" (Some 500)) ] |}.

Definition session (answer : error + Power.StorageTypeCapacity) : Power.ClientSession :=
  {| Power.IBMPISession := None;
     Power.GetStorageTypeCapacity := fun _ _ => answer |}.

Definition data : ResourceData :=
  {| Id := None;
     attrs := <[Power.PITypeName := VString "tier1"]>
                (<[Power.PICloudInstanceId := VString "cloud-1"]> ∅) |}.

(** [flex.Flatten] stood in for by the identity on maps. *)
Definition flatten : gmap string Value -> Value := VMap.

End PowerSample.

(** A returned message that carries the SDK's error text [sdk] behind a
    context of its own. *)
Definition adds_context (sdk out : string) : Prop :=
  exists context rest, context <> "" /\ out = context +:+ sdk +:+ rest.

Section ProjectVocabulary.

Import Project.

(** A statement that leaves the identifier alone. *)
Definition keepsId {A : Type} (m : Stmt A) : Prop :=
  forall d,
    match m d with
    | Next _ d' => Id d' = Id d
    | Exit _ d' => Id d' = Id d
    | Crash _ => True
    end.

End ProjectVocabulary.

Module ProjectSample.

Definition stringify : Value -> string := fun v =>
  match v with
  | VString s => s
  | _ => "<json>"
  end.

Definition IntValue : option Z -> Z := fun p =>
  match p with
  | Some z => z
  | None => 0
  end.

Definition fmt_v : Value -> string := stringify.

(** [json.Marshal] refuses the values that have no JSON form. *)
Definition json_Marshal : Value -> error + string := fun v =>
  match v with
  | VOther desc => inl ("json: unsupported value: " +:+ desc)
  | _ => inr "<json>"
  end.

Definition json_decode : string -> option Value := fun _ => None.

Definition DateTimeToString : option Project.DateTime -> string := fun _ => "".

(** A problem that keeps the error and the summary, and a diagnostic
    made of the summary. *)
Definition TerraformErrorf : error -> string -> string -> string -> error * string :=
  fun err summary _ _ => (err, summary).

Definition GetDiag : error * string -> Diagnostics :=
  fun p => [ {| severity := SevError; Summary := snd p; Detail := "" |} ].

Definition output (value : Value) : Project.OutputValue :=
  {| Project.ov_Name := Some "endpoint"; Project.ov_Description := None;
     Project.ov_Value := value |}.

Definition config (outputs : list Project.OutputValue) : Project.ProjectConfig :=
  {| Project.pc_Version := Some 1; Project.pc_IsDraft := Some true;
     Project.pc_NeedsAttentionState := [];
     Project.pc_CreatedAt := None; Project.pc_ModifiedAt := None;
     Project.pc_LastSavedAt := None;
     Project.pc_Outputs := outputs;
     Project.pc_Project := None; Project.pc_Schematics := None;
     Project.pc_State := Some "draft"; Project.pc_UpdateAvailable := None;
     Project.pc_Href := None; Project.pc_Definition := None;
     Project.pc_ApprovedVersion := None; Project.pc_DeployedVersion := None |}.

Definition session (answer : error + Project.ProjectConfig) : Project.ClientSession :=
  {| Project.ProjectV1 := None;
     Project.GetConfigWithContext := fun _ _ => answer |}.

Definition data : ResourceData :=
  {| Id := None;
     attrs := <["project_config_id" := VString "cfg-1"]>
                (<["project_id" := VString "prj-1"]> ∅) |}.

Definition Read : ResourceData -> Project.ClientSession -> Res (Diagnostics * ResourceData) :=
  Project.dataSourceIbmProjectConfigRead
    stringify IntValue fmt_v json_Marshal json_decode DateTimeToString
    (error * string) TerraformErrorf GetDiag Sample.accept.

End ProjectSample.

Section KMSErrorVocabulary.

Import KMS.

Context {Policy : Type}.

(** Every call of the trace was answered with a page. *)
Definition answered (meta : ClientSession Policy) (api : API) (cs : list (Z * Z)) : Prop :=
  forall i c, cs !! i = Some c -> exists keys, GetKeys meta api i (fst c) (snd c) = inr keys.

(** The argument of [GetKey] when [key_name] is not set: [key_id] when
    that is set, the alias otherwise. *)
Definition lookupID (d : ResourceData) : string :=
  let '(v, ok) := GetOkString d "key_id" in
  if ok then v else GetString d "alias".

End KMSErrorVocabulary.

(** The three ways to name the key, of which the schema wants one. *)
Definition oneOfKeys : list string := [ "alias"; "key_name"; "key_id" ].

Module SchemaSample.

(** A configuration that looks a key up by name in the private
    endpoint. *)
Definition byName : schema.ResourceConfig :=
  <["endpoint_type" := VString "private"]>
    (<["key_name" := VString "a"]>
       (<["instance_id" := VString "guid-1"]> ∅)).

(** One that names both a key and an alias. *)
Definition byNameAndAlias : schema.ResourceConfig :=
  <["alias" := VString "a-alias"]> byName.

End SchemaSample.

(** ** More vocabulary: pages, joins, declared fields *)

Section FetchVocabulary.

Import KMS.

Context {Policy : Type}.

(** The keys of the page that answered the [i]-th call [c]; a failed call
    brings none. *)
Definition pageKeys (meta : ClientSession Policy) (api : API) (i : nat) (c : Z * Z)
  : list Key :=
  match GetKeys meta api i (fst c) (snd c) with
  | inr keys => Keys_Keys keys
  | inl _ => []
  end.

(** The keys of all pages of a trace of calls, in call order. *)
Definition pagesOf (meta : ClientSession Policy) (api : API) (cs : list (Z * Z))
  : list Key :=
  concat (imap (pageKeys meta api) cs).

(** The session with another [GetKey], and with another [GetKeys]. *)
Definition withGetKey (g : API -> string -> error + Key) (meta : ClientSession Policy)
  : ClientSession Policy :=
  {| KeyManagementAPI := KeyManagementAPI meta;
     ResourceControllerV2API := ResourceControllerV2API meta;
     GetResourceInstance := GetResourceInstance meta;
     KmsEndpointURL := KmsEndpointURL meta;
     GetKeys := GetKeys meta;
     GetPolicies := GetPolicies meta;
     GetKey := g |}.

Definition withGetKeys (g : API -> nat -> Z -> Z -> error + Keys)
                       (meta : ClientSession Policy) : ClientSession Policy :=
  {| KeyManagementAPI := KeyManagementAPI meta;
     ResourceControllerV2API := ResourceControllerV2API meta;
     GetResourceInstance := GetResourceInstance meta;
     KmsEndpointURL := KmsEndpointURL meta;
     GetKeys := g;
     GetPolicies := GetPolicies meta;
     GetKey := GetKey meta |}.

End FetchVocabulary.

(** [strings.Join(segs, ":")] *)
Fixpoint Join (segs : list string) : string :=
  match segs with
  | [] => ""
  | [ seg ] => seg
  | seg :: rest => seg +:+ String colon (Join rest)
  end.

(** ** The schema of [ibm_pi_storage_type_capacity] *)

Module validation.

(** [validation.NoZeroValues] of the plugin SDK, on the two kinds of
    values it reports on: an empty string and a zero integer are errors.
    (On any other kind of zero value it panics; the type check that comes
    before it keeps such values away from a string or integer
    attribute.) *)
Definition NoZeroValues : schema.SchemaValidateFunc :=
  fun i k =>
    match i with
    | VString s =>
        if String.eqb s "" then ([], [ k +:+ " must not be empty, got " ])
        else ([], [])
    | VInt z =>
        if z =? 0 then ([], [ k +:+ " must not be zero, got 0" ])
        else ([], [])
    | _ => ([], [])
    end.

End validation.

Module PowerSchema.
Import schema.

(** [DataSourceIBMPIStorageTypeCapacity().Schema] *)
Definition DataSourceIBMPIStorageTypeCapacity : schemaMap :=
  [ (Power.PICloudInstanceId,
     validatedBy validation.NoZeroValues (required (ofType TypeString)));
    (Power.PITypeName,
     described "Storage type name"
       (validatedBy validation.NoZeroValues (required (ofType TypeString))));
    (Power.Attr_MaximumStorageAllocation,
     described "Maximum storage allocation" (computed (ofType TypeMap)));
    (Power.Attr_StoragePoolsCapacity,
     withElem (ElemResource
       [ (Power.Attr_MaxAllocationSize,
          described "Maximum allocation storage size (GB)" (computed (ofType TypeInt)));
         (Power.Attr_PoolName, described "Pool name" (computed (ofType TypeString)));
         (Power.Attr_StorageType,
          described "Storage type of the storage pool" (computed (ofType TypeString)));
         (Power.Attr_TotalCapacity,
          described "Total pool capacity (GB)" (computed (ofType TypeInt))) ])
       (described "Storage pools capacity" (computed (ofType TypeList)))) ].

End PowerSchema.

(** ** Vocabulary of the schemas *)

Section SchemaVocabulary.

Import schema.

(** The schema an attribute is declared with. *)
Fixpoint fieldOf (m : schemaMap) (k : string) : option Schema :=
  match m with
  | [] => None
  | (k', s) :: rest => if String.eqb k' k then Some s else fieldOf rest k
  end.

(** The fields of the resource an attribute's elements are made of. *)
Definition elemFields (m : schemaMap) (k : string) : schemaMap :=
  match fieldOf m k with
  | Some s =>
      match Elem s with
      | ElemResource fields => fields
      | _ => []
      end
  | None => []
  end.

(** A map written to a list attribute fits the element's resource: each of
    its entries is a declared field, with a value of the declared type
    unless the field is one of [opaque]. *)
Definition fits (fields : schemaMap) (opaque : list string) (m : gmap string Value) : Prop :=
  forall k v,
    m !! k = Some v ->
    exists s, fieldOf fields k = Some s /\
              (k ∉ opaque -> hasType (Type_ s) v = true).

(** A configuration as Terraform hands it to the provider: every value
    of a declared attribute has the attribute's type. *)
Definition typed (m : schemaMap) (c : ResourceConfig) : bool :=
  forallb (fun '(k, v) =>
             match fieldOf m k with
             | Some s => hasType (Type_ s) v
             | None => true
             end)
          (map_to_list c).

(** A configuration that sets nothing but what the schema declares, the
    [timeouts] block apart. *)
Definition declaredOnly (m : schemaMap) (c : ResourceConfig) : Prop :=
  forall k, is_Some (c !! k) -> is_Some (fieldOf m k) \/ k = TimeoutsConfigKey.

(** The choices the schema of [ibm_kms_key] leaves for its declared
    attributes. *)
Definition kmsAccepted (c : ResourceConfig) : Prop :=
  (exists s, c !! "instance_id" = Some (VString s)) /\
  (c !! "limit" = None \/ exists z, c !! "limit" = Some (VInt z)) /\
  length (List.filter (specifiedIn c) oneOfKeys) = 1%nat /\
  (forall k, k ∈ oneOfKeys -> c !! k = None \/ exists s, c !! k = Some (VString s)) /\
  (c !! "endpoint_type" = None \/
   c !! "endpoint_type" = Some (VString "public") \/
   c !! "endpoint_type" = Some (VString "private")) /\
  c !! "keys" = None.

(** The choices the schema of [ibm_pi_storage_type_capacity] leaves for
    its declared attributes. *)
Definition powerAccepted (c : ResourceConfig) : Prop :=
  (exists s, c !! Power.PICloudInstanceId = Some (VString s) /\ s <> "") /\
  (exists s, c !! Power.PITypeName = Some (VString s) /\ s <> "") /\
  c !! Power.Attr_MaximumStorageAllocation = None /\
  c !! Power.Attr_StoragePoolsCapacity = None.

End SchemaVocabulary.


(** ** Vocabulary of the outcomes *)

(** What the caller of the [ibm_kms_key] read gets back: the error, if
    the read returns at all. *)
Definition returned (r : KMS.ReadResult) : option (option error) :=
  match r with
  | KMS.Returned err _ => Some err
  | KMS.Diverges => None
  end.

(** What the caller of a [ReadContext] handler gets back: the
    diagnostics, or the panic. *)
Definition diagnostics (r : Res (Diagnostics * ResourceData)) : Res Diagnostics :=
  match r with
  | Ok (diags, _) => Ok diags
  | Panic msg => Panic msg
  end.

(** ** Vocabulary of the [ibm_project_config] read *)

Section ProjectReadVocabulary.

Import Project.

(** The attributes the handler writes, in the order of its statements. *)
Definition projectAttributes : list string :=
  [ "version"; "is_draft"; "needs_attention_state"; "created_at"; "modified_at";
    "last_saved_at"; "outputs"; "project"; "schematics"; "state"; "update_available";
    "href"; "definition"; "approved_version"; "deployed_version" ].

(** A statement that leaves the identifier alone, writes to none but the
    attributes [ks], and returns no diagnostics but those in [Q]. *)
Definition confined {A : Type} (ks : list string) (Q : Diagnostics -> Prop)
                    (m : Stmt A) : Prop :=
  forall d,
    match m d with
    | Next _ d' =>
        Id d' = Id d /\ (forall k, k ∉ ks -> attrs d' !! k = attrs d !! k)
    | Exit diags d' =>
        Id d' = Id d /\ (forall k, k ∉ ks -> attrs d' !! k = attrs d !! k) /\ Q diags
    | Crash _ => True
    end.

(** An attribute that holds the maps of a list of models, one per model
    and in the models' order, each flattened without an error. *)
Definition listOf {A : Type} (f : A -> ToMap) (items : list A) (v : option Value) : Prop :=
  exists ms,
    v = Some (VList (VMap <$> ms)) /\
    Forall2 (fun item m => f item = Ok (m, None)) items ms.

(** An attribute that holds the map of an optional model: the empty list
    for a nil pointer, a list of one map otherwise. *)
Definition optionOf {A : Type} (f : A -> ToMap) (p : option A) (v : option Value) : Prop :=
  match p with
  | None => v = Some (VList [])
  | Some model => exists m, f model = Ok (m, None) /\ v = Some (VList [ VMap m ])
  end.

End ProjectReadVocabulary.

Section ProjectResponseVocabulary.

Import Project.

Variable json_Marshal : Value -> error + string.

(** A response every part of which the handler can flatten: each output
    value is nil or has a JSON form, the project and the two versions,
    where present, carry their definition, and the definition is of one
    of the three known subtypes. *)
Definition flattenable (projectConfig : ProjectConfig) : Prop :=
  (forall o, o ∈ pc_Outputs projectConfig ->
     ov_Value o = VNil \/ exists jsonStr, json_Marshal (ov_Value o) = inr jsonStr) /\
  (forall p, pc_Project projectConfig = Some p -> is_Some (pr_Definition p)) /\
  pc_Definition projectConfig <> Some IsOtherSubtype /\
  (forall v, pc_ApprovedVersion projectConfig = Some v -> is_Some (vs_Definition v)) /\
  (forall v, pc_DeployedVersion projectConfig = Some v -> is_Some (vs_Definition v)).

End ProjectResponseVocabulary.

(** ** More sample data *)

Module MoreSample.

(** A configuration that looks a key up by its identifier. *)
Definition byID (id : string) : ResourceData :=
  {| Id := None;
     attrs := <["key_id" := VString id]>
                (<["endpoint_type" := VString "public"]>
                   (<["instance_id" := VString Sample.crn]> ∅)) |}.

(** The fields of [Sample.crn]. *)
Definition segments : list string :=
  [ "crn"; "v1"; "bluemix"; "public"; "kms"; "us-south"; "a/acct"; "guid-1"; ""; "" ].

(** A project reference without its definition. *)
Definition reference : Project.ProjectReference :=
  {| Project.pr_ID := Some "prj-1"; Project.pr_Href := None;
     Project.pr_Definition := None; Project.pr_Crn := None |}.

End MoreSample.

(** * Properties *)

(** ** Arithmetic on [int] and [strings.Split] *)

Lemma int_wrap_id (z : Z) : int_range z -> int_wrap z = z.
Proof.
  unfold int_range, int_min, int_max, int_wrap. intros Hz.
  rewrite Z.mod_small; lia.
Qed.

Lemma int_sub_exact (a b : Z) : int_range (a - b) -> int_sub a b = a - b.
Proof. apply int_wrap_id. Qed.

Lemma int_add_exact (a b : Z) : int_range (a + b) -> int_add a b = a + b.
Proof. apply int_wrap_id. Qed.

Example Split_crn :
  Split "crn:v1:bluemix:public:kms:us-south:a/acct:guid-1::"
  = ["crn"; "v1"; "bluemix"; "public"; "kms"; "us-south"; "a/acct"; "guid-1"; ""; ""].
Proof. reflexivity. Qed.

Example Split_empty : Split "" = [ "" ].
Proof. reflexivity. Qed.

Lemma Split_not_nil (s : string) : Split s <> [].
Proof.
  destruct s as [| c s]; simpl; [done |].
  destruct (Ascii.eqb c colon); [done |]. by destruct (Split s).
Qed.

(** No segment contains a colon. *)
Lemma Split_segments (s seg : string) : In seg (Split s) -> has_colon seg = false.
Proof.
  revert seg. induction s as [| c s IH]; intros seg Hin; simpl in Hin.
  - destruct Hin as [<- | []]. done.
  - destruct (Ascii.eqb c colon) eqn:Hc.
    + destruct Hin as [<- | Hin]; [done | by apply IH].
    + destruct (Split s) as [| seg0 rest] eqn:Hs.
      * destruct Hin as [<- | []]. simpl. by rewrite Hc.
      * destruct Hin as [<- | Hin].
        -- simpl. rewrite Hc. apply IH. by left.
        -- apply IH. by right.
Qed.

(** A string without a colon is its own single segment. *)
Lemma Split_no_colon (s : string) : has_colon s = false -> Split s = [ s ].
Proof.
  induction s as [| c s IH]; simpl; [done |].
  destruct (Ascii.eqb c colon); [done |]. simpl. intros Hs. by rewrite IH.
Qed.

(** A segment of a string that splits into several differs from it. *)
Lemma Split_segment_differs (s seg : string) :
  In seg (Split s) -> (1 < length (Split s))%nat -> seg <> s.
Proof.
  intros Hin Hlen ->. apply Split_segments in Hin.
  rewrite (Split_no_colon s Hin) in Hlen. simpl in Hlen. lia.
Qed.

(** ** Pagination in [dataSourceIBMKMSKeyRead] *)

Section Pagination.

Import KMS.

Context {Policy : Type}.
Variable meta : ClientSession Policy.
Variable api : API.

Lemma total_snoc (cs : list (Z * Z)) (c : Z * Z) : total (cs ++ [ c ]) = total cs + fst c.
Proof. unfold total. induction cs as [| x cs IH]; simpl; lia. Qed.

Lemma Turn_start (L : Z) : 0 < L -> Turn meta api L startPage.
Proof.
  intros HL. split; simpl; try done; try lia.
Qed.

(** The calls after one more request, given what held before. *)
Lemma Paged_snoc (L : Z) (s : Page) (lim : Z) :
  Turn meta api L s ->
  lim = Z.min pageSize (L - offset s) ->
  Paged meta api L (calls s ++ [ (lim, offset s) ]).
Proof.
  intros [Hoff Hcnt Hreq Htot Hgo] Hlim. split.
  - intros i c Hi. apply lookup_app_Some in Hi as [Hi | [Hge Hi]].
    + by apply Hreq.
    + apply list_lookup_singleton_Some in Hi as [Hi <-].
      unfold page_request. rewrite Hlim, Hcnt.
      replace i with (length (calls s)) by lia. done.
  - rewrite total_snoc, Htot. simpl. lia.
  - intros i c Hi Hlt. rewrite length_app in Hlt. simpl in Hlt.
    apply lookup_app_Some in Hi as [Hi | [Hge Hi]].
    + by apply Hgo.
    + lia.
Qed.

Lemma last_call (cs : list (Z * Z)) (c : Z * Z) :
  last (cs ++ [ c ]) = Some c /\ (length (cs ++ [ c ]) - 1 = length cs)%nat.
Proof. rewrite last_snoc, length_app. simpl. split; [done | lia]. Qed.

(** Enough fuel lets the loop end, and the calls it made are paged. *)
Lemma loop_ended (L : Z) :
  int_range L ->
  forall (fuel : nat) (s : Page),
    Turn meta api L s ->
    (Z.to_nat ((L - offset s) / pageSize) < fuel)%nat ->
    ended meta api L (loop meta api fuel L s).
Proof.
  intros HL fuel. induction fuel as [| fuel IH]; intros s HT Hfuel; [lia |].
  pose proof HT as [Hoff Hcnt Hreq Htot Hgo].
  assert (Hsub : int_sub L (offset s) = L - offset s).
  { apply int_sub_exact. unfold int_range, int_min, int_max in *. lia. }
  simpl. unfold loopBody. rewrite Hsub.
  destruct (Z.ltb_spec (offset s) L) as [_ | ?]; [| lia].
  destruct (Z.ltb_spec (L - offset s) pageSize) as [Hshort | Hfull].
  - (* the last, shorter page *)
    pose proof (Paged_snoc L s (L - offset s) HT ltac:(lia)) as HP.
    destruct (last_call (calls s) (L - offset s, offset s)) as [Hlast Hlen].
    destruct (GetKeys meta api (length (calls s)) (L - offset s) (offset s))
      as [e | keys] eqn:Hcall; simpl.
    + split; [done |]. exists (L - offset s, offset s), e.
      rewrite Hlen. simpl. by rewrite Hcall.
    + split; [done |]. exists (L - offset s, offset s), keys.
      rewrite Hlen. simpl. rewrite Hcall. repeat split; try done.
      right. simpl. lia.
  - (* a full page *)
    pose proof (Paged_snoc L s pageSize HT ltac:(lia)) as HP.
    destruct (last_call (calls s) (pageSize, offset s)) as [Hlast Hlen].
    assert (Hadd : int_add (offset s) pageSize = offset s + pageSize).
    { apply int_add_exact. unfold int_range, int_min, int_max, pageSize in *. lia. }
    destruct (GetKeys meta api (length (calls s)) pageSize (offset s))
      as [e | keys] eqn:Hcall; simpl.
    + split; [done |]. exists (pageSize, offset s), e.
      rewrite Hlen. simpl. by rewrite Hcall.
    + rewrite Hadd.
      destruct (Z.ltb_spec (Metadata_NumberOfKeys keys) pageSize) as [Hfew | Hmany];
        [| destruct (Z.eqb_spec (offset s + pageSize) L) as [Hend | Hmore]]; simpl.
      * split; [done |]. exists (pageSize, offset s), keys.
        rewrite Hlen. simpl. rewrite Hcall. repeat split; try done. by left.
      * split; [done |]. exists (pageSize, offset s), keys.
        rewrite Hlen. simpl. rewrite Hcall. repeat split; try done. by right.
      * apply IH.
        -- split; simpl.
           ++ unfold pageSize in *. lia.
           ++ rewrite length_app. simpl. unfold pageSize in *. lia.
           ++ apply HP.
           ++ rewrite total_snoc, Htot. done.
           ++ intros i c Hi. apply lookup_app_Some in Hi as [Hi | [Hge Hi]].
              ** by apply Hgo.
              ** apply list_lookup_singleton_Some in Hi as [Hi <-].
                 replace i with (length (calls s)) by lia.
                 exists keys. simpl. split; [done |].
                 unfold stops. simpl. lia.
        -- simpl. unfold pageSize in *.
           replace (L - (offset s + 200)) with ((L - offset s) + (-1) * 200) by lia.
           rewrite Z.div_add by lia.
           assert (1 <= (L - offset s) / 200) by (apply Z.div_le_lower_bound; lia).
           lia.
Qed.

Lemma fetchKeys_limit (fuel : nat) (L : Z) :
  L <> 0 -> fetchKeys meta api fuel L = loop meta api fuel L startPage.
Proof.
  intros HL. unfold fetchKeys. by destruct (Z.eqb_spec L 0).
Qed.

(** With a positive limit and more than [L / 200] turns, the fetch ends
    and its calls are paged. *)
Lemma fetchKeys_ended (L : Z) (fuel : nat) :
  0 < L ->
  int_range L ->
  (Z.to_nat (L / pageSize) < fuel)%nat ->
  ended meta api L (fetchKeys meta api fuel L).
Proof.
  intros Hpos HL Hfuel. rewrite fetchKeys_limit by lia.
  apply loop_ended; [done | by apply Turn_start |].
  simpl. by rewrite Z.sub_0_r.
Qed.

(** A negative limit makes every turn of the loop skip its body: the
    state never changes and no [break] is reached. *)
Lemma loop_negative_limit (L : Z) (fuel : nat) (s : Page) :
  L < 0 -> offset s = 0 -> loop meta api fuel L s = OutOfFuel.
Proof.
  intros HL Hs. induction fuel as [| fuel IH]; [done |].
  simpl. unfold loopBody. rewrite Hs.
  destruct (Z.ltb_spec 0 L) as [? | _]; [lia |]. exact IH.
Qed.

Lemma fetchKeys_negative_limit (L : Z) (fuel : nat) :
  L < 0 -> fetchKeys meta api fuel L = OutOfFuel.
Proof.
  intros HL. rewrite fetchKeys_limit by lia. by apply loop_negative_limit.
Qed.

(** Without a limit there is one call and no loop. *)
Lemma fetchKeys_no_limit (fuel : nat) : fetchKeys meta api fuel 0 <> OutOfFuel.
Proof.
  unfold fetchKeys. simpl. by destruct (GetKeys meta api 0 0 0).
Qed.

End Pagination.


Example fetch_450_calls :
  match KMS.fetchKeys Sample.session Sample.api 3 450 with
  | KMS.Done s => KMS.calls s = [ (200, 0); (200, 200); (50, 400) ]
  | _ => False
  end.
Proof. vm_compute. reflexivity. Qed.

Example fetch_400_calls :
  match KMS.fetchKeys Sample.session Sample.api 3 400 with
  | KMS.Done s => KMS.calls s = [ (200, 0); (200, 200) ]
  | _ => False
  end.
Proof. vm_compute. reflexivity. Qed.

(** ** Writes to the resource data *)

Section ResourceDataFacts.

Variable SetErr : string -> Value -> option error.

Lemma dSet__Id (k : string) (v : Value) (d : ResourceData) :
  Id (dSet_ SetErr k v d) = Id d.
Proof. unfold dSet_, dSet. by destruct (SetErr k v). Qed.

Lemma dSet__accepted (k : string) (v : Value) (d : ResourceData) :
  SetErr k v = None -> attrs (dSet_ SetErr k v d) = <[k := v]> (attrs d).
Proof. intros H. unfold dSet_, dSet. by rewrite H. Qed.

Lemma dSet__other (k k' : string) (v : Value) (d : ResourceData) :
  k <> k' -> attrs (dSet_ SetErr k v d) !! k' = attrs d !! k'.
Proof.
  intros Hne. unfold dSet_, dSet. destruct (SetErr k v); simpl; [done |].
  by rewrite lookup_insert_ne.
Qed.

End ResourceDataFacts.

(** ** The [ibm_kms_key] handler *)

Section KMSRead.

Import KMS.

Context {Policy : Type}.
Variable FlattenKeyPolicies : list Policy -> Value.
Variable SetErr : string -> Value -> option error.

Local Abbreviation Read := (dataSourceIBMKMSKeyRead FlattenKeyPolicies SetErr).

Lemma KMSRead_ready (fuel : nat) (d : ResourceData) (meta : ClientSession Policy) (api : API) :
  ready meta d api ->
  Read fuel d meta = lookupKeys FlattenKeyPolicies SetErr fuel d meta api (instanceIDOf d).
Proof.
  intros (api0 & inst & resp & url & H1 & H2 & H3 & H4 & ->).
  unfold dataSourceIBMKMSKeyRead. rewrite H1, H2, H3. simpl. by rewrite H4.
Qed.

(** C2.  With [key_name] set and a negative [limit], a run that gets past
    its preamble never returns: whatever number of turns the pagination
    loop is given, it does not end. *)
Theorem negative_limit_never_returns
    (fuel : nat) (d : ResourceData) (meta : ClientSession Policy) (api : API) (v : string) :
  ready meta d api ->
  GetOkString d "key_name" = (v, true) ->
  GetInt d "limit" < 0 ->
  Read fuel d meta = Diverges.
Proof.
  intros Hready Hname Hlimit. rewrite (KMSRead_ready fuel d meta api Hready).
  unfold lookupKeys. rewrite Hname.
  by rewrite fetchKeys_negative_limit.
Qed.

(** *** What a successful run leaves behind *)

Lemma store_Id (instanceID : string) (keyMap : list Value) (d : ResourceData) :
  Id (store SetErr instanceID keyMap d) = Some instanceID.
Proof. unfold store. by rewrite !dSet__Id. Qed.

Lemma store_instance_id (instanceID : string) (keyMap : list Value) (d : ResourceData) :
  SetErr "instance_id" (VString instanceID) = None ->
  attrs (store SetErr instanceID keyMap d) !! "instance_id" = Some (VString instanceID).
Proof.
  intros H. unfold store. rewrite dSet__accepted by done. apply lookup_insert_eq.
Qed.

Lemma store_keys (instanceID : string) (keyMap : list Value) (d : ResourceData) :
  SetErr "keys" (VList keyMap) = None ->
  attrs (store SetErr instanceID keyMap d) !! "keys" = Some (VList keyMap).
Proof.
  intros H. unfold store. rewrite dSet__other by done.
  rewrite dSet__accepted by done. apply lookup_insert_eq.
Qed.

Lemma selectByName_success meta api instanceID v totalKeys d d' :
  selectByName FlattenKeyPolicies SetErr meta api instanceID v totalKeys d
  = Returned None d' ->
  exists keyMap, d' = store SetErr instanceID keyMap d.
Proof.
  unfold selectByName. intros H.
  repeat case_match; simplify_eq; eauto.
Qed.

Lemma selectByID_success meta api instanceID id d d' :
  selectByID FlattenKeyPolicies SetErr meta api instanceID id d = Returned None d' ->
  exists keyMap, d' = store SetErr instanceID keyMap d.
Proof.
  unfold selectByID. intros H.
  repeat case_match; simplify_eq; eauto.
Qed.

(** Every nil return of the handler comes after the three closing
    statements, run on the extracted instance identifier. *)
Lemma KMSRead_success (fuel : nat) (d d' : ResourceData) (meta : ClientSession Policy) :
  Read fuel d meta = Returned None d' ->
  exists keyMap, d' = store SetErr (instanceIDOf d) keyMap d.
Proof.
  unfold dataSourceIBMKMSKeyRead, lookupKeys. intros H.
  repeat case_match; simplify_eq;
    eauto using selectByName_success, selectByID_success.
Qed.

(** *** Looking keys up by name *)

Lemma GetOkString_nonempty (d : ResourceData) (k v : string) :
  GetOkString d k = (v, true) -> v <> "".
Proof.
  unfold GetOkString. intros H.
  repeat case_match; simplify_eq.
  match goal with Hn : negb _ = true |- _ => apply negb_true_iff, String.eqb_neq in Hn end.
  done.
Qed.

Lemma KMSRead_by_name fuel d meta api v s :
  ready meta d api ->
  GetOkString d "key_name" = (v, true) ->
  fetchKeys meta api fuel (GetInt d "limit") = Done s ->
  Read fuel d meta
  = selectByName FlattenKeyPolicies SetErr meta api (instanceIDOf d) v (totalKeys s) d.
Proof.
  intros Hready Hname Hfetch. rewrite (KMSRead_ready fuel d meta api Hready).
  unfold lookupKeys. by rewrite Hname, Hfetch.
Qed.

(** C1.  With [key_name] set and a positive limit [L], the handler
    fetches the keys page by page: given more than [L / 200] turns of the
    loop the fetch ends, by a [GetKeys] error, which the handler returns,
    or normally, after which the handler goes on to select among the
    fetched keys; the [i]-th call asks for [min(200, L - offset)] keys at
    the offset [200 * i] reached so far; the page sizes asked for add up to
    at most [L]; every call but the last was answered by a page reporting
    at least as many keys as asked for, with the offset still short of
    [L]; and a normal end comes with a page that reports fewer keys than
    asked for or that takes the offset to [L].  The keys a page returns
    are counted as the code counts them, by [Metadata.NumberOfKeys]. *)
Theorem pagination_requests_pages_up_to_limit fuel d meta api v (L : Z) :
  ready meta d api ->
  GetOkString d "key_name" = (v, true) ->
  GetInt d "limit" = L ->
  0 < L ->
  int_range L ->
  (Z.to_nat (L / pageSize) < fuel)%nat ->
  ended meta api L (fetchKeys meta api fuel L) /\
  Read fuel d meta
  = match fetchKeys meta api fuel L with
    | Done s =>
        selectByName FlattenKeyPolicies SetErr meta api (instanceIDOf d) v (totalKeys s) d
    | Failed err _ => Returned (Some err) d
    | OutOfFuel => Diverges
    end.
Proof.
  intros Hready Hname Hlimit Hpos HL Hfuel.
  split; [by apply fetchKeys_ended |].
  rewrite (KMSRead_ready fuel d meta api Hready).
  unfold lookupKeys. by rewrite Hname, Hlimit.
Qed.

Lemma nameEq_filter (v : string) (keys : list Key) :
  filter (fun k => nameEq v k = true) keys = filter (fun k => Name k = v) keys.
Proof.
  apply list_filter_iff. intros k. unfold nameEq. apply String.eqb_eq.
Qed.

(** The six fields every entry carries. *)
Lemma keyEntry_fields meta api key m :
  keyEntry FlattenKeyPolicies meta api key = inr m ->
  m !! "id" = Some (VString (ID key)) /\
  m !! "name" = Some (VString (Name key)) /\
  m !! "crn" = Some (VString (CRN key)) /\
  m !! "standard_key" = Some (VBool (Extractable key)) /\
  m !! "aliases" = Some (VList (VString <$> Aliases key)) /\
  m !! "key_ring_id" = Some (VString (KeyRingID key)).
Proof.
  unfold keyEntry. intros H.
  repeat case_match; simplify_eq; by simplify_map_eq.
Qed.

Lemma keyEntry_policies meta api key :
  match GetPolicies meta api (ID key) with
  | inl e =>
      keyEntry FlattenKeyPolicies meta api key
      = inl ("[ERROR] Failed to read policies: " +:+ e)
  | inr _ => exists m, keyEntry FlattenKeyPolicies meta api key = inr m
  end.
Proof.
  unfold keyEntry. destruct (GetPolicies meta api (ID key)); [done |].
  case_match; eauto.
Qed.

(** The loop over the matching keys keeps their order, one entry per
    key, when every policy lookup succeeds... *)
Lemma keyMapLoop_ok meta api (matchKeys : list Key) (keyMap : list Value) :
  (forall key, key ∈ matchKeys ->
     exists policies, GetPolicies meta api (ID key) = inr policies) ->
  exists entries,
    Forall2 (fun key m => keyEntry FlattenKeyPolicies meta api key = inr m)
            matchKeys entries /\
    keyMapLoop FlattenKeyPolicies meta api matchKeys keyMap
    = inr (keyMap ++ (VMap <$> entries))%list.
Proof.
  revert keyMap. induction matchKeys as [| key rest IH]; intros keyMap Hall.
  - exists []. split; [constructor |]. simpl. by rewrite app_nil_r.
  - destruct (Hall key) as [policies Hp]; [by left |].
    pose proof (keyEntry_policies meta api key) as He. rewrite Hp in He.
    destruct He as [m He].
    destruct (IH (keyMap ++ [ VMap m ])%list) as (entries & HF & Hloop).
    { intros k Hk. apply Hall. by right. }
    exists (m :: entries). split; [by constructor |].
    simpl. rewrite He, Hloop. by rewrite <- app_assoc.
Qed.

(** ... and stops at the first one that fails. *)
Lemma keyMapLoop_failed meta api (matchKeys : list Key) (keyMap : list Value) :
  (exists key, key ∈ matchKeys /\ exists e, GetPolicies meta api (ID key) = inl e) ->
  exists key e,
    key ∈ matchKeys /\ GetPolicies meta api (ID key) = inl e /\
    keyMapLoop FlattenKeyPolicies meta api matchKeys keyMap
    = inl ("[ERROR] Failed to read policies: " +:+ e).
Proof.
  revert keyMap. induction matchKeys as [| key rest IH]; intros keyMap (k & Hk & e & He).
  - by apply elem_of_nil in Hk.
  - pose proof (keyEntry_policies meta api key) as Hentry.
    destruct (GetPolicies meta api (ID key)) as [e' | policies] eqn:Hp.
    + exists key, e'. split; [by left |]. split; [done |]. simpl. by rewrite Hentry.
    + destruct Hentry as [m Hm].
      destruct (IH (keyMap ++ [ VMap m ])%list) as (k' & e' & Hk' & He' & Hloop).
      { apply elem_of_cons in Hk as [-> | Hk]; [congruence |]. eauto. }
      exists k', e'. split; [by right |]. split; [done |]. simpl. by rewrite Hm.
Qed.

(** C5, as the code has it.  With [key_name] set to [v] and the fetch
    ended normally: without fetched keys the read fails with an error
    naming the instance; with fetched keys none of which is named [v] it
    fails with an error naming the key; with keys named [v], it fails
    with the policies error of the first of them whose [GetPolicies] call
    fails, and when all these calls succeed it returns nil and writes to
    ["keys"] one entry per fetched key named [v], in fetch order, each
    with that key's id, name, CRN, standard-key flag, aliases and key
    ring. *)
Theorem keys_are_selected_by_name fuel d meta api v s :
  ready meta d api ->
  GetOkString d "key_name" = (v, true) ->
  fetchKeys meta api fuel (GetInt d "limit") = Done s ->
  let fetched := totalKeys s in
  let matching := filter (fun k => Name k = v) fetched in
  let instanceID := instanceIDOf d in
  (fetched = [] ->
     Read fuel d meta
     = Returned (Some ("[ERROR] No keys in instance  " +:+ instanceID)) d) /\
  (fetched <> [] -> matching = [] ->
     Read fuel d meta
     = Returned (Some ("[ERROR] No keys with name " +:+ v
                       +:+ " in instance  " +:+ instanceID)) d) /\
  (matching <> [] ->
     (exists key, key ∈ matching /\ exists e, GetPolicies meta api (ID key) = inl e) ->
     exists key e,
       key ∈ matching /\ GetPolicies meta api (ID key) = inl e /\
       Read fuel d meta
       = Returned (Some ("[ERROR] Failed to read policies: " +:+ e)) d) /\
  (matching <> [] ->
     (forall key, key ∈ matching ->
        exists policies, GetPolicies meta api (ID key) = inr policies) ->
     exists entries d',
       Read fuel d meta = Returned None d' /\
       Forall2 (fun key m =>
                  keyEntry FlattenKeyPolicies meta api key = inr m /\
                  m !! "id" = Some (VString (ID key)) /\
                  m !! "name" = Some (VString v))
               matching entries /\
       (SetErr "keys" (VList (VMap <$> entries)) = None ->
        attrs d' !! "keys" = Some (VList (VMap <$> entries)))).
Proof.
  intros Hready Hname Hfetch fetched matching instanceID.
  rewrite (KMSRead_by_name fuel d meta api v s Hready Hname Hfetch).
  pose proof (GetOkString_nonempty d "key_name" v Hname) as Hv.
  apply String.eqb_neq in Hv.
  unfold selectByName. rewrite Hv. simpl negb. cbv iota.
  rewrite nameEq_filter. fold fetched. fold matching. fold instanceID.
  repeat split.
  - intros ->. done.
  - intros Hne Hnone. rewrite Hnone.
    destruct fetched; [done |]. done.
  - intros Hsome Hfail.
    destruct (keyMapLoop_failed meta api matching [] Hfail) as (key & e & Hk & He & Hloop).
    exists key, e. repeat split; try done.
    destruct fetched; [done |]. destruct matching; [done |].
    simpl length. simpl Nat.eqb. cbv iota. by rewrite Hloop.
  - intros Hsome Hall.
    destruct (keyMapLoop_ok meta api matching [] Hall) as (entries & HF & Hloop).
    exists entries, (store SetErr instanceID (VMap <$> entries) d).
    split; [| split].
    + destruct fetched; [done |]. destruct matching; [done |].
      simpl length. simpl Nat.eqb. cbv iota. by rewrite Hloop.
    + assert (Hin : Forall (fun k => Name k = v) matching).
      { apply Forall_forall. intros k Hk. by apply list_elem_of_filter in Hk as []. }
      clear Hloop Hall Hsome. induction HF as [| key m keys ms Hm HF IH]; [constructor |].
      apply Forall_cons in Hin as [Hkey Hin]. constructor; [| by apply IH].
      destruct (keyEntry_fields meta api key m Hm) as (Hid & Hnm & _).
      by rewrite <- Hkey.
    + apply store_keys.
Qed.

(** *** The instance identifier *)

Lemma instanceIDOf_crn (d : ResourceData) :
  let configured := GetString d "instance_id" in
  let segments := Split configured in
  (3 < length segments)%nat ->
  instanceIDOf d = nth (length segments - 3) segments "" /\
  instanceIDOf d <> configured.
Proof.
  intros configured segments Hlen. unfold instanceIDOf.
  fold configured. fold segments.
  destruct (Nat.ltb_spec 3 (length segments)) as [_ | ?]; [| lia].
  split; [done |].
  apply Split_segment_differs; [| fold segments; lia].
  apply nth_In. fold segments. lia.
Qed.

Lemma instanceIDOf_plain (d : ResourceData) :
  (length (Split (GetString d "instance_id")) <= 3)%nat ->
  instanceIDOf d = GetString d "instance_id".
Proof.
  intros Hlen. unfold instanceIDOf.
  by destruct (Nat.ltb_spec 3 (length (Split (GetString d "instance_id")))); [lia |].
Qed.

(** C8.  A read that returns nil has written the instance identifier it
    worked with back to [instance_id]: for a configured value that splits
    at colons into more than three segments this is the third segment
    from the end, which differs from the configured value; a value of
    three or fewer segments is written back as it is. *)
Theorem instance_id_is_rewritten (fuel : nat) (d d' : ResourceData)
                                 (meta : ClientSession Policy) :
  SetErr "instance_id" (VString (instanceIDOf d)) = None ->
  Read fuel d meta = Returned None d' ->
  let configured := GetString d "instance_id" in
  let segments := Split configured in
  ((3 < length segments)%nat ->
     attrs d' !! "instance_id"
     = Some (VString (nth (length segments - 3) segments "")) /\
     attrs d' !! "instance_id" <> Some (VString configured)) /\
  ((length segments <= 3)%nat ->
     attrs d' !! "instance_id" = Some (VString configured)).
Proof.
  intros Hset Hread configured segments.
  destruct (KMSRead_success fuel d d' meta Hread) as [keyMap ->].
  rewrite store_instance_id by done. split.
  - intros Hlen. destruct (instanceIDOf_crn d Hlen) as [Heq Hne].
    fold configured in Heq, Hne. fold segments in Heq.
    split; [by rewrite Heq | congruence].
  - intros Hlen. by rewrite instanceIDOf_plain.
Qed.

End KMSRead.

Lemma sample_ready (name : string) (limit : Z) :
  ready Sample.session (Sample.byName name limit) Sample.api.
Proof.
  exists {| KMS.URL := ""; KMS.Config_InstanceID := "" |}, {| KMS.Extensions := ∅ |},
    "200 OK", "https://us-south.kms.cloud.ibm.com".
  repeat split.
Qed.

Lemma pagination_requests_pages_up_to_limit_witness :
  ready Sample.session (Sample.byName "a" 450) Sample.api /\
  GetOkString (Sample.byName "a" 450) "key_name" = ("a", true) /\
  GetInt (Sample.byName "a" 450) "limit" = 450 /\
  0 < 450 /\ int_range 450 /\ (Z.to_nat (450 / KMS.pageSize) < 3)%nat /\
  ended Sample.session Sample.api 450 (KMS.fetchKeys Sample.session Sample.api 3 450).
Proof.
  assert (H1 : ready Sample.session (Sample.byName "a" 450) Sample.api)
    by apply sample_ready.
  assert (H2 : GetOkString (Sample.byName "a" 450) "key_name" = ("a", true))
    by reflexivity.
  assert (H3 : GetInt (Sample.byName "a" 450) "limit" = 450) by reflexivity.
  assert (H4 : 0 < 450) by lia.
  assert (H5 : int_range 450) by (unfold int_range, int_min, int_max; lia).
  assert (H6 : (Z.to_nat (450 / KMS.pageSize) < 3)%nat) by (vm_compute; lia).
  split; [exact H1 |]. split; [exact H2 |]. split; [exact H3 |].
  split; [exact H4 |]. split; [exact H5 |]. split; [exact H6 |].
  exact (proj1 (pagination_requests_pages_up_to_limit
                  Sample.flattenPolicies Sample.accept 3 (Sample.byName "a" 450)
                  Sample.session Sample.api "a" 450 H1 H2 H3 H4 H5 H6)).
Defined.

Lemma negative_limit_never_returns_witness :
  ready Sample.session (Sample.byName "a" (-1)) Sample.api /\
  GetOkString (Sample.byName "a" (-1)) "key_name" = ("a", true) /\
  GetInt (Sample.byName "a" (-1)) "limit" < 0 /\
  KMS.dataSourceIBMKMSKeyRead Sample.flattenPolicies Sample.accept
    1000 (Sample.byName "a" (-1)) Sample.session = KMS.Diverges.
Proof.
  assert (H1 : ready Sample.session (Sample.byName "a" (-1)) Sample.api)
    by apply sample_ready.
  assert (H2 : GetOkString (Sample.byName "a" (-1)) "key_name" = ("a", true))
    by reflexivity.
  assert (H3 : GetInt (Sample.byName "a" (-1)) "limit" < 0) by (vm_compute; reflexivity).
  split; [exact H1 |]. split; [exact H2 |]. split; [exact H3 |].
  exact (negative_limit_never_returns Sample.flattenPolicies Sample.accept
           1000 (Sample.byName "a" (-1)) Sample.session Sample.api "a" H1 H2 H3).
Defined.

Lemma instance_id_is_rewritten_witness :
  match KMS.dataSourceIBMKMSKeyRead Sample.flattenPolicies Sample.accept
          1 (Sample.byName "a" 0) Sample.session with
  | KMS.Returned None d' =>
      Sample.accept "instance_id" (VString (KMS.instanceIDOf (Sample.byName "a" 0))) = None /\
      attrs d' !! "instance_id" = Some (VString "guid-1") /\
      attrs d' !! "instance_id" <> Some (VString Sample.crn)
  | _ => False
  end.
Proof.
  pose proof (instance_id_is_rewritten Sample.flattenPolicies Sample.accept
                1 (Sample.byName "a" 0)) as H.
  destruct (KMS.dataSourceIBMKMSKeyRead Sample.flattenPolicies Sample.accept
              1 (Sample.byName "a" 0) Sample.session) as [[e |] d' |] eqn:Hread.
  - vm_compute in Hread. discriminate.
  - split; [reflexivity |].
    apply (H d' Sample.session eq_refl Hread). vm_compute. lia.
  - vm_compute in Hread. discriminate.
Defined.

Lemma keys_are_selected_by_name_witness :
  match KMS.fetchKeys Sample.session Sample.api 1 0,
        KMS.dataSourceIBMKMSKeyRead Sample.flattenPolicies Sample.accept
          1 (Sample.byName "a" 0) Sample.session with
  | KMS.Done s, KMS.Returned None d' =>
      ready Sample.session (Sample.byName "a" 0) Sample.api /\
      GetOkString (Sample.byName "a" 0) "key_name" = ("a", true) /\
      filter (fun k => KMS.Name k = "a") (KMS.totalKeys s) = [ Sample.key "a"; Sample.key "a" ] /\
      exists entries,
        length entries = 2%nat /\
        attrs d' !! "keys" = Some (VList (VMap <$> entries))
  | _, _ => False
  end.
Proof.
  pose proof (keys_are_selected_by_name Sample.flattenPolicies Sample.accept
                1 (Sample.byName "a" 0) Sample.session Sample.api "a") as H.
  destruct (KMS.fetchKeys Sample.session Sample.api 1 0) as [s | e s |] eqn:Hfetch;
    [| vm_compute in Hfetch; discriminate ..].
  specialize (H s (sample_ready "a" 0) eq_refl Hfetch).
  destruct H as (_ & _ & _ & H).
  assert (Hs : KMS.totalKeys s = [ Sample.key "a"; Sample.key "b"; Sample.key "a" ]).
  { vm_compute in Hfetch. injection Hfetch as <-. reflexivity. }
  assert (Hm : filter (fun k => KMS.Name k = "a") (KMS.totalKeys s)
               = [ Sample.key "a"; Sample.key "a" ]).
  { rewrite Hs. reflexivity. }
  rewrite Hm in H.
  destruct H as (entries & d' & Hread & HF & Hkeys); [done | by eexists |].
  rewrite Hread.
  split; [apply sample_ready |]. split; [reflexivity |]. split; [exact Hm |].
  exists entries. split.
  - apply Forall2_length in HF. by rewrite <- HF.
  - by apply Hkeys.
Defined.

(** C5 as first stated leaves the policy lookups out: here a fetched key
    has the name asked for, yet the read fails and writes nothing, because
    that key's [GetPolicies] call fails. *)
Lemma matching_key_without_policies_fails :
  let meta := Sample.policiesDown in
  let d := Sample.byName "a" 0 in
  ~ (forall s,
       KMS.fetchKeys meta Sample.api 1 (GetInt d "limit") = KMS.Done s ->
       filter (fun k => KMS.Name k = "a") (KMS.totalKeys s) <> [] ->
       exists d' entries,
         KMS.dataSourceIBMKMSKeyRead Sample.flattenPolicies Sample.accept 1 d meta
         = KMS.Returned None d' /\
         attrs d' !! "keys" = Some (VList entries)).
Proof.
  intros meta d H.
  destruct (KMS.fetchKeys meta Sample.api 1 (GetInt d "limit")) as [s | e s |] eqn:Hfetch;
    [| vm_compute in Hfetch; discriminate ..].
  destruct (H s eq_refl) as (d' & entries & Hread & _).
  - vm_compute in Hfetch. injection Hfetch as <-. done.
  - vm_compute in Hread. discriminate.
Qed.

Example policies_down_read :
  KMS.dataSourceIBMKMSKeyRead Sample.flattenPolicies Sample.accept
    1 (Sample.byName "a" 0) Sample.policiesDown
  = KMS.Returned (Some "[ERROR] Failed to read policies: 503 Service Unavailable")
                 (Sample.byName "a" 0).
Proof. vm_compute. reflexivity. Qed.

(** ** The [ibm_pi_storage_type_capacity] handler *)

Section PowerRead.

Import Power.

Variable Flatten : gmap string Value -> Value.
Variable SetErr : string -> Value -> option error.

Local Abbreviation Read := (dataSourceIBMPIStorageTypeCapacityRead Flatten SetErr).

Lemma poolEntry_flattens (sp : option StoragePoolCapacity) (entry : Value) :
  poolEntry sp = Ok entry -> flattens sp entry.
Proof.
  unfold poolEntry. destruct sp as [pool |]; simpl; [| done].
  destruct (sp_MaxAllocationSize pool) as [size |] eqn:Hsize; simpl; [| done].
  intros [= <-]. eexists pool, _. split; [done |]. split; [done |].
  rewrite Hsize. unfold Attr_MaxAllocationSize, Attr_PoolName, Attr_StorageType,
    Attr_TotalCapacity. by simplify_map_eq.
Qed.

Lemma poolEntry_complete (sp : option StoragePoolCapacity) :
  if poolComplete sp then exists entry, poolEntry sp = Ok entry
  else poolEntry sp = Panic nil_deref.
Proof.
  unfold poolComplete, poolEntry. destruct sp as [pool |]; simpl; [| done].
  destruct (sp_MaxAllocationSize pool); simpl; eauto.
Qed.

(** The loop over the pools yields one entry per pool, in order. *)
Lemma poolsLoop_flattens pools result out :
  poolsLoop pools result = Ok out ->
  exists entries, out = (result ++ entries)%list /\ Forall2 flattens pools entries.
Proof.
  revert result. induction pools as [| sp rest IH]; intros result; simpl.
  - intros [= <-]. exists []. by rewrite app_nil_r.
  - destruct (poolEntry sp) as [entry | msg] eqn:Hentry; simpl; [| done].
    intros Hloop. destruct (IH _ Hloop) as (entries & -> & HF).
    exists (entry :: entries). rewrite <- app_assoc. split; [done |].
    constructor; [by apply poolEntry_flattens | done].
Qed.

Lemma poolsLoop_complete pools result :
  if forallb poolComplete pools then exists out, poolsLoop pools result = Ok out
  else poolsLoop pools result = Panic nil_deref.
Proof.
  revert result. induction pools as [| sp rest IH]; intros result; simpl; [eauto |].
  pose proof (poolEntry_complete sp) as Hsp.
  destruct (poolComplete sp); simpl.
  - destruct Hsp as [entry ->]. simpl. apply IH.
  - by rewrite Hsp.
Qed.

Lemma setMaximumStorageAllocation_complete stc d :
  if allocationComplete (stc_MaximumStorageAllocation stc)
  then exists d', setMaximumStorageAllocation Flatten SetErr stc d = Ok d'
  else setMaximumStorageAllocation Flatten SetErr stc d = Panic nil_deref.
Proof.
  unfold allocationComplete, setMaximumStorageAllocation.
  destruct (stc_MaximumStorageAllocation stc) as [msa |]; [| eauto].
  destruct (msa_MaxAllocationSize msa); simpl; [| done].
  destruct (msa_StoragePool msa); simpl; [| done].
  destruct (msa_StorageType msa); simpl; eauto.
Qed.

Lemma setMaximumStorageAllocation_Id stc d d' :
  setMaximumStorageAllocation Flatten SetErr stc d = Ok d' -> Id d' = Id d.
Proof.
  unfold setMaximumStorageAllocation.
  destruct (stc_MaximumStorageAllocation stc) as [msa |]; [| by intros [= <-]].
  destruct (msa_MaxAllocationSize msa); simpl; [| done].
  destruct (msa_StoragePool msa); simpl; [| done].
  destruct (msa_StorageType msa); simpl; [| done].
  intros [= <-]. apply dSet__Id.
Qed.

Lemma setMaximumStorageAllocation_attr stc d d' :
  (forall v, SetErr Attr_MaximumStorageAllocation v = None) ->
  attrs d !! Attr_MaximumStorageAllocation = None ->
  setMaximumStorageAllocation Flatten SetErr stc d = Ok d' ->
  (is_Some (attrs d' !! Attr_MaximumStorageAllocation)
   <-> is_Some (stc_MaximumStorageAllocation stc)).
Proof.
  intros Hset Hfresh. unfold setMaximumStorageAllocation.
  destruct (stc_MaximumStorageAllocation stc) as [msa |].
  - destruct (msa_MaxAllocationSize msa); simpl; [| done].
    destruct (msa_StoragePool msa); simpl; [| done].
    destruct (msa_StorageType msa); simpl; [| done].
    intros [= <-]. rewrite dSet__accepted by apply Hset.
    rewrite lookup_insert_eq. split; eauto.
  - intros [= <-]. rewrite Hfresh. split; intros [? ?]; done.
Qed.

(** A nil return comes from the path on which the client answered. *)
Lemma PowerRead_success d d' meta :
  Read d meta = Ok ([], d') ->
  exists stc d1 result,
    GetStorageTypeCapacity meta (GetString d PICloudInstanceId) (GetString d PITypeName)
    = inr stc /\
    setMaximumStorageAllocation Flatten SetErr stc
      (SetId (GetString d PICloudInstanceId +:+ "/" +:+ GetString d PITypeName) d)
    = Ok d1 /\
    poolsLoop (stc_StoragePoolsCapacity stc) [] = Ok result /\
    d' = dSet_ SetErr Attr_StoragePoolsCapacity (VList result) d1.
Proof.
  unfold dataSourceIBMPIStorageTypeCapacityRead.
  destruct (IBMPISession meta); [done |].
  destruct (GetStorageTypeCapacity meta _ _) as [e | stc]; [done |].
  destruct (setMaximumStorageAllocation _ _ stc _) as [d1 | msg] eqn:Hmsa; simpl; [| done].
  destruct (poolsLoop _ _) as [result | msg] eqn:Hpools; simpl; [| done].
  intros [= <-]. by exists stc, d1, result.
Qed.

(** C6.  A run that returns no diagnostics has written to
    [storage_pools_capacity] a list with one entry per pool of the
    response, in the response's order, each with the pool's maximum
    allocation size, name, storage type and total capacity; and
    [maximum_storage_allocation] is set exactly when the response has a
    maximum storage allocation.  Both are said of writes the schema
    accepts, and of resource data that did not carry
    [maximum_storage_allocation] before the run. *)
Theorem storage_pools_are_flattened (d d' : ResourceData) (meta : ClientSession) :
  (forall v, SetErr Attr_StoragePoolsCapacity v = None) ->
  (forall v, SetErr Attr_MaximumStorageAllocation v = None) ->
  attrs d !! Attr_MaximumStorageAllocation = None ->
  Read d meta = Ok ([], d') ->
  exists stc,
    GetStorageTypeCapacity meta (GetString d PICloudInstanceId) (GetString d PITypeName)
    = inr stc /\
    (exists entries,
       attrs d' !! Attr_StoragePoolsCapacity = Some (VList entries) /\
       Forall2 flattens (stc_StoragePoolsCapacity stc) entries) /\
    (is_Some (attrs d' !! Attr_MaximumStorageAllocation)
     <-> is_Some (stc_MaximumStorageAllocation stc)).
Proof.
  intros Hpools Hmsa Hfresh Hread.
  destruct (PowerRead_success d d' meta Hread) as (stc & d1 & result & Hstc & H1 & H2 & ->).
  exists stc. split; [done |].
  destruct (poolsLoop_flattens _ _ _ H2) as (entries & -> & HF). simpl.
  split.
  - exists entries. split; [| done].
    rewrite dSet__accepted by apply Hpools. apply lookup_insert_eq.
  - rewrite dSet__other by done.
    by apply (setMaximumStorageAllocation_attr stc
                (SetId (GetString d PICloudInstanceId +:+ "/" +:+ GetString d PITypeName) d)
                d1).
Qed.

Lemma PowerRead_no_error d d' diags meta :
  Read d meta = Ok (diags, d') -> HasError diags = false -> diags = [].
Proof.
  unfold dataSourceIBMPIStorageTypeCapacityRead.
  destruct (IBMPISession meta); [by intros [= <- _] |].
  destruct (GetStorageTypeCapacity meta _ _) as [e | stc]; [by intros [= <- _] |].
  destruct (setMaximumStorageAllocation _ _ stc _) as [d1 | msg]; simpl; [| done].
  destruct (poolsLoop _ _) as [result | msg]; simpl; [| done].
  by intros [= <- _].
Qed.

(** The identifier a successful run leaves. *)
Lemma PowerRead_success_Id d d' diags meta :
  Read d meta = Ok (diags, d') ->
  HasError diags = false ->
  Id d' = Some (GetString d PICloudInstanceId +:+ "/" +:+ GetString d PITypeName).
Proof.
  intros Hread Hok.
  rewrite (PowerRead_no_error d d' diags meta Hread Hok) in Hread.
  destruct (PowerRead_success d d' meta Hread) as (stc & d1 & result & _ & H1 & _ & ->).
  rewrite dSet__Id. by rewrite (setMaximumStorageAllocation_Id _ _ _ H1).
Qed.

Lemma PowerRead_session_error d meta e :
  IBMPISession meta = Some e -> Read d meta = Ok (diag_FromErr e, d).
Proof.
  intros Hsess. unfold dataSourceIBMPIStorageTypeCapacityRead. by rewrite Hsess.
Qed.

(** The failing client call: its error alone makes the diagnostic. *)
Lemma PowerRead_client_error d meta e :
  IBMPISession meta = None ->
  GetStorageTypeCapacity meta (GetString d PICloudInstanceId) (GetString d PITypeName)
  = inl e ->
  Read d meta = Ok (diag_FromErr e, d).
Proof.
  intros Hsess Hcall. unfold dataSourceIBMPIStorageTypeCapacityRead.
  by rewrite Hsess, Hcall.
Qed.

(** The run ends in a panic exactly when the response is incomplete. *)
Lemma PowerRead_complete d meta stc :
  IBMPISession meta = None ->
  GetStorageTypeCapacity meta (GetString d PICloudInstanceId) (GetString d PITypeName)
  = inr stc ->
  if complete stc then exists d', Read d meta = Ok ([], d')
  else Read d meta = Panic nil_deref.
Proof.
  intros Hsess Hcall. unfold dataSourceIBMPIStorageTypeCapacityRead, complete.
  rewrite Hsess, Hcall.
  pose proof (setMaximumStorageAllocation_complete stc
                (SetId (GetString d PICloudInstanceId +:+ "/" +:+ GetString d PITypeName) d))
    as Hmsa.
  pose proof (poolsLoop_complete (stc_StoragePoolsCapacity stc) []) as Hpools.
  destruct (allocationComplete _); simpl.
  - destruct Hmsa as [d1 ->]. simpl.
    destruct (forallb _ _).
    + destruct Hpools as [out ->]. simpl. eauto.
    + by rewrite Hpools.
  - by rewrite Hmsa.
Qed.

(** C9.  The claim asks for a handler that survives any response; the
    code does not.  When the response carries a maximum storage
    allocation with a nil [MaxAllocationSize], [StoragePool] or
    [StorageType], or a pool entry that is nil or has a nil
    [MaxAllocationSize], the handler dereferences the nil pointer and
    panics. *)
Theorem incomplete_response_panics (d : ResourceData) (meta : ClientSession)
                                   (stc : StorageTypeCapacity) :
  IBMPISession meta = None ->
  GetStorageTypeCapacity meta (GetString d PICloudInstanceId) (GetString d PITypeName)
  = inr stc ->
  complete stc = false ->
  Read d meta = Panic nil_deref.
Proof.
  intros Hsess Hcall Hinc. pose proof (PowerRead_complete d meta stc Hsess Hcall) as H.
  by rewrite Hinc in H.
Qed.

End PowerRead.

Lemma storage_pools_are_flattened_witness :
  match Power.dataSourceIBMPIStorageTypeCapacityRead PowerSample.flatten Sample.accept
          PowerSample.data (PowerSample.session (inr PowerSample.capacity)) with
  | Ok ([], d') =>
      (forall v, Sample.accept Power.Attr_StoragePoolsCapacity v = None) /\
      (forall v, Sample.accept Power.Attr_MaximumStorageAllocation v = None) /\
      attrs PowerSample.data !! Power.Attr_MaximumStorageAllocation = None /\
      (exists entries,
         attrs d' !! "storage_pools_capacity" = Some (VList entries) /\
         length entries = 2%nat) /\
      is_Some (attrs d' !! "maximum_storage_allocation")
  | _ => False
  end.
Proof.
  pose proof (storage_pools_are_flattened PowerSample.flatten Sample.accept
                PowerSample.data) as H.
  destruct (Power.dataSourceIBMPIStorageTypeCapacityRead PowerSample.flatten Sample.accept
              PowerSample.data (PowerSample.session (inr PowerSample.capacity)))
    as [[[| dg diags] d'] | msg] eqn:Hread;
    [| vm_compute in Hread; discriminate ..].
  assert (H1 : forall v, Sample.accept Power.Attr_StoragePoolsCapacity v = None) by done.
  assert (H2 : forall v, Sample.accept Power.Attr_MaximumStorageAllocation v = None) by done.
  assert (H3 : attrs PowerSample.data !! Power.Attr_MaximumStorageAllocation = None)
    by reflexivity.
  destruct (H d' (PowerSample.session (inr PowerSample.capacity)) H1 H2 H3 Hread)
    as (stc & Hstc & (entries & Hentries & HF) & Hmsa).
  injection Hstc as <-.
  repeat (split; [assumption |]). split.
  - exists entries. split; [exact Hentries |]. by apply Forall2_length in HF.
  - apply Hmsa. by eexists.
Defined.

Lemma incomplete_response_panics_witness :
  Power.IBMPISession (PowerSample.session (inr PowerSample.capacityWithoutSize)) = None /\
  complete PowerSample.capacityWithoutSize = false /\
  Power.dataSourceIBMPIStorageTypeCapacityRead PowerSample.flatten Sample.accept
    PowerSample.data (PowerSample.session (inr PowerSample.capacityWithoutSize))
  = Panic nil_deref.
Proof.
  split; [reflexivity |]. split; [reflexivity |].
  apply (incomplete_response_panics PowerSample.flatten Sample.accept PowerSample.data
           (PowerSample.session (inr PowerSample.capacityWithoutSize))
           PowerSample.capacityWithoutSize);
    reflexivity.
Defined.

Example complete_response_read :
  exists d',
    Power.dataSourceIBMPIStorageTypeCapacityRead PowerSample.flatten Sample.accept
      PowerSample.data (PowerSample.session (inr PowerSample.capacity)) = Ok ([], d') /\
    Id d' = Some "cloud-1/tier1".
Proof. eexists. split; [vm_compute; reflexivity | reflexivity]. Qed.

(** ** The [ibm_project_config] handler *)

Section ProjectToMap.

Import Project.

Variable stringify : Value -> string.
Variable json_Marshal : Value -> error + string.
Variable json_decode : string -> option Value.

Local Abbreviation OutputValueToMap :=
  (dataSourceIbmProjectConfigOutputValueToMap stringify json_Marshal json_decode).

(** When [json.Marshal] accepts the value, the map gets [value_json] and
    no [value]. *)
Lemma OutputValueToMap_marshalled (model : OutputValue) (jsonStr : string) :
  ov_Value model <> VNil ->
  json_Marshal (ov_Value model) = inr jsonStr ->
  exists modelMap,
    OutputValueToMap model = Ok (modelMap, None) /\
    modelMap !! "value_json" = Some (VString (stringify (ov_Value model))) /\
    modelMap !! "value" = None.
Proof.
  intros Hnil Hjson. unfold dataSourceIbmProjectConfigOutputValueToMap.
  destruct (ov_Value model) eqn:Hv; [done | ..]; rewrite Hjson;
    (eexists; split; [done |]);
    unfold setIfPresent; destruct (ov_Description model); by simplify_map_eq.
Qed.

(** The branch taken on a Marshal error decodes the nil slice Marshal
    handed back, which leaves [f] nil, and the assertion
    [f.(map[string]interface{})] panics.  No value that reaches the helper
    takes this branch: its caller passes outputs decoded from JSON, and
    those marshal. *)
Lemma OutputValueToMap_marshal_error (model : OutputValue) (e : error) :
  ov_Value model <> VNil ->
  json_Marshal (ov_Value model) = inl e ->
  OutputValueToMap model
  = Panic "interface conversion: interface {} is nil, not map[string]interface {}".
Proof.
  intros Hnil Hjson. unfold dataSourceIbmProjectConfigOutputValueToMap.
  destruct (ov_Value model) eqn:Hv; [done | ..]; by rewrite Hjson.
Qed.

(** Whatever [json.Marshal] says, ["value"] is not populated. *)
Lemma OutputValueToMap_no_value (model : OutputValue) modelMap err :
  OutputValueToMap model = Ok (modelMap, err) -> modelMap !! "value" = None.
Proof.
  unfold dataSourceIbmProjectConfigOutputValueToMap.
  destruct (ov_Value model) eqn:Hv;
    try destruct (json_Marshal _); simpl; try done;
    intros [= <- <-]; unfold setIfPresent; destruct (ov_Description model);
    by simplify_map_eq.
Qed.

Lemma OutputValueToMap_value_json (model : OutputValue) modelMap err :
  ov_Value model <> VNil ->
  OutputValueToMap model = Ok (modelMap, err) ->
  err = None /\
  modelMap !! "value_json" = Some (VString (stringify (ov_Value model))).
Proof.
  intros Hnil. unfold dataSourceIbmProjectConfigOutputValueToMap.
  destruct (ov_Value model) eqn:Hv; [done | ..];
    destruct (json_Marshal _); simpl; try done;
    intros [= <- <-]; split; try done; by simplify_map_eq.
Qed.

(** C10.  For an output whose [Value] is not nil and is one that
    [json.Marshal] accepts, as is every value decoded from JSON, the
    helper returns a nil error and a map whose ["value_json"] is the
    stringified value, without ["value"].  And whenever the helper
    returns, the error is nil, ["value_json"] is the stringified value,
    and ["value"] is populated only if [json.Marshal] returned an
    error. *)
Theorem output_value_is_stringified (model : OutputValue) :
  ov_Value model <> VNil ->
  (forall jsonStr,
     json_Marshal (ov_Value model) = inr jsonStr ->
     exists modelMap,
       OutputValueToMap model = Ok (modelMap, None) /\
       modelMap !! "value_json" = Some (VString (stringify (ov_Value model))) /\
       modelMap !! "value" = None) /\
  (forall modelMap err,
     OutputValueToMap model = Ok (modelMap, err) ->
     err = None /\
     modelMap !! "value_json" = Some (VString (stringify (ov_Value model))) /\
     (is_Some (modelMap !! "value") ->
      exists e, json_Marshal (ov_Value model) = inl e)).
Proof.
  intros Hnil. split.
  - intros jsonStr Hjson. by eapply OutputValueToMap_marshalled.
  - intros modelMap err Hret.
    destruct (OutputValueToMap_value_json model modelMap err Hnil Hret) as [-> Hjson].
    split; [done |]. split; [done |].
    rewrite (OutputValueToMap_no_value model modelMap None Hret). by intros [? ?].
Qed.

End ProjectToMap.

Lemma output_value_is_stringified_witness :
  Project.ov_Value (ProjectSample.output (VString "https://x")) <> VNil /\
  ProjectSample.json_Marshal (Project.ov_Value (ProjectSample.output (VString "https://x")))
  = inr "<json>" /\
  exists modelMap,
    Project.dataSourceIbmProjectConfigOutputValueToMap
      ProjectSample.stringify ProjectSample.json_Marshal ProjectSample.json_decode
      (ProjectSample.output (VString "https://x"))
    = Ok (modelMap, None) /\
    modelMap !! "value_json" = Some (VString "https://x") /\
    modelMap !! "value" = None.
Proof.
  assert (H1 : Project.ov_Value (ProjectSample.output (VString "https://x")) <> VNil)
    by done.
  assert (H2 : ProjectSample.json_Marshal
                 (Project.ov_Value (ProjectSample.output (VString "https://x")))
               = inr "<json>") by reflexivity.
  split; [exact H1 |]. split; [exact H2 |].
  exact (proj1 (output_value_is_stringified ProjectSample.stringify
                  ProjectSample.json_Marshal ProjectSample.json_decode
                  (ProjectSample.output (VString "https://x")) H1)
           "<json>" H2).
Defined.

(** What the helper would do with a value that has no JSON form. *)
Example value_without_json_form :
  Project.dataSourceIbmProjectConfigOutputValueToMap
    ProjectSample.stringify ProjectSample.json_Marshal ProjectSample.json_decode
    (ProjectSample.output (VOther "+Inf"))
  = Panic "interface conversion: interface {} is nil, not map[string]interface {}".
Proof. reflexivity. Qed.

Section ProjectRead.

Import Project.

Variable stringify : Value -> string.
Variable IntValue : option Z -> Z.
Variable fmt_v : Value -> string.
Variable json_Marshal : Value -> error + string.
Variable json_decode : string -> option Value.
Variable DateTimeToString : option DateTime -> string.
Variable TerraformProblem : Type.
Variable TerraformErrorf : error -> string -> string -> string -> TerraformProblem.
Variable GetDiag : TerraformProblem -> Diagnostics.
Variable SetErr : string -> Value -> option error.

Local Abbreviation Read :=
  (dataSourceIbmProjectConfigRead stringify IntValue fmt_v json_Marshal json_decode
     DateTimeToString TerraformProblem TerraformErrorf GetDiag SetErr).

Lemma keepsId_pure {A : Type} (a : A) : keepsId (pure a).
Proof. by intros d. Qed.

Lemma keepsId_seq {A B : Type} (m : Stmt A) (k : A -> Stmt B) :
  keepsId m -> (forall a, keepsId (k a)) -> keepsId (seq m k).
Proof.
  intros Hm Hk d. unfold seq. specialize (Hm d).
  destruct (m d) as [a d1 | diags d1 | msg]; [| done | done].
  specialize (Hk a d1). destruct (k a d1); congruence.
Qed.

Lemma keepsId_setAttr (k : string) (v : Value) :
  keepsId (setAttr TerraformProblem TerraformErrorf GetDiag SetErr k v).
Proof.
  intros d. unfold setAttr, dSet. by destruct (SetErr k v).
Qed.

Lemma keepsId_toMapOrExit (r : ToMap) :
  keepsId (toMapOrExit TerraformProblem TerraformErrorf GetDiag r).
Proof.
  intros d. unfold toMapOrExit. by destruct r as [[modelMap [err |]] | msg].
Qed.

Lemma keepsId_eachToMap {A : Type} (f : A -> ToMap) (items : list A) (out : list Value) :
  keepsId (eachToMap TerraformProblem TerraformErrorf GetDiag f items out).
Proof.
  revert out. induction items as [| item rest IH]; intros out; simpl.
  - apply keepsId_pure.
  - apply keepsId_seq; [apply keepsId_toMapOrExit | intros modelMap; apply IH].
Qed.

Lemma keepsId_optionalToMap {A : Type} (f : A -> ToMap) (p : option A) :
  keepsId (optionalToMap TerraformProblem TerraformErrorf GetDiag f p).
Proof.
  destruct p as [model |]; simpl; [| apply keepsId_pure].
  apply keepsId_seq; [apply keepsId_toMapOrExit | intros; apply keepsId_pure].
Qed.

Lemma keepsId_setAttributes (projectConfig : ProjectConfig) :
  keepsId (setAttributes stringify IntValue fmt_v json_Marshal json_decode
             DateTimeToString TerraformProblem TerraformErrorf GetDiag SetErr
             projectConfig).
Proof.
  unfold setAttributes.
  repeat first
    [ apply keepsId_setAttr
    | apply keepsId_eachToMap
    | apply keepsId_optionalToMap
    | apply keepsId_seq; [| intros ?] ].
Qed.

Lemma ProjectRead_session_error d meta e :
  ProjectV1 meta = Some e ->
  Read d meta = Ok (GetDiag (TerraformErrorf e e "(Data) ibm_project_config" "read"), d).
Proof.
  intros Hsess. unfold dataSourceIbmProjectConfigRead. by rewrite Hsess.
Qed.

(** The failing client call: the diagnostics of a problem built from the
    SDK's error and a message that puts a context before its text. *)
Lemma ProjectRead_client_error d meta e :
  ProjectV1 meta = None ->
  GetConfigWithContext meta (GetString d "project_id") (GetString d "project_config_id")
  = inl e ->
  Read d meta
  = Ok (GetDiag (TerraformErrorf e ("GetConfigWithContext failed: " +:+ e)
                                 "(Data) ibm_project_config" "read"), d).
Proof.
  intros Hsess Hcall. unfold dataSourceIbmProjectConfigRead. by rewrite Hsess, Hcall.
Qed.

(** When the diagnostics of a problem always hold an error, a return
    without an error diagnostic comes after [SetId]. *)
Lemma ProjectRead_success_Id d d' diags meta :
  (forall p, HasError (GetDiag p) = true) ->
  Read d meta = Ok (diags, d') ->
  HasError diags = false ->
  Id d' = Some (GetString d "project_id" +:+ "/" +:+ GetString d "project_config_id").
Proof.
  intros Hdiag. unfold dataSourceIbmProjectConfigRead.
  destruct (ProjectV1 meta) as [err |].
  { intros [= <- _]. by rewrite Hdiag. }
  destruct (GetConfigWithContext meta _ _) as [err | projectConfig].
  { intros [= <- _]. by rewrite Hdiag. }
  unfold run.
  pose proof (keepsId_setAttributes projectConfig
                (SetId (GetString d "project_id" +:+ "/" +:+ GetString d "project_config_id") d))
    as Hid.
  destruct (setAttributes _ _ _ _ _ _ _ _ _ _ _ _) as [u d1 | diags1 d1 | msg];
    [| | done]; intros H _; simplify_eq; exact Hid.
Qed.

End ProjectRead.

(** ** Failing SDK calls *)

Lemma length_append (s1 s2 : string) :
  String.length (s1 +:+ s2) = (String.length s1 + String.length s2)%nat.
Proof. induction s1 as [| c s1 IH]; simpl; [done | by rewrite IH]. Qed.

Lemma slash_not_empty (s t : string) : s +:+ "/" +:+ t <> "".
Proof.
  intros H. apply (f_equal String.length) in H.
  rewrite !length_append in H. simpl in H. lia.
Qed.

Lemma adds_context_intro (context sdk rest : string) :
  context <> "" -> adds_context sdk (context +:+ sdk +:+ rest).
Proof. intros H. by exists context, rest. Qed.

Lemma append_empty_r (s : string) : s +:+ "" = s.
Proof.
  induction s as [| c s IH]; [done |].
  change (String c (s +:+ "") = String c s). by rewrite IH.
Qed.

Lemma adds_context_end (context sdk : string) :
  context <> "" -> adds_context sdk (context +:+ sdk).
Proof.
  intros H. exists context, "". split; [done |]. by rewrite append_empty_r.
Qed.

(** An error text returned as it is has no context added to it. *)
Lemma adds_context_same (sdk : string) : ~ adds_context sdk sdk.
Proof.
  intros (context & rest & Hne & Heq).
  apply (f_equal String.length) in Heq. rewrite !length_append in Heq.
  destruct context; [done |]. simpl in Heq. lia.
Qed.

Section KMSErrors.

Import KMS.

Context {Policy : Type}.
Variable FlattenKeyPolicies : list Policy -> Value.
Variable SetErr : string -> Value -> option error.

Local Abbreviation Read := (dataSourceIBMKMSKeyRead FlattenKeyPolicies SetErr).

Lemma answered_snoc (meta : ClientSession Policy) api (cs : list (Z * Z)) (c : Z * Z) keys :
  answered meta api cs ->
  GetKeys meta api (length cs) (fst c) (snd c) = inr keys ->
  answered meta api (cs ++ [ c ]).
Proof.
  intros Hcs Hc i c' Hi. apply lookup_app_Some in Hi as [Hi | [Hge Hi]].
  - by apply Hcs.
  - apply list_lookup_singleton_Some in Hi as [Hi <-].
    replace i with (length cs) by lia. eauto.
Qed.

(** The loop returns at the first call that fails, with its error behind
    a context, and breaks only after calls that were all answered. *)
Lemma loop_errors (meta : ClientSession Policy) api (L : Z) (fuel : nat) (s : Page) :
  answered meta api (calls s) ->
  match loop meta api fuel L s with
  | Done s' => answered meta api (calls s')
  | Failed err s' =>
      exists c e,
        last (calls s') = Some c /\
        GetKeys meta api (length (calls s') - 1) (fst c) (snd c) = inl e /\
        err = "[ERROR] Get Keys failed with error: " +:+ e
  | OutOfFuel => True
  end.
Proof.
  revert s. induction fuel as [| fuel IH]; intros s Hs; simpl; [done |].
  unfold loopBody.
  destruct (offset s <? L); [| by apply IH].
  destruct (int_sub L (offset s) <? pageSize).
  - destruct (last_call (calls s) (int_sub L (offset s), offset s)) as [Hlast Hlen].
    destruct (GetKeys meta api (length (calls s)) (int_sub L (offset s)) (offset s))
      as [e | keys] eqn:Hcall; simpl.
    + exists (int_sub L (offset s), offset s), e. rewrite Hlen. simpl. by rewrite Hcall.
    + by eapply answered_snoc.
  - destruct (last_call (calls s) (pageSize, offset s)) as [Hlast Hlen].
    destruct (GetKeys meta api (length (calls s)) pageSize (offset s))
      as [e | keys] eqn:Hcall; simpl.
    + exists (pageSize, offset s), e. rewrite Hlen. simpl. by rewrite Hcall.
    + assert (answered meta api (calls s ++ [ (pageSize, offset s) ]))
        by (by eapply answered_snoc).
      destruct (_ || _); simpl; [done |]. by apply IH.
Qed.

Lemma fetchKeys_errors (meta : ClientSession Policy) api (L : Z) (fuel : nat) :
  match fetchKeys meta api fuel L with
  | Done s => answered meta api (calls s)
  | Failed err s =>
      exists c e,
        last (calls s) = Some c /\
        GetKeys meta api (length (calls s) - 1) (fst c) (snd c) = inl e /\
        err = "[ERROR] Get Keys failed with error: " +:+ e
  | OutOfFuel => True
  end.
Proof.
  unfold fetchKeys. destruct (L =? 0).
  - destruct (GetKeys meta api 0 0 0) as [e | keys] eqn:Hcall; simpl.
    + exists (0, 0), e. simpl. by rewrite Hcall.
    + intros i c Hi. apply list_lookup_singleton_Some in Hi as [-> <-]. eauto.
  - apply loop_errors. by intros i c Hi.
Qed.

Lemma KMSRead_instance_error fuel d (meta : ClientSession Policy) api0 instanceData resp e :
  KeyManagementAPI meta = inr api0 ->
  ResourceControllerV2API meta = None ->
  GetResourceInstance meta (instanceIDOf d) = (instanceData, resp, Some e) ->
  Read fuel d meta
  = Returned (Some ("[ERROR] Error retrieving resource instance: "
                    +:+ e +:+ " with resp code: " +:+ resp)) d.
Proof.
  intros H1 H2 H3. unfold dataSourceIBMKMSKeyRead. by rewrite H1, H2, H3.
Qed.

Lemma KMSRead_fetch_error fuel d (meta : ClientSession Policy) api v err s :
  ready meta d api ->
  GetOkString d "key_name" = (v, true) ->
  fetchKeys meta api fuel (GetInt d "limit") = Failed err s ->
  Read fuel d meta = Returned (Some err) d.
Proof.
  intros Hready Hname Hfetch. rewrite (KMSRead_ready _ _ fuel d meta api Hready).
  unfold lookupKeys. by rewrite Hname, Hfetch.
Qed.

Lemma KMSRead_by_id fuel d (meta : ClientSession Policy) api v :
  ready meta d api ->
  GetOkString d "key_name" = (v, false) ->
  Read fuel d meta
  = selectByID FlattenKeyPolicies SetErr meta api (instanceIDOf d) (lookupID d) d.
Proof.
  intros Hready Hname. rewrite (KMSRead_ready _ _ fuel d meta api Hready).
  unfold lookupKeys, lookupID. rewrite Hname.
  by destruct (GetOkString d "key_id") as [id []].
Qed.

Lemma selectByID_GetKey_error (meta : ClientSession Policy) api instanceID id d e :
  GetKey meta api id = inl e ->
  selectByID FlattenKeyPolicies SetErr meta api instanceID id d
  = Returned (Some ("[ERROR] Get Keys failed with error: " +:+ e)) d.
Proof. intros H. unfold selectByID. by rewrite H. Qed.

Lemma selectByID_GetPolicies_error (meta : ClientSession Policy) api instanceID id d key e :
  GetKey meta api id = inr key ->
  GetPolicies meta api (ID key) = inl e ->
  selectByID FlattenKeyPolicies SetErr meta api instanceID id d
  = Returned (Some ("[ERROR] Failed to read policies: " +:+ e)) d.
Proof.
  intros H1 H2. unfold selectByID. rewrite H1.
  pose proof (keyEntry_policies FlattenKeyPolicies meta api key) as H.
  rewrite H2 in H. by rewrite H.
Qed.

Lemma selectByName_GetPolicies_error (meta : ClientSession Policy) api instanceID v
                                     totalKeys d :
  v <> "" ->
  (exists key, key ∈ totalKeys /\ Name key = v /\
               exists e, GetPolicies meta api (ID key) = inl e) ->
  exists key e,
    key ∈ totalKeys /\ Name key = v /\ GetPolicies meta api (ID key) = inl e /\
    selectByName FlattenKeyPolicies SetErr meta api instanceID v totalKeys d
    = Returned (Some ("[ERROR] Failed to read policies: " +:+ e)) d.
Proof.
  intros Hv (key & Hin & Hname & e & He).
  unfold selectByName. apply String.eqb_neq in Hv. rewrite Hv. simpl negb. cbv iota.
  rewrite nameEq_filter.
  assert (Hmatch : key ∈ filter (fun k => Name k = v) totalKeys)
    by (by apply list_elem_of_filter).
  destruct (keyMapLoop_failed FlattenKeyPolicies meta api
              (filter (fun k => Name k = v) totalKeys) [])
    as (key' & e' & Hin' & He' & Hloop); [by eauto |].
  apply list_elem_of_filter in Hin' as [Hname' Hin'].
  exists key', e'. repeat (split; [done |]).
  destruct totalKeys as [| k0 rest]; [by apply elem_of_nil in Hin |].
  destruct (filter (fun k => Name k = v) (k0 :: rest)) as [| m0 ms] eqn:Hf;
    [by apply elem_of_nil in Hmatch |].
  simpl length. simpl Nat.eqb. cbv iota. by rewrite Hloop.
Qed.

(** Failing to obtain a client, or to resolve the endpoint, ends the
    read with that error as it is. *)
Lemma KMSRead_setup_error fuel d (meta : ClientSession Policy) e :
  KeyManagementAPI meta = inl e \/
  (exists api0, KeyManagementAPI meta = inr api0 /\
                ResourceControllerV2API meta = Some e) \/
  (exists api0 instanceData resp,
     KeyManagementAPI meta = inr api0 /\
     ResourceControllerV2API meta = None /\
     GetResourceInstance meta (instanceIDOf d) = (Some instanceData, resp, None) /\
     KmsEndpointURL meta api0 (GetString d "endpoint_type") (Extensions instanceData)
     = inl e) ->
  Read fuel d meta = Returned (Some e) d.
Proof.
  unfold dataSourceIBMKMSKeyRead.
  intros [H1 | [(api0 & H1 & H2) | (api0 & inst & resp & H1 & H2 & H3 & H4)]].
  - by rewrite H1.
  - by rewrite H1, H2.
  - rewrite H1, H2, H3. simpl. by rewrite H4.
Qed.

(** A read that returns an error has written nothing. *)
Lemma KMSRead_error_leaves_data fuel d d' (meta : ClientSession Policy) e :
  Read fuel d meta = Returned (Some e) d' -> d' = d.
Proof.
  unfold dataSourceIBMKMSKeyRead, lookupKeys, selectByName, selectByID. intros H.
  repeat case_match; by simplify_eq.
Qed.

End KMSErrors.

(** ** The three handlers side by side *)

Section Handlers.

Context {Policy : Type}.
Variable FlattenKeyPolicies : list Policy -> Value.
Variable Flatten : gmap string Value -> Value.
Variable stringify : Value -> string.
Variable IntValue : option Z -> Z.
Variable fmt_v : Value -> string.
Variable json_Marshal : Value -> error + string.
Variable json_decode : string -> option Value.
Variable DateTimeToString : option Project.DateTime -> string.
Variable TerraformProblem : Type.
Variable TerraformErrorf : error -> string -> string -> string -> TerraformProblem.
Variable GetDiag : TerraformProblem -> Diagnostics.
Variable SetErr : string -> Value -> option error.

Local Abbreviation KMSRead := (KMS.dataSourceIBMKMSKeyRead FlattenKeyPolicies SetErr).
Local Abbreviation PowerRead :=
  (Power.dataSourceIBMPIStorageTypeCapacityRead Flatten SetErr).
Local Abbreviation ProjectRead :=
  (Project.dataSourceIbmProjectConfigRead stringify IntValue fmt_v json_Marshal
     json_decode DateTimeToString TerraformProblem TerraformErrorf GetDiag SetErr).

(** C4.  Every read that returns without an error has set the
    identifier: the KMS handler to the instance identifier it worked
    with (taken out of the CRN when [instance_id] is one), the power
    handler to [<cloudInstanceID>/<storageType>], the project handler to
    [<projectID>/<configID>], neither of which is the empty identifier.
    For the project handler this is said on the footing that the
    diagnostics [flex] makes of a problem hold an error. *)
Theorem successful_read_sets_id :
  (forall p, HasError (GetDiag p) = true) ->
  (forall fuel d d' (meta : KMS.ClientSession Policy),
     KMSRead fuel d meta = KMS.Returned None d' ->
     Id d' = Some (KMS.instanceIDOf d)) /\
  (forall d d' diags meta,
     PowerRead d meta = Ok (diags, d') ->
     HasError diags = false ->
     Id d' = Some (GetString d Power.PICloudInstanceId +:+ "/"
                   +:+ GetString d Power.PITypeName) /\
     Id d' <> Some "") /\
  (forall d d' diags meta,
     ProjectRead d meta = Ok (diags, d') ->
     HasError diags = false ->
     Id d' = Some (GetString d "project_id" +:+ "/"
                   +:+ GetString d "project_config_id") /\
     Id d' <> Some "").
Proof.
  intros Hdiag. split; [| split].
  - intros fuel d d' meta Hread.
    destruct (KMSRead_success _ _ fuel d d' meta Hread) as [keyMap ->].
    apply store_Id.
  - intros d d' diags meta Hread Hok.
    rewrite (PowerRead_success_Id _ _ d d' diags meta Hread Hok).
    split; [done |]. intros [= H]. by apply slash_not_empty in H.
  - intros d d' diags meta Hread Hok.
    rewrite (ProjectRead_success_Id _ _ _ _ _ _ _ _ _ _ d d' diags meta Hdiag Hread Hok).
    split; [done |]. intros [= H]. by apply slash_not_empty in H.
Qed.

(** C3, as the code has it.  A failing SDK call ends the read at once,
    with the resource data untouched and an error or diagnostic made from
    the SDK's error:
    - in the KMS handler, [GetResourceInstance], [GetKeys] (any page of
      the pagination, and a fetch that ends normally has had every call
      answered), [GetKey] and [GetPolicies] fail with the SDK's error
      text behind a context of the handler's own;
    - in the project handler, [GetConfigWithContext] fails with the
      diagnostics of the problem [flex.TerraformErrorf] builds from the
      SDK's error and a message that puts a context before its text,
      which hold an error when [flex]'s diagnostics always do;
    - in the power handler, [GetStorageTypeCapacity] fails with
      [diag.FromErr] of the SDK's error: one error diagnostic whose
      summary is the SDK's error text and nothing more.
    Failing to obtain a client from the session, or to resolve the KMS
    endpoint, ends the read with that error as it is (KMS), through
    [diag.FromErr] (power), or through [flex.TerraformErrorf] with the
    error's own text for a message (project). *)
Theorem sdk_errors_are_returned :
  (forall p, HasError (GetDiag p) = true) ->
  (forall fuel d (meta : KMS.ClientSession Policy) api0 instanceData resp e,
     KMS.KeyManagementAPI meta = inr api0 ->
     KMS.ResourceControllerV2API meta = None ->
     KMS.GetResourceInstance meta (KMS.instanceIDOf d) = (instanceData, resp, Some e) ->
     exists msg,
       KMSRead fuel d meta = KMS.Returned (Some msg) d /\
       msg = "[ERROR] Error retrieving resource instance: " +:+ e
             +:+ " with resp code: " +:+ resp /\
       adds_context e msg) /\
  (forall fuel d (meta : KMS.ClientSession Policy) api v,
     ready meta d api ->
     GetOkString d "key_name" = (v, true) ->
     match KMS.fetchKeys meta api fuel (GetInt d "limit") with
     | KMS.Failed msg s =>
         KMSRead fuel d meta = KMS.Returned (Some msg) d /\
         exists c e,
           last (KMS.calls s) = Some c /\
           KMS.GetKeys meta api (length (KMS.calls s) - 1) (fst c) (snd c) = inl e /\
           msg = "[ERROR] Get Keys failed with error: " +:+ e /\
           adds_context e msg
     | KMS.Done s => answered meta api (KMS.calls s)
     | KMS.OutOfFuel => True
     end) /\
  (forall fuel d (meta : KMS.ClientSession Policy) api v s,
     ready meta d api ->
     GetOkString d "key_name" = (v, true) ->
     KMS.fetchKeys meta api fuel (GetInt d "limit") = KMS.Done s ->
     (exists key, key ∈ KMS.totalKeys s /\ KMS.Name key = v /\
                  exists e, KMS.GetPolicies meta api (KMS.ID key) = inl e) ->
     exists key e msg,
       key ∈ KMS.totalKeys s /\ KMS.Name key = v /\
       KMS.GetPolicies meta api (KMS.ID key) = inl e /\
       KMSRead fuel d meta = KMS.Returned (Some msg) d /\
       msg = "[ERROR] Failed to read policies: " +:+ e /\
       adds_context e msg) /\
  (forall fuel d (meta : KMS.ClientSession Policy) api v e,
     ready meta d api ->
     GetOkString d "key_name" = (v, false) ->
     KMS.GetKey meta api (lookupID d) = inl e ->
     exists msg,
       KMSRead fuel d meta = KMS.Returned (Some msg) d /\
       msg = "[ERROR] Get Keys failed with error: " +:+ e /\
       adds_context e msg) /\
  (forall fuel d (meta : KMS.ClientSession Policy) api v key e,
     ready meta d api ->
     GetOkString d "key_name" = (v, false) ->
     KMS.GetKey meta api (lookupID d) = inr key ->
     KMS.GetPolicies meta api (KMS.ID key) = inl e ->
     exists msg,
       KMSRead fuel d meta = KMS.Returned (Some msg) d /\
       msg = "[ERROR] Failed to read policies: " +:+ e /\
       adds_context e msg) /\
  (forall d meta e,
     Project.ProjectV1 meta = None ->
     Project.GetConfigWithContext meta (GetString d "project_id")
                                  (GetString d "project_config_id") = inl e ->
     exists msg,
       ProjectRead d meta
       = Ok (GetDiag (TerraformErrorf e msg "(Data) ibm_project_config" "read"), d) /\
       HasError (GetDiag (TerraformErrorf e msg "(Data) ibm_project_config" "read"))
       = true /\
       msg = "GetConfigWithContext failed: " +:+ e /\
       adds_context e msg) /\
  (forall d meta e,
     Power.IBMPISession meta = None ->
     Power.GetStorageTypeCapacity meta (GetString d Power.PICloudInstanceId)
                                  (GetString d Power.PITypeName) = inl e ->
     PowerRead d meta
     = Ok ([ {| severity := SevError; Summary := e; Detail := "" |} ], d)) /\
  (forall fuel d (meta : KMS.ClientSession Policy) e,
     KMS.KeyManagementAPI meta = inl e \/
     (exists api0, KMS.KeyManagementAPI meta = inr api0 /\
                   KMS.ResourceControllerV2API meta = Some e) \/
     (exists api0 instanceData resp,
        KMS.KeyManagementAPI meta = inr api0 /\
        KMS.ResourceControllerV2API meta = None /\
        KMS.GetResourceInstance meta (KMS.instanceIDOf d)
        = (Some instanceData, resp, None) /\
        KMS.KmsEndpointURL meta api0 (GetString d "endpoint_type")
                           (KMS.Extensions instanceData) = inl e) ->
     KMSRead fuel d meta = KMS.Returned (Some e) d) /\
  (forall d meta e,
     Power.IBMPISession meta = Some e ->
     PowerRead d meta
     = Ok ([ {| severity := SevError; Summary := e; Detail := "" |} ], d)) /\
  (forall d meta e,
     Project.ProjectV1 meta = Some e ->
     ProjectRead d meta
     = Ok (GetDiag (TerraformErrorf e e "(Data) ibm_project_config" "read"), d) /\
     HasError (GetDiag (TerraformErrorf e e "(Data) ibm_project_config" "read")) = true).
Proof.
  intros Hdiag. repeat apply conj.
  - intros fuel d meta api0 instanceData resp e H1 H2 H3. eexists.
    split; [by eapply KMSRead_instance_error |]. split; [done |].
    by apply adds_context_intro.
  - intros fuel d meta api v Hready Hname.
    pose proof (fetchKeys_errors meta api (GetInt d "limit") fuel) as Hfetch.
    destruct (KMS.fetchKeys meta api fuel (GetInt d "limit")) as [s | msg s |] eqn:Hf;
      [done | | done].
    split; [by eapply KMSRead_fetch_error |].
    destruct Hfetch as (c & e & Hlast & Hcall & ->).
    exists c, e. repeat (split; [done |]). by apply adds_context_end.
  - intros fuel d meta api v s Hready Hname Hfetch Hfail.
    rewrite (KMSRead_by_name _ _ fuel d meta api v s Hready Hname Hfetch).
    destruct (selectByName_GetPolicies_error FlattenKeyPolicies SetErr meta api
                (KMS.instanceIDOf d) v (KMS.totalKeys s) d)
      as (key & e & Hin & Hnm & He & Hsel);
      [by eapply GetOkString_nonempty | done |].
    exists key, e. eexists.
    split; [exact Hin |]. split; [exact Hnm |]. split; [exact He |].
    split; [exact Hsel |]. split; [done |].
    by apply adds_context_end.
  - intros fuel d meta api v e Hready Hname Hcall. eexists.
    rewrite (KMSRead_by_id _ _ fuel d meta api v Hready Hname).
    split; [by apply selectByID_GetKey_error |]. split; [done |].
    by apply adds_context_end.
  - intros fuel d meta api v key e Hready Hname Hcall Hpol. eexists.
    rewrite (KMSRead_by_id _ _ fuel d meta api v Hready Hname).
    split; [by eapply selectByID_GetPolicies_error |]. split; [done |].
    by apply adds_context_end.
  - intros d meta e Hsess Hcall. eexists.
    split; [by apply ProjectRead_client_error |]. split; [apply Hdiag |].
    split; [done |]. by apply adds_context_end.
  - intros d meta e Hsess Hcall. by apply PowerRead_client_error.
  - intros fuel d meta e Hsetup. by apply KMSRead_setup_error.
  - intros d meta e Hsess. by apply PowerRead_session_error.
  - intros d meta e Hsess. split; [by apply ProjectRead_session_error | apply Hdiag].
Qed.

End Handlers.

Lemma successful_read_sets_id_witness :
  (forall p, HasError (ProjectSample.GetDiag p) = true) /\
  (exists d',
     KMS.dataSourceIBMKMSKeyRead Sample.flattenPolicies Sample.accept
       1 (Sample.byName "a" 0) Sample.session = KMS.Returned None d' /\
     Id d' = Some "guid-1") /\
  (exists d',
     Power.dataSourceIBMPIStorageTypeCapacityRead PowerSample.flatten Sample.accept
       PowerSample.data (PowerSample.session (inr PowerSample.capacity)) = Ok ([], d') /\
     Id d' = Some "cloud-1/tier1") /\
  (exists d',
     ProjectSample.Read ProjectSample.data
       (ProjectSample.session (inr (ProjectSample.config [ ProjectSample.output (VString "x") ])))
     = Ok ([], d') /\
     Id d' = Some "prj-1/cfg-1").
Proof.
  assert (Hdiag : forall p, HasError (ProjectSample.GetDiag p) = true) by done.
  destruct (successful_read_sets_id Sample.flattenPolicies PowerSample.flatten
              ProjectSample.stringify ProjectSample.IntValue ProjectSample.fmt_v
              ProjectSample.json_Marshal ProjectSample.json_decode
              ProjectSample.DateTimeToString (error * string)
              ProjectSample.TerraformErrorf ProjectSample.GetDiag Sample.accept Hdiag)
    as (Hkms & Hpower & Hproject).
  split; [exact Hdiag |]. split; [| split].
  - destruct (KMS.dataSourceIBMKMSKeyRead Sample.flattenPolicies Sample.accept
                1 (Sample.byName "a" 0) Sample.session) as [[e |] d' |] eqn:Hread;
      [vm_compute in Hread; discriminate | | vm_compute in Hread; discriminate].
    exists d'. split; [reflexivity |].
    rewrite (Hkms 1%nat (Sample.byName "a" 0) d' Sample.session Hread).
    vm_compute. reflexivity.
  - destruct (Power.dataSourceIBMPIStorageTypeCapacityRead PowerSample.flatten Sample.accept
                PowerSample.data (PowerSample.session (inr PowerSample.capacity)))
      as [[[| dg diags] d'] | msg] eqn:Hread;
      [| vm_compute in Hread; discriminate ..].
    exists d'. split; [reflexivity |].
    rewrite (proj1 (Hpower PowerSample.data d' [] _ Hread eq_refl)).
    vm_compute. reflexivity.
  - unfold ProjectSample.Read.
    destruct (Project.dataSourceIbmProjectConfigRead _ _ _ _ _ _ _ _ _ _ _ _)
      as [[[| dg diags] d'] | msg] eqn:Hread;
      [| vm_compute in Hread; discriminate ..].
    exists d'. split; [reflexivity |].
    rewrite (proj1 (Hproject ProjectSample.data d' [] _ Hread eq_refl)).
    vm_compute. reflexivity.
Defined.

Lemma sdk_errors_are_returned_witness :
  (forall p, HasError (ProjectSample.GetDiag p) = true) /\
  ProjectSample.Read ProjectSample.data (ProjectSample.session (inl "404 Not Found"))
  = Ok ([ {| severity := SevError;
             Summary := "GetConfigWithContext failed: 404 Not Found";
             Detail := "" |} ], ProjectSample.data) /\
  Power.dataSourceIBMPIStorageTypeCapacityRead PowerSample.flatten Sample.accept
    PowerSample.data (PowerSample.session (inl "500 Internal Server Error"))
  = Ok ([ {| severity := SevError; Summary := "500 Internal Server Error"; Detail := "" |} ],
        PowerSample.data).
Proof.
  assert (Hdiag : forall p, HasError (ProjectSample.GetDiag p) = true) by done.
  destruct (sdk_errors_are_returned Sample.flattenPolicies PowerSample.flatten
              ProjectSample.stringify ProjectSample.IntValue ProjectSample.fmt_v
              ProjectSample.json_Marshal ProjectSample.json_decode
              ProjectSample.DateTimeToString (error * string)
              ProjectSample.TerraformErrorf ProjectSample.GetDiag Sample.accept Hdiag)
    as (_ & _ & _ & _ & _ & Hproject & Hpower & _).
  split; [exact Hdiag |]. split.
  - destruct (Hproject ProjectSample.data (ProjectSample.session (inl "404 Not Found"))
                "404 Not Found" eq_refl eq_refl) as (msg & Hread & _ & -> & _).
    exact Hread.
  - exact (Hpower PowerSample.data (PowerSample.session (inl "500 Internal Server Error"))
             "500 Internal Server Error" eq_refl eq_refl).
Defined.

(** C3 as first stated has every handler put a context around the SDK's
    error.  The power handler does not: the diagnostic it returns for a
    failing [GetStorageTypeCapacity] has the SDK's error text for its
    summary, with nothing before it. *)
Lemma power_error_carries_no_context :
  exists dg,
    Power.GetStorageTypeCapacity (PowerSample.session (inl "500 Internal Server Error"))
      (GetString PowerSample.data Power.PICloudInstanceId)
      (GetString PowerSample.data Power.PITypeName)
    = inl "500 Internal Server Error" /\
    Power.dataSourceIBMPIStorageTypeCapacityRead PowerSample.flatten Sample.accept
      PowerSample.data (PowerSample.session (inl "500 Internal Server Error"))
    = Ok ([ dg ], PowerSample.data) /\
    ~ adds_context "500 Internal Server Error" (Summary dg) /\
    Detail dg = "".
Proof.
  exists {| severity := SevError; Summary := "500 Internal Server Error"; Detail := "" |}.
  split; [reflexivity |]. split; [reflexivity |]. split; [| reflexivity].
  apply adds_context_same.
Qed.

(** ** The schema of [ibm_kms_key] *)

Section KMSSchemaFacts.

Import schema KMSSchema.

Lemma validate_exactly_one (k : string) (s : Schema) (c : ResourceConfig) :
  ExactlyOneOf s = oneOfKeys ->
  k ∈ oneOfKeys ->
  validate k s c = [] ->
  length (List.filter (specifiedIn c) oneOfKeys) = 1%nat.
Proof.
  intros Hs Hk. unfold validate, validateExactlyOneAttribute. rewrite Hs.
  assert (Hkeys : sort_Strings (removeDuplicates [] (oneOfKeys ++ [ k ]))
                  = [ "alias"; "key_id"; "key_name" ]).
  { unfold oneOfKeys in *.
    repeat (apply elem_of_cons in Hk as [-> | Hk]; [by vm_compute |]).
    by apply elem_of_nil in Hk. }
  unfold oneOfKeys at 1. rewrite Hkeys. unfold oneOfKeys. simpl.
  destruct (specifiedIn c "alias"), (specifiedIn c "key_name"),
    (specifiedIn c "key_id"); simpl; done.
Qed.

Lemma validate_allowed (k : string) (s : Schema) (c : ResourceConfig)
                       (allowed : list string) (v : Value) :
  ExactlyOneOf s = [] ->
  Optional s = true ->
  ValidateFunc s = Some (validate.ValidateAllowedStringValues allowed) ->
  validate k s c = [] ->
  c !! k = Some v ->
  exists input, v = VString input /\ input ∈ allowed.
Proof.
  intros Hone Hopt Hf. unfold validate, validateExactlyOneAttribute.
  rewrite Hone. intros Hval Hv. rewrite Hv, Hopt in Hval.
  rewrite andb_false_r in Hval. unfold validateType in Hval. rewrite Hf in Hval.
  destruct (negb (hasType (Type_ s) v)); [done |].
  unfold validate.ValidateAllowedStringValues in Hval.
  destruct v as [| input | | | | |]; try done.
  destruct (existsb (String.eqb input) allowed) eqn:Hex; [| done].
  exists input. split; [done |].
  apply existsb_exists in Hex as (x & Hin & Heq).
  apply String.eqb_eq in Heq as ->. by apply list_elem_of_In.
Qed.

Lemma defaults_endpoint_type (c : ResourceConfig) :
  c !! "endpoint_type" = None ->
  defaults DataSourceIBMKMSkey c !! "endpoint_type" = Some (VString "public").
Proof.
  intros Hnone. unfold DataSourceIBMKMSkey. cbn [defaults].
  rewrite Hnone. cbn.
  repeat case_match; by simplify_map_eq.
Qed.

(** C7.  A configuration the schema lets through sets exactly one of
    [alias], [key_name] and [key_id], and sets [endpoint_type], if at
    all, to ["public"] or ["private"]; a handler run on a configuration
    without [endpoint_type] reads ["public"] for it. *)
Theorem kms_schema_enforces_choices (c : ResourceConfig) :
  (Validate DataSourceIBMKMSkey c = [] ->
     length (List.filter (specifiedIn c) [ "alias"; "key_name"; "key_id" ]) = 1%nat /\
     (forall v, c !! "endpoint_type" = Some v ->
                v = VString "public" \/ v = VString "private")) /\
  (c !! "endpoint_type" = None ->
     GetString (dataFor DataSourceIBMKMSkey c) "endpoint_type" = "public").
Proof.
  split.
  - unfold Validate, validateObject. intros Hval.
    apply app_eq_nil in Hval as [Hval _].
    unfold DataSourceIBMKMSkey in Hval. simpl fmap in Hval. simpl concat in Hval.
    repeat match type of Hval with
           | (_ ++ _)%list = [] => apply app_eq_nil in Hval as [? Hval]
           end.
    split.
    + eapply (validate_exactly_one "key_id"); [| | eassumption]; [done |].
      unfold oneOfKeys. do 2 right. by left.
    + intros v Hv.
      match goal with
      | H : validate "endpoint_type" ?s c = [] |- _ =>
          destruct (validate_allowed "endpoint_type" s c [ "public"; "private" ] v
                      eq_refl eq_refl eq_refl H Hv)
            as (input & -> & Hin)
      end.
      apply elem_of_cons in Hin as [-> | Hin]; [by left |].
      apply elem_of_cons in Hin as [-> | Hin]; [by right |].
      by apply elem_of_nil in Hin.
  - intros Hnone. unfold GetString.
    change (attrs (dataFor DataSourceIBMKMSkey c))
      with (c ∪ defaults DataSourceIBMKMSkey c).
    rewrite lookup_union_r by done.
    by rewrite defaults_endpoint_type.
Qed.

End KMSSchemaFacts.

Lemma kms_schema_enforces_choices_witness :
  schema.Validate KMSSchema.DataSourceIBMKMSkey SchemaSample.byName = [] /\
  length (List.filter (schema.specifiedIn SchemaSample.byName)
            [ "alias"; "key_name"; "key_id" ]) = 1%nat /\
  SchemaSample.byName !! "endpoint_type" = Some (VString "private") /\
  GetString (schema.dataFor KMSSchema.DataSourceIBMKMSkey (delete "endpoint_type" SchemaSample.byName))
            "endpoint_type" = "public".
Proof.
  assert (H1 : schema.Validate KMSSchema.DataSourceIBMKMSkey SchemaSample.byName = [])
    by (vm_compute; reflexivity).
  split; [exact H1 |].
  split; [exact (proj1 (proj1 (kms_schema_enforces_choices SchemaSample.byName) H1)) |].
  split; [vm_compute; reflexivity |].
  apply (proj2 (kms_schema_enforces_choices (delete "endpoint_type" SchemaSample.byName))).
  vm_compute. reflexivity.
Defined.

Example two_lookups_are_refused :
  schema.Validate KMSSchema.DataSourceIBMKMSkey SchemaSample.byNameAndAlias
  = [ schema.OneOfConflict [ "alias"; "key_id"; "key_name" ] [ "alias"; "key_name" ];
      schema.OneOfConflict [ "alias"; "key_id"; "key_name" ] [ "alias"; "key_name" ];
      schema.OneOfConflict [ "alias"; "key_id"; "key_name" ] [ "alias"; "key_name" ] ].
Proof. vm_compute. reflexivity. Qed.

Example no_lookup_is_refused :
  schema.Validate KMSSchema.DataSourceIBMKMSkey
    (<["instance_id" := VString "guid-1"]> ∅) <> [].
Proof. vm_compute. discriminate. Qed.

Example unknown_endpoint_is_refused :
  schema.Validate KMSSchema.DataSourceIBMKMSkey
    (<["endpoint_type" := VString "direct"]> SchemaSample.byName) <> [].
Proof. vm_compute. discriminate. Qed.

(** * Further properties *)

(** ** More on the pagination *)

Section PaginationMore.

Import KMS.

Context {Policy : Type}.
Variable meta : ClientSession Policy.
Variable api : API.

Lemma pagesOf_snoc (cs : list (Z * Z)) (c : Z * Z) :
  pagesOf meta api (cs ++ [ c ])
  = (pagesOf meta api cs ++ pageKeys meta api (length cs) c)%list.
Proof.
  unfold pagesOf. rewrite imap_app, concat_app. simpl.
  rewrite app_nil_r. by rewrite Nat.add_0_r.
Qed.

Lemma loop_pages (L : Z) (fuel : nat) (s : Page) :
  totalKeys s = pagesOf meta api (calls s) ->
  match loop meta api fuel L s with
  | Done s' | Failed _ s' => totalKeys s' = pagesOf meta api (calls s')
  | OutOfFuel => True
  end.
Proof.
  revert s. induction fuel as [| fuel IH]; intros s Hs; simpl; [done |].
  unfold loopBody.
  destruct (offset s <? L); [| by apply IH].
  destruct (int_sub L (offset s) <? pageSize).
  - destruct (GetKeys meta api (length (calls s)) (int_sub L (offset s)) (offset s))
      as [e | keys] eqn:Hcall; simpl;
      rewrite pagesOf_snoc; unfold pageKeys; simpl; rewrite Hcall, <- Hs;
      by rewrite ?app_nil_r.
  - destruct (GetKeys meta api (length (calls s)) pageSize (offset s))
      as [e | keys] eqn:Hcall; simpl.
    + rewrite pagesOf_snoc. unfold pageKeys. simpl. rewrite Hcall, <- Hs.
      by rewrite app_nil_r.
    + assert (Hs' : (totalKeys s ++ Keys_Keys keys)%list
                    = pagesOf meta api (calls s ++ [ (pageSize, offset s) ])).
      { rewrite pagesOf_snoc. unfold pageKeys. simpl. by rewrite Hcall, <- Hs. }
      destruct (_ || _); simpl; [done |]. by apply IH.
Qed.

(** X1.  Whatever the limit, and however the fetch ends, the keys the
    handler has gathered are the keys of the pages that answered its
    [GetKeys] calls, page after page in call order: none is dropped,
    repeated or reordered. *)
Theorem fetched_keys_are_the_pages (L : Z) (fuel : nat) :
  match fetchKeys meta api fuel L with
  | Done s | Failed _ s => totalKeys s = pagesOf meta api (calls s)
  | OutOfFuel => True
  end.
Proof.
  unfold fetchKeys. destruct (L =? 0).
  - unfold pagesOf, pageKeys.
    destruct (GetKeys meta api 0 0 0) as [e | keys] eqn:Hcall; simpl;
      rewrite Hcall; by rewrite ?app_nil_r.
  - by apply loop_pages.
Qed.

(** Where the last call of a limited fetch stands. *)
Lemma loop_counts (L : Z) :
  int_range L ->
  forall (fuel : nat) (s : Page),
    Turn meta api L s ->
    match loop meta api fuel L s with
    | OutOfFuel => True
    | Failed _ s' =>
        exists c,
          last (calls s') = Some c /\ 0 <= snd c < L /\
          snd c = pageSize * Z.of_nat (length (calls s') - 1) /\
          total (calls s') = snd c + fst c /\
          fst c = Z.min pageSize (L - snd c)
    | Done s' =>
        exists c keys,
          last (calls s') = Some c /\ 0 <= snd c < L /\
          snd c = pageSize * Z.of_nat (length (calls s') - 1) /\
          total (calls s') = snd c + fst c /\
          fst c = Z.min pageSize (L - snd c) /\
          GetKeys meta api (length (calls s') - 1) (fst c) (snd c) = inr keys /\
          stops L c keys
    end.
Proof.
  intros HL fuel. induction fuel as [| fuel IH]; intros s HT; [done |].
  pose proof HT as [Hoff Hcnt Hreq Htot Hgo].
  assert (Hsub : int_sub L (offset s) = L - offset s).
  { apply int_sub_exact. unfold int_range, int_min, int_max in *. lia. }
  simpl. unfold loopBody. rewrite Hsub.
  destruct (Z.ltb_spec (offset s) L) as [_ | ?]; [| lia].
  destruct (Z.ltb_spec (L - offset s) pageSize) as [Hshort | Hfull].
  - destruct (last_call (calls s) (L - offset s, offset s)) as [Hlast Hlen].
    destruct (GetKeys meta api (length (calls s)) (L - offset s) (offset s))
      as [e | keys] eqn:Hcall; simpl.
    + exists (L - offset s, offset s). rewrite Hlen, total_snoc, Htot. simpl.
      repeat (split; [done || lia |]). lia.
    + exists (L - offset s, offset s), keys. rewrite Hlen, total_snoc, Htot. simpl.
      repeat (split; [done || lia |]). right. simpl. lia.
  - destruct (last_call (calls s) (pageSize, offset s)) as [Hlast Hlen].
    assert (Hadd : int_add (offset s) pageSize = offset s + pageSize).
    { apply int_add_exact. unfold int_range, int_min, int_max, pageSize in *. lia. }
    destruct (GetKeys meta api (length (calls s)) pageSize (offset s))
      as [e | keys] eqn:Hcall; simpl.
    + exists (pageSize, offset s). rewrite Hlen, total_snoc, Htot. simpl.
      repeat (split; [done || lia |]). lia.
    + rewrite Hadd.
      destruct (Z.ltb_spec (Metadata_NumberOfKeys keys) pageSize) as [Hfew | Hmany];
        [| destruct (Z.eqb_spec (offset s + pageSize) L) as [Hend | Hmore]]; simpl.
      * exists (pageSize, offset s), keys. rewrite Hlen, total_snoc, Htot. simpl.
        repeat (split; [done || lia |]). by left.
      * exists (pageSize, offset s), keys. rewrite Hlen, total_snoc, Htot. simpl.
        repeat (split; [done || lia |]). by right.
      * apply IH. split; simpl.
        -- unfold pageSize in *. lia.
        -- rewrite length_app. simpl. unfold pageSize in *. lia.
        -- apply (Paged_snoc meta api L s pageSize HT). lia.
        -- rewrite total_snoc, Htot. done.
        -- intros i c Hi. apply lookup_app_Some in Hi as [Hi | [Hge Hi]].
           ++ by apply Hgo.
           ++ apply list_lookup_singleton_Some in Hi as [Hi <-].
              replace i with (length (calls s)) by lia.
              exists keys. simpl. split; [done |].
              unfold stops. simpl. lia.
Qed.

(** X2.  A fetch with a positive limit [L] makes at least one and at most
    [ceil(L / 200)] calls, whether it ends normally or on an error; and
    when its last page reports as many keys as were asked for, it has made
    exactly [ceil(L / 200)] calls and asked for exactly [L] keys in all. *)
Theorem calls_are_bounded_by_limit (L : Z) (fuel : nat) :
  0 < L ->
  int_range L ->
  match fetchKeys meta api fuel L with
  | OutOfFuel => True
  | Failed _ s =>
      1 <= Z.of_nat (length (calls s)) <= (L + 199) / 200
  | Done s =>
      1 <= Z.of_nat (length (calls s)) <= (L + 199) / 200 /\
      (forall c keys,
         last (calls s) = Some c ->
         GetKeys meta api (length (calls s) - 1) (fst c) (snd c) = inr keys ->
         fst c <= Metadata_NumberOfKeys keys ->
         Z.of_nat (length (calls s)) = (L + 199) / 200 /\ total (calls s) = L)
  end.
Proof.
  intros Hpos HL. rewrite fetchKeys_limit by lia.
  pose proof (loop_counts L HL fuel startPage (Turn_start meta api L Hpos)) as H.
  destruct (loop meta api fuel L startPage) as [s | err s |]; [| | done].
  - destruct H as (c & keys & Hlast & Hoff & Hcnt & Htot & Hfst & Hcall & Hstop).
    assert (Hn : (1 <= length (calls s))%nat).
    { destruct (calls s); [done | simpl; lia]. }
    unfold pageSize in *.
    assert (Hle : Z.of_nat (length (calls s)) <= (L + 199) / 200)
      by (apply Z.div_le_lower_bound; lia).
    split; [lia |].
    intros c' keys' Hlast' Hcall' Hfull.
    rewrite Hlast in Hlast'. injection Hlast' as <-.
    rewrite Hcall in Hcall'. injection Hcall' as <-.
    destruct Hstop as [Hfew | Hend]; [lia |]. split; [| lia].
    apply Z.div_unique with (r := L + 199 - 200 * Z.of_nat (length (calls s))); lia.
  - destruct H as (c & Hlast & Hoff & Hcnt & Htot & Hfst).
    assert (Hn : (1 <= length (calls s))%nat).
    { destruct (calls s); [done | simpl; lia]. }
    unfold pageSize in *.
    assert (Hle : Z.of_nat (length (calls s)) <= (L + 199) / 200)
      by (apply Z.div_le_lower_bound; lia).
    lia.
Qed.

End PaginationMore.

Example fetch_450_keys :
  match KMS.fetchKeys Sample.session Sample.api 3 450 with
  | KMS.Done s => length (KMS.totalKeys s) = 9%nat
  | _ => False
  end.
Proof. vm_compute. reflexivity. Qed.

(** ** More on the [ibm_kms_key] handler *)

Lemma Split_cons_segment (seg rest : string) :
  has_colon seg = false ->
  Split (seg +:+ String colon rest) = seg :: Split rest.
Proof.
  induction seg as [| c seg IH]; intros Hseg.
  - reflexivity.
  - simpl in Hseg. apply orb_false_iff in Hseg as [Hc Hseg].
    change (Split (String c (seg +:+ String colon rest)) = String c seg :: Split rest).
    simpl. rewrite Hc. by rewrite IH.
Qed.

(** Splitting undoes joining, for segments without colons. *)
Lemma Split_Join (segs : list string) :
  segs <> [] ->
  Forall (fun seg => has_colon seg = false) segs ->
  Split (Join segs) = segs.
Proof.
  induction segs as [| seg rest IH]; [done |]. intros _ Hall.
  apply Forall_cons in Hall as [Hseg Hrest].
  destruct rest as [| seg' rest].
  - simpl. by apply Split_no_colon.
  - change (Split (seg +:+ String colon (Join (seg' :: rest))) = seg :: seg' :: rest).
    rewrite Split_cons_segment by done. by rewrite IH.
Qed.

Section KMSMore.

Import KMS.

Context {Policy : Type}.
Variable FlattenKeyPolicies : list Policy -> Value.
Variable SetErr : string -> Value -> option error.

Local Abbreviation Read := (dataSourceIBMKMSKeyRead FlattenKeyPolicies SetErr).

Lemma selectByName_returns (meta : ClientSession Policy) api instanceID v totalKeys d :
  selectByName FlattenKeyPolicies SetErr meta api instanceID v totalKeys d <> Diverges.
Proof. unfold selectByName. repeat case_match; done. Qed.

Lemma selectByID_returns (meta : ClientSession Policy) api instanceID id d :
  selectByID FlattenKeyPolicies SetErr meta api instanceID id d <> Diverges.
Proof. unfold selectByID. repeat case_match; done. Qed.

(** X3.  The handler returns, with an error or without, on every input
    but one kind: it can only fail to return when [key_name] is set and
    the limit is negative.  With [key_name] unset it makes no loop at all;
    with a limit [L >= 0] it returns within [L / 200 + 1] turns of the
    pagination loop, whatever the service answers. *)
Theorem read_returns (fuel : nat) (d : ResourceData) (meta : ClientSession Policy) :
  (forall v, GetOkString d "key_name" = (v, true) ->
             0 <= GetInt d "limit" /\ int_range (GetInt d "limit") /\
             (Z.to_nat (GetInt d "limit" / pageSize) < fuel)%nat) ->
  Read fuel d meta <> Diverges.
Proof.
  intros Hlimit. unfold dataSourceIBMKMSKeyRead.
  destruct (KeyManagementAPI meta) as [e | api]; [done |].
  destruct (ResourceControllerV2API meta); [done |].
  destruct (GetResourceInstance meta (instanceIDOf d)) as [[[inst |] resp] [e |]]; try done.
  destruct (KmsEndpointURL meta api _ _) as [e | url]; [done |].
  unfold lookupKeys.
  destruct (GetOkString d "key_name") as [v [|]].
  - destruct (Hlimit v eq_refl) as (Hpos & Hrange & Hfuel).
    set (api' := {| URL := url; Config_InstanceID := instanceIDOf d |}).
    assert (Hfetch : fetchKeys meta api' fuel (GetInt d "limit") <> OutOfFuel).
    { destruct (Z.eq_dec (GetInt d "limit") 0) as [-> | Hne].
      - apply fetchKeys_no_limit.
      - intros Heq.
        pose proof (fetchKeys_ended meta api' (GetInt d "limit") fuel
                      ltac:(lia) Hrange Hfuel) as Hend.
        by rewrite Heq in Hend. }
    destruct (fetchKeys meta api' fuel (GetInt d "limit")); [| done | done].
    apply selectByName_returns.
  - destruct (GetOkString d "key_id") as [id [|]]; apply selectByID_returns.
Qed.

(** X4.  With [key_name] unset, the handler asks [GetKey] for [key_id]
    when that is set and for the alias otherwise; when that call and the
    key's [GetPolicies] call succeed, the read returns nil, whether or not
    the schema takes the writes, and hands ["keys"] a list of one entry
    with the key's id, name, CRN, standard-key flag, aliases and key ring,
    and with ["policies"] exactly when the key has policies. *)
Theorem key_is_looked_up_by_id fuel d (meta : ClientSession Policy) api v key policies :
  ready meta d api ->
  GetOkString d "key_name" = (v, false) ->
  GetKey meta api (lookupID d) = inr key ->
  GetPolicies meta api (ID key) = inr policies ->
  exists m,
    Read fuel d meta = Returned None (store SetErr (instanceIDOf d) [ VMap m ] d) /\
    m !! "id" = Some (VString (ID key)) /\
    m !! "name" = Some (VString (Name key)) /\
    m !! "crn" = Some (VString (CRN key)) /\
    m !! "standard_key" = Some (VBool (Extractable key)) /\
    m !! "aliases" = Some (VList (VString <$> Aliases key)) /\
    m !! "key_ring_id" = Some (VString (KeyRingID key)) /\
    m !! "policies" = match policies with
                      | [] => None
                      | _ => Some (FlattenKeyPolicies policies)
                      end /\
    (SetErr "keys" (VList [ VMap m ]) = None ->
     attrs (store SetErr (instanceIDOf d) [ VMap m ] d) !! "keys"
     = Some (VList [ VMap m ])).
Proof.
  intros Hready Hname Hkey Hpol.
  rewrite (KMSRead_by_id _ _ fuel d meta api v Hready Hname).
  unfold selectByID. rewrite Hkey.
  destruct (keyEntry FlattenKeyPolicies meta api key) as [e | m] eqn:Hentry.
  { unfold keyEntry in Hentry. rewrite Hpol in Hentry. by case_match. }
  exists m. split; [done |].
  destruct (keyEntry_fields _ meta api key m Hentry) as (H1 & H2 & H3 & H4 & H5 & H6).
  repeat (split; [assumption |]). split.
  - unfold keyEntry in Hentry. rewrite Hpol in Hentry.
    destruct policies; simpl in Hentry; simplify_eq; by simplify_map_eq.
  - apply store_keys.
Qed.

Lemma loop_withGetKey g (meta : ClientSession Policy) api fuel L s :
  loop (withGetKey g meta) api fuel L s = loop meta api fuel L s.
Proof.
  revert s. induction fuel as [| fuel IH]; intros s; simpl; [done |].
  unfold loopBody. simpl. repeat case_match; try done; by rewrite IH.
Qed.

Lemma keyMapLoop_withGetKey g (meta : ClientSession Policy) api keys keyMap :
  keyMapLoop FlattenKeyPolicies (withGetKey g meta) api keys keyMap
  = keyMapLoop FlattenKeyPolicies meta api keys keyMap.
Proof.
  revert keyMap. induction keys as [| key rest IH]; intros keyMap; simpl; [done |].
  unfold keyEntry. simpl. repeat case_match; try done; by rewrite IH.
Qed.

Lemma fetchKeys_withGetKey g (meta : ClientSession Policy) api fuel L :
  fetchKeys (withGetKey g meta) api fuel L = fetchKeys meta api fuel L.
Proof. unfold fetchKeys. by rewrite loop_withGetKey. Qed.

Lemma selectByName_withGetKey g (meta : ClientSession Policy) api instanceID v keys d :
  selectByName FlattenKeyPolicies SetErr (withGetKey g meta) api instanceID v keys d
  = selectByName FlattenKeyPolicies SetErr meta api instanceID v keys d.
Proof.
  unfold selectByName. destruct (length keys =? 0)%nat; [done |].
  destruct (negb (v =? "")%string); cbv iota beta;
    (destruct (length _ =? 0)%nat; [done |]); by rewrite keyMapLoop_withGetKey.
Qed.

(** X5.  The three lookups have an order of precedence.  With [key_name]
    set (and not empty), the read does not depend on what [GetKey] would
    answer: [key_id] and [alias] are not consulted.  With [key_name]
    unset, it does not depend on what [GetKeys] would answer. *)
Theorem lookups_take_precedence fuel d (meta : ClientSession Policy) :
  (forall v g, GetOkString d "key_name" = (v, true) ->
     Read fuel d (withGetKey g meta) = Read fuel d meta) /\
  (forall v g, GetOkString d "key_name" = (v, false) ->
     Read fuel d (withGetKeys g meta) = Read fuel d meta).
Proof.
  split; intros v g Hname; unfold dataSourceIBMKMSKeyRead;
    cbn [withGetKey withGetKeys KeyManagementAPI ResourceControllerV2API
         GetResourceInstance KmsEndpointURL];
    destruct (KeyManagementAPI meta) as [e | api]; try done;
    destruct (ResourceControllerV2API meta); try done;
    destruct (GetResourceInstance meta (instanceIDOf d)) as [[[inst |] resp] [e |]];
    try done;
    destruct (KmsEndpointURL meta api _ _) as [e | url]; try done;
    unfold lookupKeys; rewrite Hname.
  - rewrite fetchKeys_withGetKey.
    destruct (fetchKeys meta _ fuel _); try done;
      apply selectByName_withGetKey.
  - done.
Qed.

Lemma instanceIDOf_fixed (d d2 : ResourceData) :
  GetString d2 "instance_id" = instanceIDOf d -> instanceIDOf d2 = instanceIDOf d.
Proof.
  intros Hd2. unfold instanceIDOf at 1. rewrite Hd2.
  destruct (Nat.ltb_spec 3 (length (Split (GetString d "instance_id")))) as [Hcrn | Hplain].
  - destruct (instanceIDOf_crn d Hcrn) as [Heq _].
    assert (Hseg : has_colon (instanceIDOf d) = false).
    { rewrite Heq. apply (Split_segments (GetString d "instance_id")).
      apply nth_In. lia. }
    by rewrite (Split_no_colon _ Hseg).
  - rewrite (instanceIDOf_plain d Hplain).
    destruct (Nat.ltb_spec 3 (length (Split (GetString d "instance_id")))); [lia | done].
Qed.

(** X6.  Reading again what a read has written changes nothing about the
    instance: after a read that returns nil, the handler run on the
    resulting data works with the same instance identifier, which is also
    the identifier of the resource. *)
Theorem rewritten_instance_id_is_stable fuel d d' (meta : ClientSession Policy) :
  SetErr "instance_id" (VString (instanceIDOf d)) = None ->
  Read fuel d meta = Returned None d' ->
  instanceIDOf d' = instanceIDOf d /\
  GetString d' "instance_id" = instanceIDOf d /\
  Id d' = Some (instanceIDOf d').
Proof.
  intros Hset Hread.
  destruct (KMSRead_success _ _ fuel d d' meta Hread) as [keyMap ->].
  assert (Hget : GetString (store SetErr (instanceIDOf d) keyMap d) "instance_id"
                 = instanceIDOf d).
  { unfold GetString. by rewrite store_instance_id. }
  rewrite (instanceIDOf_fixed d _ Hget). by rewrite store_Id.
Qed.

(** X7.  For an [instance_id] made of more than three colon-free fields
    joined by colons, the handler works with the third field from the
    end: for a CRN in its ten-field form
    [crn:version:cname:ctype:service-name:location:scope:service-instance:resource-type:resource]
    that is the service instance. *)
Theorem crn_names_the_instance (d : ResourceData) (segs : list string) :
  GetString d "instance_id" = Join segs ->
  Forall (fun seg => has_colon seg = false) segs ->
  (3 < length segs)%nat ->
  instanceIDOf d = nth (length segs - 3) segs "" /\
  (forall instance, length segs = 10%nat -> segs !! 7%nat = Some instance ->
                    instanceIDOf d = instance).
Proof.
  intros Hid Hall Hlen.
  assert (Hsplit : Split (GetString d "instance_id") = segs).
  { rewrite Hid. apply Split_Join; [| done]. intros ->. simpl in Hlen. lia. }
  assert (Heq : instanceIDOf d = nth (length segs - 3) segs "").
  { unfold instanceIDOf. rewrite Hsplit.
    by destruct (Nat.ltb_spec 3 (length segs)); [| lia]. }
  split; [done |]. intros instance H10 H7. rewrite Heq, H10.
  simpl. by apply nth_lookup_Some.
Qed.

(** X8.  What a read touches: a read that returns an error has written
    nothing at all; a read that returns nil has changed the identifier,
    ["keys"] and ["instance_id"], and no other attribute. *)
Theorem kms_read_touches_only_its_outputs fuel d (meta : ClientSession Policy) :
  match Read fuel d meta with
  | Returned (Some _) d' => d' = d
  | Returned None d' =>
      forall k, k <> "keys" -> k <> "instance_id" -> attrs d' !! k = attrs d !! k
  | Diverges => True
  end.
Proof.
  destruct (Read fuel d meta) as [[e |] d' |] eqn:Hread; [| | done].
  - by eapply KMSRead_error_leaves_data.
  - destruct (KMSRead_success _ _ fuel d d' meta Hread) as [keyMap ->].
    intros k Hkeys Hid. unfold store. by rewrite !dSet__other.
Qed.

(** X9.  The result of [d.Set] is dropped: whether the read returns,
    and the error it returns, are the same whatever the schema makes of
    the writes to ["keys"] and ["instance_id"]. *)
Theorem kms_set_errors_are_not_reported
    (SetErr' : string -> Value -> option error) fuel d (meta : ClientSession Policy) :
  returned (dataSourceIBMKMSKeyRead FlattenKeyPolicies SetErr' fuel d meta)
  = returned (Read fuel d meta).
Proof.
  unfold dataSourceIBMKMSKeyRead, lookupKeys, selectByName, selectByID.
  repeat case_match; simplify_eq; done.
Qed.

Lemma keyEntry_fits (meta : ClientSession Policy) api key m :
  keyEntry FlattenKeyPolicies meta api key = inr m ->
  fits (elemFields KMSSchema.DataSourceIBMKMSkey "keys") [ "policies" ] m.
Proof.
  unfold keyEntry. intros H k v Hk.
  repeat case_match; simplify_eq;
    rewrite ?lookup_insert_Some, lookup_empty in Hk;
    repeat (first [ progress destruct_or? | progress destruct_and? ]); simplify_eq;
    (eexists; split; [reflexivity |]); intros Hop; try reflexivity.
  exfalso. apply Hop. by left.
Qed.

Lemma keyMapLoop_entries (meta : ClientSession Policy) api matchKeys keyMap out :
  keyMapLoop FlattenKeyPolicies meta api matchKeys keyMap = inr out ->
  exists entries,
    out = (keyMap ++ (VMap <$> entries))%list /\
    Forall2 (fun key m => keyEntry FlattenKeyPolicies meta api key = inr m)
            matchKeys entries.
Proof.
  revert keyMap. induction matchKeys as [| key rest IH]; intros keyMap; simpl.
  - intros [= <-]. exists []. split; [by rewrite app_nil_r | constructor].
  - destruct (keyEntry FlattenKeyPolicies meta api key) as [e | m] eqn:Hentry; [done |].
    intros Hloop. destruct (IH _ Hloop) as (entries & -> & HF).
    exists (m :: entries). split; [by rewrite <- app_assoc | by constructor].
Qed.

Lemma entries_fit (meta : ClientSession Policy) api matchKeys entries :
  Forall2 (fun key m => keyEntry FlattenKeyPolicies meta api key = inr m)
          matchKeys entries ->
  Forall (fits (elemFields KMSSchema.DataSourceIBMKMSkey "keys") [ "policies" ]) entries.
Proof.
  induction 1; constructor; eauto using keyEntry_fits.
Qed.

Lemma selectByName_fits (meta : ClientSession Policy) api instanceID v keys d d' :
  selectByName FlattenKeyPolicies SetErr meta api instanceID v keys d = Returned None d' ->
  exists entries,
    entries <> [] /\
    d' = store SetErr instanceID (VMap <$> entries) d /\
    Forall (fits (elemFields KMSSchema.DataSourceIBMKMSkey "keys") [ "policies" ]) entries.
Proof.
  unfold selectByName. destruct (length keys =? 0)%nat; [done |].
  destruct (negb (v =? "")%string); cbv iota beta;
    (match goal with
     | |- context [ (length ?l =? 0)%nat ] =>
         destruct (Nat.eqb_spec (length l) 0) as [| Hlen]; [done |];
         destruct (keyMapLoop FlattenKeyPolicies meta api l []) as [e | out] eqn:Hloop;
         [done |];
         intros [= <-];
         destruct (keyMapLoop_entries meta api l [] out Hloop) as (entries & -> & HF);
         exists entries; split;
         [intros ->; apply Forall2_length in HF; simpl in HF; lia |];
         split; [done | by eapply entries_fit]
     end).
Qed.

Lemma selectByID_fits (meta : ClientSession Policy) api instanceID id d d' :
  selectByID FlattenKeyPolicies SetErr meta api instanceID id d = Returned None d' ->
  exists entries,
    entries <> [] /\
    d' = store SetErr instanceID (VMap <$> entries) d /\
    Forall (fits (elemFields KMSSchema.DataSourceIBMKMSkey "keys") [ "policies" ]) entries.
Proof.
  unfold selectByID. destruct (GetKey meta api id) as [e | key]; [done |].
  destruct (keyEntry FlattenKeyPolicies meta api key) as [e | m] eqn:Hentry; [done |].
  intros [= <-]. exists [ m ]. split; [done |]. split; [done |].
  constructor; [by eapply keyEntry_fits | constructor].
Qed.

(** X10.  The handler and the schema agree on the elements of ["keys"].
    A read that returns nil hands ["keys"] a list of maps that is not
    empty, and every entry of every map is a field the schema declares for
    the elements of ["keys"], with a value of the declared type
    (["policies"], which comes from [flex.FlattenKeyPolicies], is checked
    to be declared only). *)
Theorem keys_fit_the_schema fuel d d' (meta : ClientSession Policy) :
  Read fuel d meta = Returned None d' ->
  exists entries,
    entries <> [] /\
    d' = store SetErr (instanceIDOf d) (VMap <$> entries) d /\
    Forall (fits (elemFields KMSSchema.DataSourceIBMKMSkey "keys") [ "policies" ]) entries.
Proof.
  unfold dataSourceIBMKMSKeyRead, lookupKeys. intros H.
  repeat case_match; simplify_eq; eauto using selectByName_fits, selectByID_fits.
Qed.

(** X11.  Without a limit (the schema gives [limit] no default, so it
    reads as 0) a lookup by name makes exactly one [GetKeys] call, for
    limit 0 at offset 0, and no loop: the read selects among the keys of
    that one page, or returns that call's error. *)
Theorem no_limit_reads_one_page fuel d (meta : ClientSession Policy) api v :
  ready meta d api ->
  GetOkString d "key_name" = (v, true) ->
  GetInt d "limit" = 0 ->
  Read fuel d meta
  = match GetKeys meta api 0 0 0 with
    | inl e => Returned (Some ("[ERROR] Get Keys failed with error: " +:+ e)) d
    | inr keys =>
        selectByName FlattenKeyPolicies SetErr meta api (instanceIDOf d) v (Keys_Keys keys) d
    end.
Proof.
  intros Hready Hname Hlimit. rewrite (KMSRead_ready _ _ fuel d meta api Hready).
  unfold lookupKeys. rewrite Hname, Hlimit. unfold fetchKeys. simpl.
  by destruct (GetKeys meta api 0 0 0).
Qed.

End KMSMore.

(** ** More on the schemas *)

Section SchemaMore.

Import schema.

Lemma hasType_string (v : Value) :
  hasType TypeString v = true <-> exists s, v = VString s.
Proof. destruct v; simpl; split; try done; eauto; by intros [? ?]. Qed.

Lemma hasType_int (v : Value) :
  hasType TypeInt v = true <-> exists z, v = VInt z.
Proof. destruct v; simpl; split; try done; eauto; by intros [? ?]. Qed.

(** An attribute passes when the exactly-one-of rule holds and its value,
    if configured, may be configured, has the declared type and suits the
    validation function. *)
Lemma validate_nil (k : string) (s : Schema) (c : ResourceConfig) :
  validate k s c = [] <->
  validateExactlyOneAttribute k s c = None /\
  match c !! k with
  | None => Required s = false
  | Some raw =>
      (Required s || Optional s) = true /\
      hasType (Type_ s) raw = true /\
      match ValidateFunc s with
      | Some f => snd (f raw k) = []
      | None => True
      end
  end.
Proof.
  unfold validate, validateType.
  destruct (validateExactlyOneAttribute k s c); [by split; [| intros []] |].
  destruct (c !! k) as [raw |].
  - destruct (Required s), (Optional s), (hasType (Type_ s) raw); simpl;
      try (split; [done | by intros (_ & ? & ? & ?)]);
      destruct (ValidateFunc s) as [f |]; try (by split);
      (split; [intros H; apply fmap_nil_inv in H; by repeat split
              | intros (_ & _ & _ & ->); done]).
  - destruct (Required s); by split; [| intros []].
Qed.

Lemma oneOf_count (c : ResourceConfig) (k : string) (s : Schema) :
  k ∈ oneOfKeys ->
  ExactlyOneOf s = [ "alias"; "key_name"; "key_id" ] ->
  validateExactlyOneAttribute k s c = None
  <-> length (List.filter (specifiedIn c) oneOfKeys) = 1%nat.
Proof.
  intros Hk Hs. unfold validateExactlyOneAttribute. rewrite Hs.
  assert (Hkeys : sort_Strings (removeDuplicates [] ([ "alias"; "key_name"; "key_id" ] ++ [ k ]))
                  = [ "alias"; "key_id"; "key_name" ]).
  { unfold oneOfKeys in Hk.
    repeat (apply elem_of_cons in Hk as [-> | Hk]; [by vm_compute |]).
    by apply elem_of_nil in Hk. }
  rewrite Hkeys. unfold oneOfKeys. simpl.
  destruct (specifiedIn c "alias"), (specifiedIn c "key_name"),
    (specifiedIn c "key_id"); simpl; by split.
Qed.

Lemma no_oneOf (k : string) (s : Schema) (c : ResourceConfig) :
  ExactlyOneOf s = [] -> validateExactlyOneAttribute k s c = None.
Proof. intros Hs. unfold validateExactlyOneAttribute. by rewrite Hs. Qed.

Local Abbreviation attributeErrors m c :=
  (concat ((fun '(k, s) => validate k s c) <$> m)).

Lemma attributeErrors_cons (k : string) (s : Schema) (m : schemaMap) (c : ResourceConfig) :
  attributeErrors ((k, s) :: m) c = [] <-> validate k s c = [] /\ attributeErrors m c = [].
Proof.
  simpl. split; [apply app_eq_nil |].
  intros [H1 H2]. rewrite H1. exact H2.
Qed.

Lemma declares_fieldOf (m : schemaMap) (k : string) :
  declares m k = true <-> is_Some (fieldOf m k).
Proof.
  induction m as [| [k' s] rest IH]; simpl.
  - split; [done | by intros [? ?]].
  - destruct (String.eqb k' k); simpl; [| exact IH]. split; [eauto | done].
Qed.

Lemma configured_key (c : ResourceConfig) (k : string) :
  In k (map_to_list c).*1 <-> is_Some (c !! k).
Proof.
  rewrite <- list_elem_of_In, list_elem_of_fmap. split.
  - intros [[k' v] [-> Hin]]. apply elem_of_map_to_list in Hin. by exists v.
  - intros [v Hv]. exists (k, v). split; [done |]. by apply elem_of_map_to_list.
Qed.

(** No key is reported as unknown exactly when every configured key is
    declared or is [timeouts]. *)
Lemma unknownKeys_nil (m : schemaMap) (c : ResourceConfig) :
  unknownKeys m c = [] <-> declaredOnly m c.
Proof.
  unfold unknownKeys, declaredOnly. split.
  - intros Hnil k Hk.
    destruct (declares m k) eqn:Hdecl; [left; by apply declares_fieldOf |].
    destruct (String.eqb_spec k TimeoutsConfigKey) as [-> | Hne]; [by right |].
    exfalso.
    assert (Hin : In k (List.filter
                          (fun subk => negb (declares m subk)
                                       && negb (String.eqb subk TimeoutsConfigKey))
                          (map_to_list c).*1)).
    { apply filter_In. split; [by apply configured_key |].
      rewrite Hdecl. by destruct (String.eqb_spec k TimeoutsConfigKey). }
    rewrite Hnil in Hin. exact Hin.
  - intros Hall.
    destruct (List.filter _ _) as [| k rest] eqn:Hfilter; [done |]. exfalso.
    assert (Hin : In k (k :: rest)) by (by left).
    rewrite <- Hfilter in Hin. apply filter_In in Hin as [Hin Hf].
    apply andb_true_iff in Hf as [Hdecl Htime].
    apply negb_true_iff in Hdecl. apply negb_true_iff in Htime.
    destruct (Hall k) as [Hfield | ->].
    + by apply configured_key.
    + apply declares_fieldOf in Hfield. congruence.
    + by rewrite String.eqb_refl in Htime.
Qed.

(** A configuration passes when none of the declared attributes has an
    error and none of its keys is unknown. *)
Lemma Validate_nil (m : schemaMap) (c : ResourceConfig) :
  Validate m c = [] <-> attributeErrors m c = [] /\ declaredOnly m c.
Proof.
  unfold Validate, validateObject. rewrite <- unknownKeys_nil. split.
  - intros H. apply app_eq_nil in H as [H1 H2]. split; [done |].
    by apply fmap_nil_inv in H2.
  - intros [-> ->]. done.
Qed.

Lemma validate_required_string (k : string) (s : Schema) (c : ResourceConfig) :
  ExactlyOneOf s = [] -> Required s = true -> ValidateFunc s = None ->
  Type_ s = TypeString ->
  validate k s c = [] <-> exists str, c !! k = Some (VString str).
Proof.
  intros H1 H2 H3 H4. rewrite validate_nil, H2, H3, H4.
  destruct (c !! k) as [raw |]; cbn [orb].
  - rewrite hasType_string. split.
    + intros (_ & _ & (str & ->) & _). eauto.
    + intros (str & [= ->]). repeat split; eauto using no_oneOf.
  - split; [by intros [] | by intros [? ?]].
Qed.

Lemma validate_optional (k : string) (s : Schema) (c : ResourceConfig) :
  ExactlyOneOf s = [] -> Required s = false -> Optional s = true ->
  ValidateFunc s = None ->
  validate k s c = [] <->
  c !! k = None \/ exists v, c !! k = Some v /\ hasType (Type_ s) v = true.
Proof.
  intros H1 H2 H3 H4. rewrite validate_nil, H2, H3, H4.
  destruct (c !! k) as [raw |]; cbn [orb].
  - split.
    + intros (_ & _ & Ht & _). right. eauto.
    + intros [? | (v & [= <-] & Ht)]; [done |]. repeat split; eauto using no_oneOf.
  - split; [by left | intros _; split; [by apply no_oneOf | done]].
Qed.

Lemma validate_oneOf (k : string) (s : Schema) (c : ResourceConfig) :
  k ∈ oneOfKeys ->
  ExactlyOneOf s = [ "alias"; "key_name"; "key_id" ] ->
  Required s = false -> Optional s = true -> ValidateFunc s = None ->
  Type_ s = TypeString ->
  validate k s c = [] <->
  length (List.filter (specifiedIn c) oneOfKeys) = 1%nat /\
  (c !! k = None \/ exists str, c !! k = Some (VString str)).
Proof.
  intros Hk H1 H2 H3 H4 H5. rewrite validate_nil, H2, H3, H4, H5.
  rewrite (oneOf_count c k s Hk H1).
  destruct (c !! k) as [raw |]; cbn [orb].
  - rewrite hasType_string. split.
    + intros (Hn & _ & (str & ->) & _). split; [done |]. right. eauto.
    + intros (Hn & [? | (str & [= ->])]); [done |]. repeat split; eauto.
  - split; [intros [Hn _]; split; [done | by left] | by intros [Hn _]].
Qed.

Lemma validate_computed (k : string) (s : Schema) (c : ResourceConfig) :
  ExactlyOneOf s = [] -> Required s = false -> Optional s = false ->
  validate k s c = [] <-> c !! k = None.
Proof.
  intros H1 H2 H3. rewrite validate_nil, H2, H3.
  destruct (c !! k) as [raw |]; cbn [orb].
  - split; [by intros (_ & ? & _) | done].
  - split; [done | intros _; split; [by apply no_oneOf | done]].
Qed.

Lemma validate_allowed_values (k : string) (s : Schema) (c : ResourceConfig)
                              (allowed : list string) :
  ExactlyOneOf s = [] -> Required s = false -> Optional s = true ->
  ValidateFunc s = Some (validate.ValidateAllowedStringValues allowed) ->
  Type_ s = TypeString ->
  validate k s c = [] <->
  c !! k = None \/ exists str, c !! k = Some (VString str) /\ str ∈ allowed.
Proof.
  intros H1 H2 H3 H4 H5. rewrite validate_nil, H2, H3, H4, H5.
  destruct (c !! k) as [raw |]; cbn [orb].
  - rewrite hasType_string. split.
    + intros (_ & _ & (str & ->) & Hf). right. exists str. split; [done |].
      unfold validate.ValidateAllowedStringValues in Hf.
      destruct (existsb (String.eqb str) allowed) eqn:Hex; [| done].
      apply existsb_exists in Hex as (x & Hin & Heq).
      apply String.eqb_eq in Heq as ->. by apply list_elem_of_In.
    + intros [? | (str & [= ->] & Hin)]; [done |].
      split; [by apply no_oneOf |]. repeat split; eauto.
      unfold validate.ValidateAllowedStringValues.
      assert (Hex : existsb (String.eqb str) allowed = true).
      { apply existsb_exists. exists str. split; [by apply list_elem_of_In |].
        apply String.eqb_refl. }
      by rewrite Hex.
  - split; [by left | intros _; split; [by apply no_oneOf | done]].
Qed.

Lemma validate_not_empty (k : string) (s : Schema) (c : ResourceConfig) :
  ExactlyOneOf s = [] -> Required s = true ->
  ValidateFunc s = Some validation.NoZeroValues ->
  Type_ s = TypeString ->
  validate k s c = [] <-> exists str, c !! k = Some (VString str) /\ str <> "".
Proof.
  intros H1 H2 H3 H4. rewrite validate_nil, H2, H3, H4.
  destruct (c !! k) as [raw |]; cbn [orb].
  - rewrite hasType_string. split.
    + intros (_ & _ & (str & ->) & Hf). exists str. split; [done |].
      unfold validation.NoZeroValues in Hf.
      destruct (String.eqb_spec str ""); done.
    + intros (str & [= ->] & Hne).
      split; [by apply no_oneOf |]. repeat split; eauto.
      unfold validation.NoZeroValues. by destruct (String.eqb_spec str "").
  - split; [by intros [] | by intros (? & ? & _)].
Qed.

(** X12.  Of a configuration whose values have the types the schema
    declares, the validation of [ibm_kms_key] lets it through exactly
    when [instance_id] is set to a string, [limit] is absent or an
    integer, exactly one of [alias], [key_name] and [key_id] is set and
    each of them that is set is a string, [endpoint_type] is
    absent, ["public"] or ["private"], the computed attribute [keys] is
    not configured, and no argument is configured that the schema does
    not declare (a [timeouts] block apart). *)
Theorem kms_schema_accepts (c : ResourceConfig) :
  typed KMSSchema.DataSourceIBMKMSkey c = true ->
  Validate KMSSchema.DataSourceIBMKMSkey c = [] <->
  kmsAccepted c /\ declaredOnly KMSSchema.DataSourceIBMKMSkey c.
Proof.
  intros _. rewrite Validate_nil.
  assert (Hattrs : attributeErrors KMSSchema.DataSourceIBMKMSkey c = [] <-> kmsAccepted c).
  { unfold KMSSchema.DataSourceIBMKMSkey. rewrite !attributeErrors_cons.
    rewrite (validate_required_string "instance_id") by done.
    rewrite (validate_optional "limit") by done.
    rewrite (validate_oneOf "key_id") by (done || (unfold oneOfKeys; repeat constructor)).
    rewrite (validate_oneOf "key_name") by (done || (unfold oneOfKeys; repeat constructor)).
    rewrite (validate_oneOf "alias") by (done || (unfold oneOfKeys; repeat constructor)).
    rewrite (validate_allowed_values "endpoint_type" _ c [ "public"; "private" ]) by done.
    rewrite (validate_computed "keys") by done.
    unfold kmsAccepted, oneOfKeys. cbn [Type_ described optional ofType].
    split.
    - intros (Hid & Hlimit & (Hone & Hkid) & (_ & Hname) & (_ & Halias) & Hep & Hkeys & _).
      split; [done |]. split.
      { destruct Hlimit as [? | (v & Hv & Ht)]; [by left | right].
        apply hasType_int in Ht as [z ->]. eauto. }
      split; [done |]. split.
      { intros k Hk. repeat (apply elem_of_cons in Hk as [-> | Hk]; [done |]).
        by apply elem_of_nil in Hk. }
      split; [| done].
      destruct Hep as [? | (str & Hstr & Hin)]; [by left | right].
      apply elem_of_cons in Hin as [-> | Hin]; [by left |].
      apply elem_of_cons in Hin as [-> | Hin]; [by right |].
      by apply elem_of_nil in Hin.
    - intros (Hid & Hlimit & Hone & Hstr & Hep & Hkeys).
      split; [done |]. split.
      { destruct Hlimit as [? | (z & Hz)]; [by left | right]. eauto. }
      split; [split; [done | apply Hstr; repeat constructor] |].
      split; [split; [done | apply Hstr; repeat constructor] |].
      split; [split; [done | apply Hstr; repeat constructor] |].
      split.
      { destruct Hep as [? | [? | ?]];
          [by left | right; eexists; split; [done | repeat constructor] ..]. }
      done. }
  by rewrite Hattrs.
Qed.

(** X13.  Of a configuration whose values have the types the schema
    declares, the validation of [ibm_pi_storage_type_capacity] lets it
    through exactly when [pi_cloud_instance_id] and [pi_storage_type] are
    both set to strings that are not empty, neither computed attribute is
    configured, and no argument is configured that the schema does not
    declare (a [timeouts] block apart). *)
Theorem power_schema_accepts (c : ResourceConfig) :
  typed PowerSchema.DataSourceIBMPIStorageTypeCapacity c = true ->
  Validate PowerSchema.DataSourceIBMPIStorageTypeCapacity c = [] <->
  powerAccepted c /\ declaredOnly PowerSchema.DataSourceIBMPIStorageTypeCapacity c.
Proof.
  intros _. rewrite Validate_nil.
  assert (Hattrs : attributeErrors PowerSchema.DataSourceIBMPIStorageTypeCapacity c = []
                   <-> powerAccepted c).
  { unfold PowerSchema.DataSourceIBMPIStorageTypeCapacity. rewrite !attributeErrors_cons.
    rewrite (validate_not_empty Power.PICloudInstanceId) by done.
    rewrite (validate_not_empty Power.PITypeName) by done.
    rewrite (validate_computed Power.Attr_MaximumStorageAllocation) by done.
    rewrite (validate_computed Power.Attr_StoragePoolsCapacity) by done.
    unfold powerAccepted. split.
    - by intros (? & ? & ? & ? & _).
    - by intros (? & ? & ? & ?). }
  by rewrite Hattrs.
Qed.

End SchemaMore.

(** ** From the configuration to the lookup *)

Section ConfiguredLookup.

Import KMS schema.

Context {Policy : Type}.
Variable FlattenKeyPolicies : list Policy -> Value.
Variable SetErr : string -> Value -> option error.

Local Abbreviation Read := (dataSourceIBMKMSKeyRead FlattenKeyPolicies SetErr).

(** Only [endpoint_type] has a default: every other attribute reads as
    configured. *)
Lemma dataFor_configured (c : ResourceConfig) (k : string) :
  k <> "endpoint_type" ->
  attrs (dataFor KMSSchema.DataSourceIBMKMSkey c) !! k = c !! k.
Proof.
  intros Hk. unfold dataFor. cbn [attrs].
  assert (Hdef : defaults KMSSchema.DataSourceIBMKMSkey c !! k = None).
  { unfold KMSSchema.DataSourceIBMKMSkey. cbn [defaults]. cbn.
    repeat case_match; by simplify_map_eq. }
  rewrite lookup_union, Hdef. by destruct (c !! k).
Qed.

Lemma one_of_three (c : ResourceConfig) :
  length (List.filter (specifiedIn c) oneOfKeys) = 1%nat ->
  (is_Some (c !! "key_name") -> c !! "key_id" = None /\ c !! "alias" = None) /\
  (is_Some (c !! "key_id") -> c !! "key_name" = None /\ c !! "alias" = None) /\
  (is_Some (c !! "alias") -> c !! "key_name" = None /\ c !! "key_id" = None).
Proof.
  unfold oneOfKeys, specifiedIn. simpl.
  destruct (c !! "alias"), (c !! "key_name"), (c !! "key_id"); simpl;
    intros H; try (exfalso; simpl in H; lia);
    repeat split; try done; by intros [? ?].
Qed.

(** X14.  From a configuration the schema lets through, the handler
    looks the key up by the one attribute that was configured: by name
    when [key_name] is set and not empty, and through one [GetKey] call
    for the configured [key_id], or else for the configured [alias].  A
    [key_name] that is configured as the empty string counts as set for
    the schema and as unset for the handler, which then looks up the
    alias [""]. *)
Theorem accepted_configuration_selects_lookup
    (c : ResourceConfig) (fuel : nat) (meta : ClientSession Policy) (api : API) :
  let d := dataFor KMSSchema.DataSourceIBMKMSkey c in
  kmsAccepted c ->
  ready meta d api ->
  (forall v, c !! "key_name" = Some (VString v) -> v <> "" ->
     GetOkString d "key_name" = (v, true)) /\
  (forall v, c !! "key_id" = Some (VString v) ->
     Read fuel d meta
     = selectByID FlattenKeyPolicies SetErr meta api (instanceIDOf d) v d) /\
  (forall v, c !! "alias" = Some (VString v) ->
     Read fuel d meta
     = selectByID FlattenKeyPolicies SetErr meta api (instanceIDOf d) v d) /\
  (c !! "key_name" = Some (VString "") ->
     Read fuel d meta
     = selectByID FlattenKeyPolicies SetErr meta api (instanceIDOf d) "" d).
Proof.
  intros d (_ & _ & Hone & _) Hready.
  destruct (one_of_three c Hone) as (Hname & Hid & Halias).
  assert (Hget : forall k, k <> "endpoint_type" -> attrs d !! k = c !! k)
    by apply dataFor_configured.
  split; [| split; [| split]].
  - intros v Hv Hne. unfold GetOkString. rewrite Hget, Hv by done.
    by destruct (String.eqb_spec v "").
  - intros v Hv. destruct (Hid (mk_is_Some _ _ Hv)) as [Hn Ha].
    rewrite (KMSRead_by_id _ _ fuel d meta api "" Hready).
    + f_equal. unfold lookupID, GetOkString, GetString.
      rewrite !Hget, Hv, Ha by done. by destruct (String.eqb_spec v "").
    + unfold GetOkString. by rewrite Hget, Hn.
  - intros v Hv. destruct (Halias (mk_is_Some _ _ Hv)) as [Hn Hi].
    rewrite (KMSRead_by_id _ _ fuel d meta api "" Hready).
    + f_equal. unfold lookupID, GetOkString, GetString.
      by rewrite !Hget, Hv, Hi.
    + unfold GetOkString. by rewrite Hget, Hn.
  - intros Hv. destruct (Hname (mk_is_Some _ _ Hv)) as [Hi Ha].
    rewrite (KMSRead_by_id _ _ fuel d meta api "" Hready).
    + f_equal. unfold lookupID, GetOkString, GetString.
      by rewrite !Hget, Hi, Ha.
    + unfold GetOkString. by rewrite Hget, Hv.
Qed.

End ConfiguredLookup.

(** ** More on the [ibm_pi_storage_type_capacity] handler *)

Section PowerMore.

Import Power.

Variable Flatten : gmap string Value -> Value.
Variable SetErr : string -> Value -> option error.

Local Abbreviation Read := (dataSourceIBMPIStorageTypeCapacityRead Flatten SetErr).

(** X15.  The read returns nil exactly when the session gives a client,
    the client answers, and no pointer the handler dereferences in the
    answer is nil.  What [d.Set] makes of the two writes plays no part:
    its result is dropped. *)
Theorem power_read_succeeds_iff_complete (d : ResourceData) (meta : ClientSession) :
  (exists d', Read d meta = Ok ([], d')) <->
  IBMPISession meta = None /\
  exists stc,
    GetStorageTypeCapacity meta (GetString d PICloudInstanceId) (GetString d PITypeName)
    = inr stc /\
    complete stc = true.
Proof.
  split.
  - intros [d' Hread].
    destruct (IBMPISession meta) as [e |] eqn:Hsess.
    { by rewrite (PowerRead_session_error _ _ d meta e Hsess) in Hread. }
    split; [done |].
    destruct (GetStorageTypeCapacity meta (GetString d PICloudInstanceId)
                (GetString d PITypeName)) as [e | stc] eqn:Hcall.
    { by rewrite (PowerRead_client_error _ _ d meta e Hsess Hcall) in Hread. }
    exists stc. split; [done |].
    pose proof (PowerRead_complete Flatten SetErr d meta stc Hsess Hcall) as Hc.
    destruct (complete stc); [done |]. by rewrite Hc in Hread.
  - intros (Hsess & stc & Hcall & Hcomplete).
    pose proof (PowerRead_complete Flatten SetErr d meta stc Hsess Hcall) as Hc.
    by rewrite Hcomplete in Hc.
Qed.

(** X16.  After a read that returns nil on a response that has a maximum
    storage allocation, [maximum_storage_allocation] holds what
    [flex.Flatten] makes of the allocation's size, pool and storage type,
    when the schema takes the write. *)
Theorem power_allocation_is_flattened (d d' : ResourceData) (meta : ClientSession)
                                      (stc : StorageTypeCapacity)
                                      (msa : MaximumStorageAllocation) :
  (forall v, SetErr Attr_MaximumStorageAllocation v = None) ->
  Read d meta = Ok ([], d') ->
  GetStorageTypeCapacity meta (GetString d PICloudInstanceId) (GetString d PITypeName)
  = inr stc ->
  stc_MaximumStorageAllocation stc = Some msa ->
  exists size pool type,
    msa_MaxAllocationSize msa = Some size /\
    msa_StoragePool msa = Some pool /\
    msa_StorageType msa = Some type /\
    attrs d' !! Attr_MaximumStorageAllocation
    = Some (Flatten (<[Attr_StorageType := VString type]>
                       (<[Attr_StoragePool := VString pool]>
                          (<[Attr_MaxAllocationSize := VInt size]> ∅)))).
Proof.
  intros Hset Hread Hcall Hmsa.
  destruct (PowerRead_success _ _ d d' meta Hread) as (stc' & d1 & result & Hstc & H1 & _ & ->).
  rewrite Hcall in Hstc. injection Hstc as <-.
  unfold setMaximumStorageAllocation in H1. rewrite Hmsa in H1.
  destruct (msa_MaxAllocationSize msa) as [size |]; simpl in H1; [| done].
  destruct (msa_StoragePool msa) as [pool |]; simpl in H1; [| done].
  destruct (msa_StorageType msa) as [type |]; simpl in H1; [| done].
  injection H1 as <-. exists size, pool, type. repeat (split; [done |]).
  rewrite dSet__other by done. rewrite dSet__accepted by apply Hset.
  apply lookup_insert_eq.
Qed.

Lemma setMaximumStorageAllocation_frame stc d d' k :
  k <> Attr_MaximumStorageAllocation ->
  setMaximumStorageAllocation Flatten SetErr stc d = Ok d' ->
  attrs d' !! k = attrs d !! k.
Proof.
  intros Hk. unfold setMaximumStorageAllocation.
  destruct (stc_MaximumStorageAllocation stc) as [msa |]; [| by intros [= <-]].
  destruct (msa_MaxAllocationSize msa); simpl; [| done].
  destruct (msa_StoragePool msa); simpl; [| done].
  destruct (msa_StorageType msa); simpl; [| done].
  intros [= <-]. by rewrite dSet__other.
Qed.

(** X17.  What the read touches: a read that returns an error diagnostic
    has changed nothing; a read that returns nil has changed the
    identifier, [maximum_storage_allocation] and
    [storage_pools_capacity], and no other attribute, the two inputs
    included. *)
Theorem power_read_touches_only_its_outputs (d : ResourceData) (meta : ClientSession) :
  match Read d meta with
  | Ok ([], d') =>
      forall k, k <> Attr_MaximumStorageAllocation -> k <> Attr_StoragePoolsCapacity ->
                attrs d' !! k = attrs d !! k
  | Ok (_, d') => d' = d
  | Panic _ => True
  end.
Proof.
  destruct (Read d meta) as [[[| diag diags] d'] | msg] eqn:Hread; [| | done].
  - destruct (PowerRead_success _ _ d d' meta Hread) as (stc & d1 & result & _ & H1 & _ & ->).
    intros k Hmsa Hpools. rewrite dSet__other by done.
    by rewrite (setMaximumStorageAllocation_frame stc _ d1 k Hmsa H1).
  - revert Hread. unfold dataSourceIBMPIStorageTypeCapacityRead.
    destruct (IBMPISession meta); [by intros [= _ _ <-] |].
    destruct (GetStorageTypeCapacity meta _ _) as [e | stc]; [by intros [= _ _ <-] |].
    destruct (setMaximumStorageAllocation _ _ stc _); simpl; [| done].
    by destruct (poolsLoop _ _).
Qed.

Lemma poolEntry_fits (sp : option StoragePoolCapacity) (entry : Value) :
  poolEntry sp = Ok entry ->
  exists m,
    entry = VMap m /\
    fits (elemFields PowerSchema.DataSourceIBMPIStorageTypeCapacity
            Attr_StoragePoolsCapacity) [] m /\
    (forall k, is_Some (fieldOf (elemFields PowerSchema.DataSourceIBMPIStorageTypeCapacity
                                   Attr_StoragePoolsCapacity) k) ->
               is_Some (m !! k)).
Proof.
  unfold poolEntry. destruct sp as [pool |]; cbn [deref res_bind]; [| done].
  destruct (sp_MaxAllocationSize pool) as [size |]; cbn [deref res_bind]; [| done].
  intros [= <-]. eexists. split; [done |]. split.
  - intros k v Hk.
    rewrite ?lookup_insert_Some, lookup_empty in Hk.
    repeat (first [ progress destruct_or? | progress destruct_and? ]); simplify_eq;
      (eexists; split; [reflexivity |]); by intros _.
  - intros k.
    let fields := eval vm_compute in
      (elemFields PowerSchema.DataSourceIBMPIStorageTypeCapacity Attr_StoragePoolsCapacity)
    in change (elemFields PowerSchema.DataSourceIBMPIStorageTypeCapacity
                 Attr_StoragePoolsCapacity) with fields.
    cbn [fieldOf].
    unfold Attr_TotalCapacity, Attr_StorageType, Attr_PoolName, Attr_MaxAllocationSize.
    repeat (case_match; [
      match goal with H : String.eqb _ _ = true |- _ => apply String.eqb_eq in H as <- end;
      intros _; by simplify_map_eq |]).
    by intros [? ?].
Qed.

Lemma poolsLoop_fits pools result out :
  poolsLoop pools result = Ok out ->
  exists entries,
    out = (result ++ (VMap <$> entries))%list /\
    length entries = length pools /\
    Forall (fun m =>
      fits (elemFields PowerSchema.DataSourceIBMPIStorageTypeCapacity
              Attr_StoragePoolsCapacity) [] m /\
      (forall k, is_Some (fieldOf (elemFields PowerSchema.DataSourceIBMPIStorageTypeCapacity
                                     Attr_StoragePoolsCapacity) k) ->
                 is_Some (m !! k))) entries.
Proof.
  revert result. induction pools as [| sp rest IH]; intros result; simpl.
  - intros [= <-]. exists []. by rewrite app_nil_r.
  - destruct (poolEntry sp) as [entry | msg] eqn:Hentry; simpl; [| done].
    intros Hloop. destruct (IH _ Hloop) as (entries & -> & Hlen & HF).
    destruct (poolEntry_fits sp entry Hentry) as (m & -> & Hfits & Hall).
    exists (m :: entries). rewrite <- app_assoc. split; [done |].
    split; [simpl; by rewrite Hlen |]. by constructor.
Qed.

(** X18.  The handler and the schema agree on the elements of
    [storage_pools_capacity].  A read that returns nil hands the
    attribute one map per pool of the response, and each map has exactly
    the four fields the schema declares for the elements, with values of
    the declared types. *)
Theorem pools_fit_the_schema (d d' : ResourceData) (meta : ClientSession)
                             (stc : StorageTypeCapacity) :
  Read d meta = Ok ([], d') ->
  GetStorageTypeCapacity meta (GetString d PICloudInstanceId) (GetString d PITypeName)
  = inr stc ->
  exists entries d1,
    d' = dSet_ SetErr Attr_StoragePoolsCapacity (VList (VMap <$> entries)) d1 /\
    length entries = length (stc_StoragePoolsCapacity stc) /\
    Forall (fun m =>
      fits (elemFields PowerSchema.DataSourceIBMPIStorageTypeCapacity
              Attr_StoragePoolsCapacity) [] m /\
      (forall k, is_Some (fieldOf (elemFields PowerSchema.DataSourceIBMPIStorageTypeCapacity
                                     Attr_StoragePoolsCapacity) k) ->
                 is_Some (m !! k))) entries.
Proof.
  intros Hread Hcall.
  destruct (PowerRead_success _ _ d d' meta Hread) as (stc' & d1 & result & Hstc & _ & H2 & ->).
  rewrite Hcall in Hstc. injection Hstc as <-.
  destruct (poolsLoop_fits _ _ _ H2) as (entries & -> & Hlen & HF).
  by exists entries, d1.
Qed.

End PowerMore.

(** ** The flattening helpers of [ibm_project_config] *)

Section ProjectFlattening.

Import Project.

Variable stringify : Value -> string.
Variable IntValue : option Z -> Z.
Variable fmt_v : Value -> string.
Variable json_Marshal : Value -> error + string.
Variable json_decode : string -> option Value.

Local Abbreviation unrecognized :=
  "Unrecognized projectv1.ProjectConfigDefinitionResponseIntf subtype encountered".

Lemma nestedIfPresent_total {A : Type} (k : string) (f : A -> ToMap) (p : option A)
                            (modelMap : gmap string Value) :
  (forall model, exists m, f model = Ok (m, None)) ->
  exists m, nestedIfPresent k f p modelMap = Ok (m, None).
Proof.
  intros Hf. destruct p as [model |]; simpl; [| eauto].
  destruct (Hf model) as [m ->]. simpl. eauto.
Qed.

Lemma NeedsAttentionStateToMap_total (model : ProjectConfigNeedsAttentionState) :
  exists m, dataSourceIbmProjectConfigProjectConfigNeedsAttentionStateToMap model
            = Ok (m, None).
Proof. unfold dataSourceIbmProjectConfigProjectConfigNeedsAttentionStateToMap. eauto. Qed.

Lemma ScriptToMap_total (model : Script) :
  exists m, dataSourceIbmProjectConfigScriptToMap model = Ok (m, None).
Proof. unfold dataSourceIbmProjectConfigScriptToMap. eauto. Qed.

Lemma ComplianceProfileToMap_total (model : ProjectComplianceProfile) :
  exists m, dataSourceIbmProjectConfigProjectComplianceProfileToMap model = Ok (m, None).
Proof. unfold dataSourceIbmProjectConfigProjectComplianceProfileToMap. eauto. Qed.

Lemma ConfigAuthToMap_total (model : ProjectConfigAuth) :
  exists m, dataSourceIbmProjectConfigProjectConfigAuthToMap model = Ok (m, None).
Proof. unfold dataSourceIbmProjectConfigProjectConfigAuthToMap. eauto. Qed.

(** One step that may return early, when it does not. *)
Ltac step_total k f p modelMap H :=
  destruct (nestedIfPresent_total k f p modelMap H) as [? ->]; cbn [andThen].

Lemma SchematicsMetadataToMap_total (model : SchematicsMetadata) :
  exists m, dataSourceIbmProjectConfigSchematicsMetadataToMap model = Ok (m, None).
Proof.
  unfold dataSourceIbmProjectConfigSchematicsMetadataToMap.
  repeat match goal with
         | |- context [ nestedIfPresent ?k ?f ?p ?modelMap ] =>
             step_total k f p modelMap ScriptToMap_total
         end.
  eauto.
Qed.

Lemma DAConfigDefinitionToMap_total (model : DAConfigDefinition) :
  exists m,
    dataSourceIbmProjectConfigProjectConfigDefinitionResponseDAConfigDefinitionPropertiesResponseToMap
      fmt_v model = Ok (m, None).
Proof.
  unfold dataSourceIbmProjectConfigProjectConfigDefinitionResponseDAConfigDefinitionPropertiesResponseToMap.
  step_total "compliance_profile" dataSourceIbmProjectConfigProjectComplianceProfileToMap
    (da_ComplianceProfile model) (∅ : gmap string Value) ComplianceProfileToMap_total.
  match goal with
  | |- context [ nestedIfPresent ?k ?f ?p ?modelMap ] =>
      step_total k f p modelMap ConfigAuthToMap_total
  end.
  eauto.
Qed.

Lemma ResourceConfigDefinitionToMap_total (model : ResourceConfigDefinition) :
  exists m,
    dataSourceIbmProjectConfigProjectConfigDefinitionResponseResourceConfigDefinitionPropertiesResponseToMap
      fmt_v model = Ok (m, None).
Proof.
  unfold dataSourceIbmProjectConfigProjectConfigDefinitionResponseResourceConfigDefinitionPropertiesResponseToMap.
  match goal with
  | |- context [ nestedIfPresent ?k ?f ?p ?modelMap ] =>
      step_total k f p modelMap ConfigAuthToMap_total
  end.
  eauto.
Qed.

(** The type switch: an error for the default case and for nothing else. *)
Lemma DefinitionResponseToMap_outcome (model : ProjectConfigDefinitionResponseIntf) :
  match model with
  | IsOtherSubtype =>
      dataSourceIbmProjectConfigProjectConfigDefinitionResponseToMap fmt_v model
      = Ok (∅, Some unrecognized)
  | _ =>
      exists m,
        dataSourceIbmProjectConfigProjectConfigDefinitionResponseToMap fmt_v model
        = Ok (m, None)
  end.
Proof.
  destruct model as [model | model | model |]; cbn [dataSourceIbmProjectConfigProjectConfigDefinitionResponseToMap].
  - apply DAConfigDefinitionToMap_total.
  - apply ResourceConfigDefinitionToMap_total.
  - step_total "compliance_profile" dataSourceIbmProjectConfigProjectComplianceProfileToMap
      (def_ComplianceProfile model) (∅ : gmap string Value) ComplianceProfileToMap_total.
    match goal with
    | |- context [ nestedIfPresent ?k ?f ?p ?modelMap ] =>
        step_total k f p modelMap ConfigAuthToMap_total
    end.
    eauto.
  - done.
Qed.

Lemma OutputValueToMap_outcome (model : OutputValue) :
  match ov_Value model with
  | VNil =>
      exists m, dataSourceIbmProjectConfigOutputValueToMap
                  stringify json_Marshal json_decode model = Ok (m, None)
  | value =>
      match json_Marshal value with
      | inr _ =>
          exists m, dataSourceIbmProjectConfigOutputValueToMap
                      stringify json_Marshal json_decode model = Ok (m, None)
      | inl _ =>
          exists msg, dataSourceIbmProjectConfigOutputValueToMap
                        stringify json_Marshal json_decode model = Panic msg
      end
  end.
Proof.
  unfold dataSourceIbmProjectConfigOutputValueToMap.
  destruct (ov_Value model); try destruct (json_Marshal _); simpl; eauto.
Qed.

Lemma ProjectReferenceToMap_outcome (model : ProjectReference) :
  match pr_Definition model with
  | None => dataSourceIbmProjectConfigProjectReferenceToMap model = Panic nil_deref
  | Some _ => exists m, dataSourceIbmProjectConfigProjectReferenceToMap model = Ok (m, None)
  end.
Proof.
  unfold dataSourceIbmProjectConfigProjectReferenceToMap,
    dataSourceIbmProjectConfigProjectDefinitionReferenceToMap.
  destruct (pr_Definition model); simpl; eauto.
Qed.

Lemma VersionSummaryToMap_outcome (model : ProjectConfigVersionSummary) :
  match vs_Definition model with
  | None =>
      dataSourceIbmProjectConfigProjectConfigVersionSummaryToMap IntValue model
      = Panic nil_deref
  | Some _ =>
      exists m, dataSourceIbmProjectConfigProjectConfigVersionSummaryToMap IntValue model
                = Ok (m, None)
  end.
Proof.
  unfold dataSourceIbmProjectConfigProjectConfigVersionSummaryToMap,
    dataSourceIbmProjectConfigProjectConfigVersionDefinitionSummaryToMap.
  destruct (vs_Definition model); simpl; eauto.
Qed.

(** X19.  Of the six helpers the handler flattens the response with,
    only the one for the definition can return an error, and only for a
    definition that is of none of the three subtypes of its type switch:
    the error checks the handler makes after the other five are never
    taken. *)
Theorem only_the_type_switch_fails (err : error) (m : gmap string Value) :
  (forall model,
     dataSourceIbmProjectConfigProjectConfigNeedsAttentionStateToMap model
     <> Ok (m, Some err)) /\
  (forall model,
     dataSourceIbmProjectConfigOutputValueToMap stringify json_Marshal json_decode model
     <> Ok (m, Some err)) /\
  (forall model, dataSourceIbmProjectConfigProjectReferenceToMap model <> Ok (m, Some err)) /\
  (forall model, dataSourceIbmProjectConfigSchematicsMetadataToMap model <> Ok (m, Some err)) /\
  (forall model,
     dataSourceIbmProjectConfigProjectConfigVersionSummaryToMap IntValue model
     <> Ok (m, Some err)) /\
  (forall model,
     dataSourceIbmProjectConfigProjectConfigDefinitionResponseToMap fmt_v model
     = Ok (m, Some err) ->
     model = IsOtherSubtype /\ err = unrecognized /\ m = ∅).
Proof.
  split; [| split; [| split; [| split; [| split]]]].
  - intros model H. destruct (NeedsAttentionStateToMap_total model) as [m' Hm]. congruence.
  - intros model H. pose proof (OutputValueToMap_outcome model) as Ho.
    destruct (ov_Value model); try destruct (json_Marshal _);
      destruct Ho as [? Ho]; congruence.
  - intros model H. pose proof (ProjectReferenceToMap_outcome model) as Ho.
    destruct (pr_Definition model); [destruct Ho as [? Ho] |]; congruence.
  - intros model H. destruct (SchematicsMetadataToMap_total model) as [m' Hm]. congruence.
  - intros model H. pose proof (VersionSummaryToMap_outcome model) as Ho.
    destruct (vs_Definition model); [destruct Ho as [? Ho] |]; congruence.
  - intros model H. pose proof (DefinitionResponseToMap_outcome model) as Ho.
    destruct model as [da | rcd | def |];
      [destruct Ho as [? Ho]; congruence .. |].
    rewrite Ho in H. by injection H as <- <-.
Qed.

(** X20.  The helpers for the project and for a version hand the
    [Definition] pointer to a helper that dereferences it without a
    check: they panic exactly when the definition is nil, and otherwise
    return a map whose ["definition"] is a list of one map. *)
Theorem nil_definition_panics :
  (forall model,
     dataSourceIbmProjectConfigProjectReferenceToMap model = Panic nil_deref
     <-> pr_Definition model = None) /\
  (forall model,
     dataSourceIbmProjectConfigProjectConfigVersionSummaryToMap IntValue model
     = Panic nil_deref
     <-> vs_Definition model = None) /\
  (forall model definition,
     pr_Definition model = Some definition ->
     exists m,
       dataSourceIbmProjectConfigProjectReferenceToMap model = Ok (m, None) /\
       m !! "definition"
       = Some (VList [ VMap (<["name" := VPtr VString (pdr_Name definition)]> ∅) ])) /\
  (forall model definition,
     vs_Definition model = Some definition ->
     exists m,
       dataSourceIbmProjectConfigProjectConfigVersionSummaryToMap IntValue model
       = Ok (m, None) /\
       m !! "definition"
       = Some (VList [ VMap (setIfPresent "locator_id" VString (vds_LocatorID definition)
                               (setIfPresent "environment_id" VString
                                  (vds_EnvironmentID definition) ∅)) ])).
Proof.
  split; [| split; [| split]].
  - intros model. pose proof (ProjectReferenceToMap_outcome model) as Ho.
    destruct (pr_Definition model); [destruct Ho as [? Ho] |]; split; congruence.
  - intros model. pose proof (VersionSummaryToMap_outcome model) as Ho.
    destruct (vs_Definition model); [destruct Ho as [? Ho] |]; split; congruence.
  - intros model definition Hdef.
    unfold dataSourceIbmProjectConfigProjectReferenceToMap,
      dataSourceIbmProjectConfigProjectDefinitionReferenceToMap.
    rewrite Hdef. simpl. eexists. split; [done |]. by simplify_map_eq.
  - intros model definition Hdef.
    unfold dataSourceIbmProjectConfigProjectConfigVersionSummaryToMap,
      dataSourceIbmProjectConfigProjectConfigVersionDefinitionSummaryToMap.
    rewrite Hdef. simpl. eexists. split; [done |]. by simplify_map_eq.
Qed.

End ProjectFlattening.

(** ** More on the [ibm_project_config] handler *)

Section ProjectMore.

Import Project.

Variable stringify : Value -> string.
Variable IntValue : option Z -> Z.
Variable fmt_v : Value -> string.
Variable json_Marshal : Value -> error + string.
Variable json_decode : string -> option Value.
Variable DateTimeToString : option DateTime -> string.
Variable TerraformProblem : Type.
Variable TerraformErrorf : error -> string -> string -> string -> TerraformProblem.
Variable GetDiag : TerraformProblem -> Diagnostics.
Variable SetErr : string -> Value -> option error.

Local Abbreviation Read :=
  (dataSourceIbmProjectConfigRead stringify IntValue fmt_v json_Marshal json_decode
     DateTimeToString TerraformProblem TerraformErrorf GetDiag SetErr).
Local Abbreviation setAttr := (setAttr TerraformProblem TerraformErrorf GetDiag SetErr).
Local Abbreviation eachToMap := (eachToMap TerraformProblem TerraformErrorf GetDiag).
Local Abbreviation optionalToMap := (optionalToMap TerraformProblem TerraformErrorf GetDiag).
Local Abbreviation toMapOrExit := (toMapOrExit TerraformProblem TerraformErrorf GetDiag).
Local Abbreviation setAttributes :=
  (setAttributes stringify IntValue fmt_v json_Marshal json_decode
     DateTimeToString TerraformProblem TerraformErrorf GetDiag SetErr).
Local Abbreviation problem := (fun diags : Diagnostics => exists p, diags = GetDiag p).

(** *** Statements that go on to the next one *)

Lemma seq_next {A B : Type} (m : Stmt A) (k : A -> Stmt B) d b d' :
  seq m k d = Next b d' -> exists a d1, m d = Next a d1 /\ k a d1 = Next b d'.
Proof. unfold seq. destruct (m d) as [a d1 | |]; [eauto | done | done]. Qed.

Lemma setAttr_next (k : string) (v : Value) d u d' :
  setAttr k v d = Next u d' -> attrs d' = <[k := v]> (attrs d).
Proof.
  unfold Project.setAttr, dSet. destruct (SetErr k v); [done |]. by intros [= _ <-].
Qed.

Lemma toMapOrExit_next (r : ToMap) d m d' :
  toMapOrExit r d = Next m d' -> r = Ok (m, None) /\ d' = d.
Proof.
  unfold Project.toMapOrExit. destruct r as [[modelMap [err |]] | msg]; [done | | done].
  by intros [= <- <-].
Qed.

Lemma eachToMap_next {A : Type} (f : A -> ToMap) (items : list A) out d res d' :
  eachToMap f items out d = Next res d' ->
  d' = d /\
  exists ms, res = (out ++ (VMap <$> ms))%list /\
             Forall2 (fun item m => f item = Ok (m, None)) items ms.
Proof.
  revert out. induction items as [| item rest IH]; intros out; simpl.
  - intros [= <- <-]. split; [done |]. exists []. by rewrite app_nil_r.
  - intros H. apply seq_next in H as (m & d1 & Hm & H).
    apply toMapOrExit_next in Hm as [Hm ->].
    destruct (IH _ H) as (-> & ms & -> & HF). split; [done |].
    exists (m :: ms). rewrite <- app_assoc. split; [done | by constructor].
Qed.

Lemma optionalToMap_next {A : Type} (f : A -> ToMap) (p : option A) d res d' :
  optionalToMap f p d = Next res d' ->
  d' = d /\
  match p with
  | None => res = []
  | Some model => exists m, f model = Ok (m, None) /\ res = [ VMap m ]
  end.
Proof.
  destruct p as [model |]; simpl.
  - intros H. apply seq_next in H as (m & d1 & Hm & H).
    apply toMapOrExit_next in Hm as [Hm ->]. injection H as <- <-. eauto.
  - by intros [= <- <-].
Qed.

(** *** Statements and what they are confined to *)

Lemma confined_pure {A : Type} ks (a : A) : confined ks problem (pure a).
Proof. by intros d. Qed.

Lemma confined_seq {A B : Type} ks (m : Stmt A) (k : A -> Stmt B) :
  confined ks problem m -> (forall a, confined ks problem (k a)) ->
  confined ks problem (seq m k).
Proof.
  intros Hm Hk d. unfold seq. specialize (Hm d).
  destruct (m d) as [a d1 | diags d1 | msg]; [| done | done].
  destruct Hm as [Hid Hattrs]. specialize (Hk a d1).
  destruct (k a d1) as [b d2 | diags d2 | msg]; [| | done].
  - destruct Hk as [Hid2 Hattrs2]. split; [congruence |].
    intros k' Hk'. by rewrite Hattrs2, Hattrs.
  - destruct Hk as (Hid2 & Hattrs2 & HQ). split; [congruence |]. split; [| done].
    intros k' Hk'. by rewrite Hattrs2, Hattrs.
Qed.

Lemma confined_setAttr ks (k : string) (v : Value) :
  k ∈ ks -> confined ks problem (setAttr k v).
Proof.
  intros Hk d. unfold Project.setAttr, dSet. destruct (SetErr k v) as [e |]; simpl.
  - split; [done |]. split; [done |]. eauto.
  - split; [done |]. intros k' Hk'. apply lookup_insert_ne. by intros ->.
Qed.

Lemma confined_toMapOrExit ks (r : ToMap) : confined ks problem (toMapOrExit r).
Proof.
  intros d. unfold Project.toMapOrExit.
  destruct r as [[modelMap [err |]] | msg]; [| done | done].
  split; [done |]. split; [done |]. eauto.
Qed.

Lemma confined_eachToMap {A : Type} ks (f : A -> ToMap) (items : list A) out :
  confined ks problem (eachToMap f items out).
Proof.
  revert out. induction items as [| item rest IH]; intros out; simpl.
  - apply confined_pure.
  - apply confined_seq; [apply confined_toMapOrExit | intros modelMap; apply IH].
Qed.

Lemma confined_optionalToMap {A : Type} ks (f : A -> ToMap) (p : option A) :
  confined ks problem (optionalToMap f p).
Proof.
  destruct p as [model |]; simpl; [| apply confined_pure].
  apply confined_seq; [apply confined_toMapOrExit | intros; apply confined_pure].
Qed.

Lemma confined_setAttributes (projectConfig : ProjectConfig) :
  confined projectAttributes problem (setAttributes projectConfig).
Proof.
  unfold Project.setAttributes.
  repeat first
    [ apply confined_setAttr; unfold projectAttributes; repeat constructor
    | apply confined_eachToMap
    | apply confined_optionalToMap
    | apply confined_seq; [| intros ?] ].
Qed.

(** X21.  Once the configuration has been fetched the identifier is set,
    however the read ends: a read that stops at a refused write or at a
    flattening error has already changed the identifier.  And whatever
    it returns, the read writes to none but its fifteen computed
    attributes: [project_id] and [project_config_id] stay as they
    were. *)
Theorem project_read_sets_id_first (d : ResourceData) (meta : ClientSession)
                                   (projectConfig : ProjectConfig) :
  ProjectV1 meta = None ->
  GetConfigWithContext meta (GetString d "project_id") (GetString d "project_config_id")
  = inr projectConfig ->
  match Read d meta with
  | Ok (diags, d') =>
      Id d' = Some (GetString d "project_id" +:+ "/" +:+ GetString d "project_config_id") /\
      (forall k, k ∉ projectAttributes -> attrs d' !! k = attrs d !! k) /\
      (diags = [] \/ exists p, diags = GetDiag p)
  | Panic _ => True
  end.
Proof.
  intros Hsess Hcall. unfold dataSourceIbmProjectConfigRead. rewrite Hsess, Hcall.
  unfold run.
  pose proof (confined_setAttributes projectConfig
                (SetId (GetString d "project_id" +:+ "/" +:+ GetString d "project_config_id") d))
    as H.
  destruct (Project.setAttributes _ _ _ _ _ _ _ _ _ _ _ _) as [u d1 | diags1 d1 | msg];
    [| | done].
  - destruct H as [Hid Hattrs]. split; [done |]. split; [done | by left].
  - destruct H as (Hid & Hattrs & HQ). split; [done |]. split; [done | by right].
Qed.

Lemma setAttributes_next (projectConfig : ProjectConfig) d u d' :
  setAttributes projectConfig d = Next u d' ->
  attrs d' !! "version" = Some (VInt (IntValue (pc_Version projectConfig))) /\
  attrs d' !! "is_draft" = Some (VPtr VBool (pc_IsDraft projectConfig)) /\
  attrs d' !! "created_at"
  = Some (VString (DateTimeToString (pc_CreatedAt projectConfig))) /\
  attrs d' !! "modified_at"
  = Some (VString (DateTimeToString (pc_ModifiedAt projectConfig))) /\
  attrs d' !! "last_saved_at"
  = Some (VString (DateTimeToString (pc_LastSavedAt projectConfig))) /\
  attrs d' !! "state" = Some (VPtr VString (pc_State projectConfig)) /\
  attrs d' !! "update_available" = Some (VPtr VBool (pc_UpdateAvailable projectConfig)) /\
  attrs d' !! "href" = Some (VPtr VString (pc_Href projectConfig)) /\
  listOf dataSourceIbmProjectConfigProjectConfigNeedsAttentionStateToMap
    (pc_NeedsAttentionState projectConfig) (attrs d' !! "needs_attention_state") /\
  listOf (dataSourceIbmProjectConfigOutputValueToMap stringify json_Marshal json_decode)
    (pc_Outputs projectConfig) (attrs d' !! "outputs") /\
  optionOf dataSourceIbmProjectConfigProjectReferenceToMap
    (pc_Project projectConfig) (attrs d' !! "project") /\
  optionOf dataSourceIbmProjectConfigSchematicsMetadataToMap
    (pc_Schematics projectConfig) (attrs d' !! "schematics") /\
  optionOf (dataSourceIbmProjectConfigProjectConfigDefinitionResponseToMap fmt_v)
    (pc_Definition projectConfig) (attrs d' !! "definition") /\
  optionOf (dataSourceIbmProjectConfigProjectConfigVersionSummaryToMap IntValue)
    (pc_ApprovedVersion projectConfig) (attrs d' !! "approved_version") /\
  optionOf (dataSourceIbmProjectConfigProjectConfigVersionSummaryToMap IntValue)
    (pc_DeployedVersion projectConfig) (attrs d' !! "deployed_version").
Proof.
  unfold Project.setAttributes. intros H.
  repeat (apply seq_next in H as (? & ? & ? & H); cbv beta in H).
  repeat match goal with
         | Hs : Project.eachToMap _ _ _ _ _ _ _ = Next _ _ |- _ =>
             apply eachToMap_next in Hs as (-> & ? & -> & ?)
         | Hs : Project.optionalToMap _ _ _ _ _ _ = Next _ _ |- _ =>
             apply optionalToMap_next in Hs as (-> & ?)
         end.
  repeat match goal with
         | Hs : Project.setAttr _ _ _ _ _ _ _ = Next _ _ |- _ =>
             apply setAttr_next in Hs
         end.
  repeat match goal with
         | Hs : attrs ?d1 = _ |- context [ attrs ?d1 ] => rewrite Hs; clear Hs
         end.
  cbn [app].
  repeat split;
    try (repeat (rewrite lookup_insert_ne by done); by rewrite lookup_insert_eq).
  all: unfold listOf, optionOf;
    repeat (rewrite lookup_insert_ne by done); rewrite lookup_insert_eq.
  1, 2: by eexists.
  all: match goal with
       | |- match ?p with _ => _ end =>
           destruct p;
           [ match goal with Hm : exists _, _ |- _ =>
               destruct Hm as (m & Hm & ->); by exists m end
           | by subst ]
       end.
Qed.

(** A return without an error diagnostic comes from the last statement. *)
Lemma ProjectRead_next (d d' : ResourceData) (diags : Diagnostics) (meta : ClientSession) :
  (forall p, HasError (GetDiag p) = true) ->
  Read d meta = Ok (diags, d') ->
  HasError diags = false ->
  exists projectConfig u,
    ProjectV1 meta = None /\
    GetConfigWithContext meta (GetString d "project_id") (GetString d "project_config_id")
    = inr projectConfig /\
    diags = [] /\
    setAttributes projectConfig
      (SetId (GetString d "project_id" +:+ "/" +:+ GetString d "project_config_id") d)
    = Next u d'.
Proof.
  intros Hdiag. unfold dataSourceIbmProjectConfigRead.
  destruct (ProjectV1 meta) as [err |].
  { intros [= <- _]. by rewrite Hdiag. }
  destruct (GetConfigWithContext meta _ _) as [err | projectConfig].
  { intros [= <- _]. by rewrite Hdiag. }
  unfold run.
  pose proof (confined_setAttributes projectConfig
                (SetId (GetString d "project_id" +:+ "/" +:+ GetString d "project_config_id") d))
    as Hconf.
  destruct (Project.setAttributes _ _ _ _ _ _ _ _ _ _ _ _) as [u d1 | diags1 d1 | msg]
    eqn:Hrun; [| | done].
  - intros [= <- <-] _. by exists projectConfig, u.
  - intros [= <- <-] Hok. destruct Hconf as (_ & _ & p & ->). by rewrite Hdiag in Hok.
Qed.

(** X22.  A read that returns without an error diagnostic has written the
    whole configuration: [version], [is_draft], [state],
    [update_available], [href] and the three dates as the response has
    them, [needs_attention_state] and [outputs] with one map per item and
    in the response's order, and [project], [schematics], [definition],
    [approved_version] and [deployed_version] with the empty list for a
    nil pointer and a list of one map otherwise; every map was flattened
    without an error.  No hypothesis on [d.Set] is needed: this handler
    checks the result of every write. *)
Theorem project_read_writes_the_configuration
    (d d' : ResourceData) (diags : Diagnostics) (meta : ClientSession) :
  (forall p, HasError (GetDiag p) = true) ->
  Read d meta = Ok (diags, d') ->
  HasError diags = false ->
  exists projectConfig,
    GetConfigWithContext meta (GetString d "project_id") (GetString d "project_config_id")
    = inr projectConfig /\
    attrs d' !! "version" = Some (VInt (IntValue (pc_Version projectConfig))) /\
    attrs d' !! "is_draft" = Some (VPtr VBool (pc_IsDraft projectConfig)) /\
    attrs d' !! "created_at"
    = Some (VString (DateTimeToString (pc_CreatedAt projectConfig))) /\
    attrs d' !! "modified_at"
    = Some (VString (DateTimeToString (pc_ModifiedAt projectConfig))) /\
    attrs d' !! "last_saved_at"
    = Some (VString (DateTimeToString (pc_LastSavedAt projectConfig))) /\
    attrs d' !! "state" = Some (VPtr VString (pc_State projectConfig)) /\
    attrs d' !! "update_available" = Some (VPtr VBool (pc_UpdateAvailable projectConfig)) /\
    attrs d' !! "href" = Some (VPtr VString (pc_Href projectConfig)) /\
    listOf dataSourceIbmProjectConfigProjectConfigNeedsAttentionStateToMap
      (pc_NeedsAttentionState projectConfig) (attrs d' !! "needs_attention_state") /\
    listOf (dataSourceIbmProjectConfigOutputValueToMap stringify json_Marshal json_decode)
      (pc_Outputs projectConfig) (attrs d' !! "outputs") /\
    optionOf dataSourceIbmProjectConfigProjectReferenceToMap
      (pc_Project projectConfig) (attrs d' !! "project") /\
    optionOf dataSourceIbmProjectConfigSchematicsMetadataToMap
      (pc_Schematics projectConfig) (attrs d' !! "schematics") /\
    optionOf (dataSourceIbmProjectConfigProjectConfigDefinitionResponseToMap fmt_v)
      (pc_Definition projectConfig) (attrs d' !! "definition") /\
    optionOf (dataSourceIbmProjectConfigProjectConfigVersionSummaryToMap IntValue)
      (pc_ApprovedVersion projectConfig) (attrs d' !! "approved_version") /\
    optionOf (dataSourceIbmProjectConfigProjectConfigVersionSummaryToMap IntValue)
      (pc_DeployedVersion projectConfig) (attrs d' !! "deployed_version").
Proof.
  intros Hdiag Hread Hok.
  destruct (ProjectRead_next d d' diags meta Hdiag Hread Hok)
    as (projectConfig & u & _ & Hcall & _ & Hrun).
  exists projectConfig. split; [done |]. by eapply setAttributes_next.
Qed.

(** X23.  In every entry of [outputs] a read leaves behind, ["name"]
    and ["description"] are the output's, ["value_json"] is the output's
    value put into a string, present exactly when the value is not nil,
    and the deprecated ["value"] is never there. *)
Theorem outputs_never_carry_value
    (d d' : ResourceData) (diags : Diagnostics) (meta : ClientSession) :
  (forall p, HasError (GetDiag p) = true) ->
  Read d meta = Ok (diags, d') ->
  HasError diags = false ->
  exists projectConfig ms,
    GetConfigWithContext meta (GetString d "project_id") (GetString d "project_config_id")
    = inr projectConfig /\
    attrs d' !! "outputs" = Some (VList (VMap <$> ms)) /\
    Forall2 (fun o m =>
               m !! "name" = Some (VPtr VString (ov_Name o)) /\
               m !! "description" = VString <$> ov_Description o /\
               m !! "value_json" = match ov_Value o with
                                   | VNil => None
                                   | value => Some (VString (stringify value))
                                   end /\
               m !! "value" = None)
            (pc_Outputs projectConfig) ms.
Proof.
  intros Hdiag Hread Hok.
  destruct (ProjectRead_next d d' diags meta Hdiag Hread Hok)
    as (projectConfig & u & _ & Hcall & _ & Hrun).
  destruct (setAttributes_next projectConfig _ u d' Hrun)
    as (_ & _ & _ & _ & _ & _ & _ & _ & _ & (ms & Hout & HF) & _).
  exists projectConfig, ms. split; [done |]. split; [done |].
  eapply Forall2_impl; [exact HF |]. intros o m.
  unfold dataSourceIbmProjectConfigOutputValueToMap.
  destruct (ov_Value o) eqn:Hv; try destruct (json_Marshal _); simpl; try done;
    intros [= <-]; unfold setIfPresent; destruct (ov_Description o);
    by simplify_map_eq.
Qed.

(** *** Running forward *)

Lemma seq_goes_on {A B : Type} (m : Stmt A) (kont : A -> Stmt B) :
  (forall d, exists a d', m d = Next a d') ->
  (forall a d, exists b d', kont a d = Next b d') ->
  forall d, exists b d', seq m kont d = Next b d'.
Proof.
  intros Hm Hk d. unfold seq. destruct (Hm d) as (a & d1 & ->). apply Hk.
Qed.

Lemma setAttr_goes_on (k : string) (v : Value) :
  (forall k v, SetErr k v = None) ->
  forall d, exists u d', setAttr k v d = Next u d'.
Proof. intros Hset d. unfold Project.setAttr, dSet. rewrite Hset. eauto. Qed.

Lemma eachToMap_goes_on {A : Type} (f : A -> ToMap) (items : list A) out :
  (forall item, item ∈ items -> exists m, f item = Ok (m, None)) ->
  forall d, exists res d', eachToMap f items out d = Next res d'.
Proof.
  revert out. induction items as [| item rest IH]; intros out Hall d; simpl.
  - by exists out, d.
  - destruct (Hall item) as [m Hm]; [by left |].
    unfold seq, Project.toMapOrExit. rewrite Hm. apply IH.
    intros i Hi. apply Hall. by right.
Qed.

Lemma optionalToMap_goes_on {A : Type} (f : A -> ToMap) (p : option A) :
  (forall model, p = Some model -> exists m, f model = Ok (m, None)) ->
  forall d, exists res d', optionalToMap f p d = Next res d'.
Proof.
  intros Hall d. destruct p as [model |]; simpl; [| by exists [], d].
  destruct (Hall model eq_refl) as [m Hm].
  unfold seq, Project.toMapOrExit. rewrite Hm. by eexists _, _.
Qed.

Lemma setAttributes_total (projectConfig : ProjectConfig) d :
  (forall k v, SetErr k v = None) ->
  flattenable json_Marshal projectConfig ->
  exists u d', setAttributes projectConfig d = Next u d'.
Proof.
  intros Hset (Houtputs & Hproject & Hdefinition & Happroved & Hdeployed).
  assert (Hversion : forall p : option ProjectConfigVersionSummary,
            (forall v, p = Some v -> is_Some (vs_Definition v)) ->
            forall model, p = Some model ->
              exists m, dataSourceIbmProjectConfigProjectConfigVersionSummaryToMap
                          IntValue model = Ok (m, None)).
  { intros p Hp v Hv. pose proof (VersionSummaryToMap_outcome IntValue v) as Hout.
    destruct (Hp v Hv) as [definition Hdef]. by rewrite Hdef in Hout. }
  revert d. unfold Project.setAttributes.
  repeat first
    [ apply setAttr_goes_on, Hset
    | apply seq_goes_on; [| intros ?] ].
  - apply eachToMap_goes_on. intros item _. apply NeedsAttentionStateToMap_total.
  - apply eachToMap_goes_on. intros o Ho.
    pose proof (OutputValueToMap_outcome stringify json_Marshal json_decode o) as Hout.
    destruct (Houtputs o Ho) as [Hnil | [jsonStr Hjson]].
    + by rewrite Hnil in Hout.
    + destruct (ov_Value o); [done | by rewrite Hjson in Hout ..].
  - apply optionalToMap_goes_on. intros p Hp.
    pose proof (ProjectReferenceToMap_outcome p) as Hout.
    destruct (Hproject p Hp) as [definition Hdef]. by rewrite Hdef in Hout.
  - apply optionalToMap_goes_on. intros model _. apply SchematicsMetadataToMap_total.
  - apply optionalToMap_goes_on. intros model Hmodel.
    pose proof (DefinitionResponseToMap_outcome fmt_v model) as Hout.
    by destruct model.
  - apply optionalToMap_goes_on. by apply Hversion.
  - apply optionalToMap_goes_on. by apply Hversion.
Qed.

Lemma setAttributes_flattenable (projectConfig : ProjectConfig) d u d' :
  setAttributes projectConfig d = Next u d' -> flattenable json_Marshal projectConfig.
Proof.
  intros Hrun.
  destruct (setAttributes_next projectConfig d u d' Hrun)
    as (_ & _ & _ & _ & _ & _ & _ & _ & _ & (ms & _ & HF) & Hp & _ & Hd & Ha & Hv).
  split; [| split; [| split; [| split]]].
  - intros o Ho. apply list_elem_of_lookup in Ho as [i Hi].
    destruct (Forall2_lookup_l _ _ _ _ _ HF Hi) as (m & _ & Hm).
    pose proof (OutputValueToMap_outcome stringify json_Marshal json_decode o) as Hout.
    destruct (ov_Value o) eqn:Hvalue; [by left | right ..];
      (destruct (json_Marshal _) as [e | jsonStr]; [| by eauto]);
      destruct Hout as [msg Hmsg]; congruence.
  - intros p Hproj. rewrite Hproj in Hp. destruct Hp as (m & Hm & _).
    pose proof (ProjectReferenceToMap_outcome p) as Hout.
    destruct (pr_Definition p); [done | congruence].
  - intros Hdef. rewrite Hdef in Hd. by destruct Hd as (m & Hm & _).
  - intros v Hver. rewrite Hver in Ha. destruct Ha as (m & Hm & _).
    pose proof (VersionSummaryToMap_outcome IntValue v) as Hout.
    destruct (vs_Definition v); [done | congruence].
  - intros v Hver. rewrite Hver in Hv. destruct Hv as (m & Hm & _).
    pose proof (VersionSummaryToMap_outcome IntValue v) as Hout.
    destruct (vs_Definition v); [done | congruence].
Qed.

(** X24.  Which responses the read gets through.  With a schema that
    takes every write, the read of a fetched configuration returns nil
    exactly when every output value is nil or has a JSON form, the
    project and the approved and deployed versions, where present, carry
    their definition, and the definition is of a known subtype; on any
    other response it panics or returns an error diagnostic. *)
Theorem project_read_succeeds_iff_flattenable
    (d : ResourceData) (meta : ClientSession) (projectConfig : ProjectConfig) :
  (forall p, HasError (GetDiag p) = true) ->
  (forall k v, SetErr k v = None) ->
  ProjectV1 meta = None ->
  GetConfigWithContext meta (GetString d "project_id") (GetString d "project_config_id")
  = inr projectConfig ->
  (exists d', Read d meta = Ok ([], d')) <-> flattenable json_Marshal projectConfig.
Proof.
  intros Hdiag Hset Hsess Hcall. split.
  - intros [d' Hread].
    destruct (ProjectRead_next d d' [] meta Hdiag Hread eq_refl)
      as (projectConfig' & u & _ & Hcall' & _ & Hrun).
    rewrite Hcall in Hcall'. injection Hcall' as <-.
    by eapply setAttributes_flattenable.
  - intros Hflat. unfold dataSourceIbmProjectConfigRead. rewrite Hsess, Hcall.
    destruct (setAttributes_total projectConfig
                (SetId (GetString d "project_id" +:+ "/" +:+ GetString d "project_config_id") d)
                Hset Hflat) as (u & d' & Hrun).
    exists d'. unfold run. by rewrite Hrun.
Qed.

End ProjectMore.

(** ** The further properties at the sample data *)

Lemma sample_ready_byID (id : string) :
  ready Sample.session (MoreSample.byID id) Sample.api.
Proof.
  exists {| KMS.URL := ""; KMS.Config_InstanceID := "" |}, {| KMS.Extensions := ∅ |},
    "200 OK", "https://us-south.kms.cloud.ibm.com".
  repeat split.
Qed.

Lemma sample_ready_config :
  ready Sample.session (schema.dataFor KMSSchema.DataSourceIBMKMSkey SchemaSample.byName)
        Sample.api.
Proof.
  exists {| KMS.URL := ""; KMS.Config_InstanceID := "" |}, {| KMS.Extensions := ∅ |},
    "200 OK", "https://us-south.kms.cloud.ibm.com".
  repeat split.
Qed.

Lemma sample_accepted : kmsAccepted SchemaSample.byName.
Proof.
  split; [by eexists |]. split; [by left |]. split; [reflexivity |].
  split; [| split; [by right; right | reflexivity]].
  intros k Hk. unfold oneOfKeys in Hk.
  apply elem_of_cons in Hk as [-> | Hk]; [by left |].
  apply elem_of_cons in Hk as [-> | Hk]; [right; by eexists |].
  apply elem_of_cons in Hk as [-> | Hk]; [by left |].
  by apply elem_of_nil in Hk.
Qed.

Lemma calls_are_bounded_by_limit_witness :
  0 < 450 /\ int_range 450 /\
  match KMS.fetchKeys Sample.session Sample.api 3 450 with
  | KMS.Done s => 1 <= Z.of_nat (length (KMS.calls s)) <= (450 + 199) / 200
  | _ => False
  end.
Proof.
  assert (H1 : 0 < 450) by lia.
  assert (H2 : int_range 450) by (unfold int_range, int_min, int_max; lia).
  split; [exact H1 |]. split; [exact H2 |].
  pose proof (calls_are_bounded_by_limit Sample.session Sample.api 450 3 H1 H2) as H.
  destruct (KMS.fetchKeys Sample.session Sample.api 3 450) as [s | e s |] eqn:Hfetch;
    [| vm_compute in Hfetch; discriminate ..].
  exact (proj1 H).
Defined.

Lemma read_returns_witness :
  (forall v, GetOkString (Sample.byName "a" 450) "key_name" = (v, true) ->
             0 <= GetInt (Sample.byName "a" 450) "limit" /\
             int_range (GetInt (Sample.byName "a" 450) "limit") /\
             (Z.to_nat (GetInt (Sample.byName "a" 450) "limit" / KMS.pageSize) < 3)%nat) /\
  KMS.dataSourceIBMKMSKeyRead Sample.flattenPolicies Sample.accept
    3 (Sample.byName "a" 450) Sample.session <> KMS.Diverges.
Proof.
  assert (H1 : forall v, GetOkString (Sample.byName "a" 450) "key_name" = (v, true) ->
             0 <= GetInt (Sample.byName "a" 450) "limit" /\
             int_range (GetInt (Sample.byName "a" 450) "limit") /\
             (Z.to_nat (GetInt (Sample.byName "a" 450) "limit" / KMS.pageSize) < 3)%nat).
  { intros v _. change (GetInt (Sample.byName "a" 450) "limit") with 450.
    split; [lia |]. split; [unfold int_range, int_min, int_max; lia | vm_compute; lia]. }
  split; [exact H1 |].
  exact (read_returns Sample.flattenPolicies Sample.accept 3 (Sample.byName "a" 450)
           Sample.session H1).
Defined.

Lemma key_is_looked_up_by_id_witness :
  ready Sample.session (MoreSample.byID "k1") Sample.api /\
  GetOkString (MoreSample.byID "k1") "key_name" = ("", false) /\
  KMS.GetKey Sample.session Sample.api (lookupID (MoreSample.byID "k1"))
  = inr (Sample.key "k1") /\
  KMS.GetPolicies Sample.session Sample.api (KMS.ID (Sample.key "k1")) = inr [] /\
  exists m,
    KMS.dataSourceIBMKMSKeyRead Sample.flattenPolicies Sample.accept
      0 (MoreSample.byID "k1") Sample.session
    = KMS.Returned None
        (KMS.store Sample.accept (KMS.instanceIDOf (MoreSample.byID "k1")) [ VMap m ]
           (MoreSample.byID "k1")) /\
    m !! "id" = Some (VString "id-k1") /\
    m !! "policies" = None.
Proof.
  assert (H1 : ready Sample.session (MoreSample.byID "k1") Sample.api)
    by apply sample_ready_byID.
  assert (H2 : GetOkString (MoreSample.byID "k1") "key_name" = ("", false)) by reflexivity.
  assert (H3 : KMS.GetKey Sample.session Sample.api (lookupID (MoreSample.byID "k1"))
               = inr (Sample.key "k1")) by reflexivity.
  assert (H4 : KMS.GetPolicies Sample.session Sample.api (KMS.ID (Sample.key "k1")) = inr [])
    by reflexivity.
  split; [exact H1 |]. split; [exact H2 |]. split; [exact H3 |]. split; [exact H4 |].
  destruct (key_is_looked_up_by_id Sample.flattenPolicies Sample.accept
              0 (MoreSample.byID "k1") Sample.session Sample.api "" (Sample.key "k1") []
              H1 H2 H3 H4)
    as (m & Hread & Hid & _ & _ & _ & _ & _ & Hpol & _).
  exists m. split; [exact Hread |]. split; [exact Hid | exact Hpol].
Defined.

Lemma lookups_take_precedence_witness :
  GetOkString (Sample.byName "a" 0) "key_name" = ("a", true) /\
  KMS.dataSourceIBMKMSKeyRead Sample.flattenPolicies Sample.accept
    1 (Sample.byName "a" 0)
    (withGetKey (fun _ _ => inl "503 Service Unavailable") Sample.session)
  = KMS.dataSourceIBMKMSKeyRead Sample.flattenPolicies Sample.accept
      1 (Sample.byName "a" 0) Sample.session.
Proof.
  assert (H1 : GetOkString (Sample.byName "a" 0) "key_name" = ("a", true)) by reflexivity.
  split; [exact H1 |].
  exact (proj1 (lookups_take_precedence Sample.flattenPolicies Sample.accept
                  1 (Sample.byName "a" 0) Sample.session)
           "a" (fun _ _ => inl "503 Service Unavailable") H1).
Defined.

Lemma rewritten_instance_id_is_stable_witness :
  match KMS.dataSourceIBMKMSKeyRead Sample.flattenPolicies Sample.accept
          1 (Sample.byName "a" 0) Sample.session with
  | KMS.Returned None d' =>
      Sample.accept "instance_id" (VString (KMS.instanceIDOf (Sample.byName "a" 0))) = None /\
      KMS.instanceIDOf d' = "guid-1" /\
      Id d' = Some (KMS.instanceIDOf d')
  | _ => False
  end.
Proof.
  pose proof (rewritten_instance_id_is_stable Sample.flattenPolicies Sample.accept
                1 (Sample.byName "a" 0)) as H.
  destruct (KMS.dataSourceIBMKMSKeyRead Sample.flattenPolicies Sample.accept
              1 (Sample.byName "a" 0) Sample.session) as [[e |] d' |] eqn:Hread.
  - vm_compute in Hread. discriminate.
  - split; [reflexivity |].
    destruct (H d' Sample.session eq_refl Hread) as (H1 & _ & H3).
    split; [exact H1 | exact H3].
  - vm_compute in Hread. discriminate.
Defined.

Lemma crn_names_the_instance_witness :
  GetString (Sample.byName "a" 0) "instance_id" = Join MoreSample.segments /\
  Forall (fun seg => has_colon seg = false) MoreSample.segments /\
  (3 < length MoreSample.segments)%nat /\
  KMS.instanceIDOf (Sample.byName "a" 0) = "guid-1".
Proof.
  assert (H1 : GetString (Sample.byName "a" 0) "instance_id" = Join MoreSample.segments)
    by reflexivity.
  assert (H2 : Forall (fun seg => has_colon seg = false) MoreSample.segments)
    by (repeat constructor).
  assert (H3 : (3 < length MoreSample.segments)%nat) by (simpl; lia).
  split; [exact H1 |]. split; [exact H2 |]. split; [exact H3 |].
  exact (proj2 (crn_names_the_instance (Sample.byName "a" 0) MoreSample.segments H1 H2 H3)
           "guid-1" eq_refl eq_refl).
Defined.

Lemma kms_read_touches_only_its_outputs_witness :
  match KMS.dataSourceIBMKMSKeyRead Sample.flattenPolicies Sample.accept
          1 (Sample.byName "a" 0) Sample.session with
  | KMS.Returned None d' =>
      attrs d' !! "key_name" = attrs (Sample.byName "a" 0) !! "key_name"
  | _ => False
  end.
Proof.
  pose proof (kms_read_touches_only_its_outputs Sample.flattenPolicies Sample.accept
                1 (Sample.byName "a" 0) Sample.session) as H.
  destruct (KMS.dataSourceIBMKMSKeyRead Sample.flattenPolicies Sample.accept
              1 (Sample.byName "a" 0) Sample.session) as [[e |] d' |] eqn:Hread.
  - vm_compute in Hread. discriminate.
  - apply H; discriminate.
  - vm_compute in Hread. discriminate.
Defined.

Lemma keys_fit_the_schema_witness :
  match KMS.dataSourceIBMKMSKeyRead Sample.flattenPolicies Sample.accept
          1 (Sample.byName "a" 0) Sample.session with
  | KMS.Returned None d' =>
      exists entries,
        entries <> [] /\
        d' = KMS.store Sample.accept (KMS.instanceIDOf (Sample.byName "a" 0))
               (VMap <$> entries) (Sample.byName "a" 0) /\
        Forall (fits (elemFields KMSSchema.DataSourceIBMKMSkey "keys") [ "policies" ])
               entries
  | _ => False
  end.
Proof.
  pose proof (keys_fit_the_schema Sample.flattenPolicies Sample.accept
                1 (Sample.byName "a" 0)) as H.
  destruct (KMS.dataSourceIBMKMSKeyRead Sample.flattenPolicies Sample.accept
              1 (Sample.byName "a" 0) Sample.session) as [[e |] d' |] eqn:Hread.
  - vm_compute in Hread. discriminate.
  - exact (H d' Sample.session Hread).
  - vm_compute in Hread. discriminate.
Defined.

Lemma no_limit_reads_one_page_witness :
  ready Sample.session (Sample.byName "a" 0) Sample.api /\
  GetOkString (Sample.byName "a" 0) "key_name" = ("a", true) /\
  GetInt (Sample.byName "a" 0) "limit" = 0 /\
  KMS.dataSourceIBMKMSKeyRead Sample.flattenPolicies Sample.accept
    0 (Sample.byName "a" 0) Sample.session
  = KMS.selectByName Sample.flattenPolicies Sample.accept Sample.session Sample.api
      (KMS.instanceIDOf (Sample.byName "a" 0)) "a"
      [ Sample.key "a"; Sample.key "b"; Sample.key "a" ] (Sample.byName "a" 0).
Proof.
  assert (H1 : ready Sample.session (Sample.byName "a" 0) Sample.api)
    by apply sample_ready.
  assert (H2 : GetOkString (Sample.byName "a" 0) "key_name" = ("a", true)) by reflexivity.
  assert (H3 : GetInt (Sample.byName "a" 0) "limit" = 0) by reflexivity.
  split; [exact H1 |]. split; [exact H2 |]. split; [exact H3 |].
  exact (no_limit_reads_one_page Sample.flattenPolicies Sample.accept
           0 (Sample.byName "a" 0) Sample.session Sample.api "a" H1 H2 H3).
Defined.

Lemma kms_schema_accepts_witness :
  typed KMSSchema.DataSourceIBMKMSkey SchemaSample.byName = true /\
  schema.Validate KMSSchema.DataSourceIBMKMSkey SchemaSample.byName = [] /\
  kmsAccepted SchemaSample.byName /\
  declaredOnly KMSSchema.DataSourceIBMKMSkey SchemaSample.byName.
Proof.
  assert (H1 : typed KMSSchema.DataSourceIBMKMSkey SchemaSample.byName = true)
    by (vm_compute; reflexivity).
  assert (H2 : schema.Validate KMSSchema.DataSourceIBMKMSkey SchemaSample.byName = [])
    by (vm_compute; reflexivity).
  split; [exact H1 |]. split; [exact H2 |].
  exact (proj1 (kms_schema_accepts SchemaSample.byName H1) H2).
Defined.

Lemma power_schema_accepts_witness :
  typed PowerSchema.DataSourceIBMPIStorageTypeCapacity (attrs PowerSample.data) = true /\
  schema.Validate PowerSchema.DataSourceIBMPIStorageTypeCapacity (attrs PowerSample.data)
  = [] /\
  powerAccepted (attrs PowerSample.data) /\
  declaredOnly PowerSchema.DataSourceIBMPIStorageTypeCapacity (attrs PowerSample.data).
Proof.
  assert (H1 : typed PowerSchema.DataSourceIBMPIStorageTypeCapacity (attrs PowerSample.data)
               = true)
    by (vm_compute; reflexivity).
  assert (H2 : schema.Validate PowerSchema.DataSourceIBMPIStorageTypeCapacity
                 (attrs PowerSample.data) = [])
    by (vm_compute; reflexivity).
  split; [exact H1 |]. split; [exact H2 |].
  exact (proj1 (power_schema_accepts (attrs PowerSample.data) H1) H2).
Defined.

(** An argument the schema does not declare is refused. *)
Example unknown_argument_is_refused :
  schema.Validate KMSSchema.DataSourceIBMKMSkey
    (<["region" := VString "us-south"]> SchemaSample.byName)
  = [ schema.UnknownKey "region" ].
Proof. vm_compute. reflexivity. Qed.

Lemma accepted_configuration_selects_lookup_witness :
  kmsAccepted SchemaSample.byName /\
  ready Sample.session (schema.dataFor KMSSchema.DataSourceIBMKMSkey SchemaSample.byName)
        Sample.api /\
  GetOkString (schema.dataFor KMSSchema.DataSourceIBMKMSkey SchemaSample.byName) "key_name"
  = ("a", true).
Proof.
  split; [apply sample_accepted |]. split; [apply sample_ready_config |].
  apply (proj1 (accepted_configuration_selects_lookup
                  Sample.flattenPolicies Sample.accept SchemaSample.byName 1
                  Sample.session Sample.api sample_accepted sample_ready_config)).
  - reflexivity.
  - discriminate.
Defined.

Lemma power_read_succeeds_iff_complete_witness :
  Power.IBMPISession (PowerSample.session (inr PowerSample.capacity)) = None /\
  complete PowerSample.capacity = true /\
  exists d',
    Power.dataSourceIBMPIStorageTypeCapacityRead PowerSample.flatten Sample.accept
      PowerSample.data (PowerSample.session (inr PowerSample.capacity)) = Ok ([], d').
Proof.
  split; [reflexivity |]. split; [reflexivity |].
  apply (proj2 (power_read_succeeds_iff_complete PowerSample.flatten Sample.accept
                  PowerSample.data (PowerSample.session (inr PowerSample.capacity)))).
  split; [reflexivity |]. exists PowerSample.capacity. split; reflexivity.
Defined.

Lemma power_allocation_is_flattened_witness :
  match Power.dataSourceIBMPIStorageTypeCapacityRead PowerSample.flatten Sample.accept
          PowerSample.data (PowerSample.session (inr PowerSample.capacity)) with
  | Ok ([], d') =>
      (forall v, Sample.accept Power.Attr_MaximumStorageAllocation v = None) /\
      attrs d' !! Power.Attr_MaximumStorageAllocation
      = Some (VMap (<[Power.Attr_StorageType := VString "tier1"]>
                      (<[Power.Attr_StoragePool := VString "pool-1"]>
                         (<[Power.Attr_MaxAllocationSize := VInt 500]> ∅))))
  | _ => False
  end.
Proof.
  pose proof (power_allocation_is_flattened PowerSample.flatten Sample.accept
                PowerSample.data) as H.
  destruct (Power.dataSourceIBMPIStorageTypeCapacityRead PowerSample.flatten Sample.accept
              PowerSample.data (PowerSample.session (inr PowerSample.capacity)))
    as [[[| dg diags] d'] | msg] eqn:Hread;
    [| vm_compute in Hread; discriminate ..].
  assert (H1 : forall v, Sample.accept Power.Attr_MaximumStorageAllocation v = None) by done.
  split; [exact H1 |].
  destruct (H d' (PowerSample.session (inr PowerSample.capacity)) PowerSample.capacity
              _ H1 Hread eq_refl eq_refl)
    as (size & pool & type & Hsize & Hpool & Htype & Hattr).
  injection Hsize as <-. injection Hpool as <-. injection Htype as <-.
  exact Hattr.
Defined.

Lemma power_read_touches_only_its_outputs_witness :
  match Power.dataSourceIBMPIStorageTypeCapacityRead PowerSample.flatten Sample.accept
          PowerSample.data (PowerSample.session (inr PowerSample.capacity)) with
  | Ok ([], d') =>
      attrs d' !! Power.PITypeName = attrs PowerSample.data !! Power.PITypeName
  | _ => False
  end.
Proof.
  pose proof (power_read_touches_only_its_outputs PowerSample.flatten Sample.accept
                PowerSample.data (PowerSample.session (inr PowerSample.capacity))) as H.
  destruct (Power.dataSourceIBMPIStorageTypeCapacityRead PowerSample.flatten Sample.accept
              PowerSample.data (PowerSample.session (inr PowerSample.capacity)))
    as [[[| dg diags] d'] | msg] eqn:Hread;
    [| vm_compute in Hread; discriminate ..].
  apply H; discriminate.
Defined.

Lemma pools_fit_the_schema_witness :
  match Power.dataSourceIBMPIStorageTypeCapacityRead PowerSample.flatten Sample.accept
          PowerSample.data (PowerSample.session (inr PowerSample.capacity)) with
  | Ok ([], d') =>
      exists entries d1,
        d' = dSet_ Sample.accept Power.Attr_StoragePoolsCapacity
               (VList (VMap <$> entries)) d1 /\
        length entries = 2%nat
  | _ => False
  end.
Proof.
  pose proof (pools_fit_the_schema PowerSample.flatten Sample.accept
                PowerSample.data) as H.
  destruct (Power.dataSourceIBMPIStorageTypeCapacityRead PowerSample.flatten Sample.accept
              PowerSample.data (PowerSample.session (inr PowerSample.capacity)))
    as [[[| dg diags] d'] | msg] eqn:Hread;
    [| vm_compute in Hread; discriminate ..].
  destruct (H d' (PowerSample.session (inr PowerSample.capacity)) PowerSample.capacity
              Hread eq_refl) as (entries & d1 & Hd' & Hlen & _).
  exists entries, d1. split; [exact Hd' | exact Hlen].
Defined.

Lemma only_the_type_switch_fails_witness :
  Project.dataSourceIbmProjectConfigProjectConfigDefinitionResponseToMap
    ProjectSample.fmt_v Project.IsOtherSubtype
  = Ok (∅, Some "Unrecognized projectv1.ProjectConfigDefinitionResponseIntf subtype encountered") /\
  Project.dataSourceIbmProjectConfigProjectReferenceToMap MoreSample.reference
  <> Ok (∅, Some "Unrecognized projectv1.ProjectConfigDefinitionResponseIntf subtype encountered").
Proof.
  split; [reflexivity |].
  pose proof (only_the_type_switch_fails ProjectSample.stringify ProjectSample.IntValue
                ProjectSample.fmt_v ProjectSample.json_Marshal ProjectSample.json_decode
                "Unrecognized projectv1.ProjectConfigDefinitionResponseIntf subtype encountered"
                ∅) as (_ & _ & H & _).
  exact (H MoreSample.reference).
Defined.

Lemma nil_definition_panics_witness :
  Project.pr_Definition MoreSample.reference = None /\
  Project.dataSourceIbmProjectConfigProjectReferenceToMap MoreSample.reference
  = Panic nil_deref.
Proof.
  split; [reflexivity |].
  apply (proj1 (nil_definition_panics ProjectSample.IntValue) MoreSample.reference).
  reflexivity.
Defined.

Lemma project_read_sets_id_first_witness :
  Project.ProjectV1 (ProjectSample.session (inr (ProjectSample.config []))) = None /\
  match ProjectSample.Read ProjectSample.data
          (ProjectSample.session (inr (ProjectSample.config []))) with
  | Ok (diags, d') =>
      Id d' = Some "prj-1/cfg-1" /\
      attrs d' !! "project_id" = Some (VString "prj-1")
  | Panic _ => False
  end.
Proof.
  split; [reflexivity |].
  pose proof (project_read_sets_id_first
                ProjectSample.stringify ProjectSample.IntValue ProjectSample.fmt_v
                ProjectSample.json_Marshal ProjectSample.json_decode
                ProjectSample.DateTimeToString (error * string)
                ProjectSample.TerraformErrorf ProjectSample.GetDiag Sample.accept
                ProjectSample.data (ProjectSample.session (inr (ProjectSample.config [])))
                (ProjectSample.config []) eq_refl eq_refl) as H.
  unfold ProjectSample.Read.
  destruct (Project.dataSourceIbmProjectConfigRead _ _ _ _ _ _ _ _ _ _ _ _)
    as [[diags d'] | msg] eqn:Hread; [| vm_compute in Hread; discriminate].
  destruct H as (Hid & Hattrs & _). split; [exact Hid |].
  rewrite Hattrs; [reflexivity |].
  unfold projectAttributes. intros Hin.
  repeat (apply elem_of_cons in Hin as [Hin | Hin]; [discriminate |]).
  by apply elem_of_nil in Hin.
Defined.

Lemma project_read_writes_the_configuration_witness :
  (forall p, HasError (ProjectSample.GetDiag p) = true) /\
  exists d',
    ProjectSample.Read ProjectSample.data
      (ProjectSample.session (inr (ProjectSample.config []))) = Ok ([], d') /\
    attrs d' !! "version" = Some (VInt 1) /\
    attrs d' !! "state" = Some (VString "draft") /\
    attrs d' !! "project" = Some (VList []).
Proof.
  assert (H1 : forall p, HasError (ProjectSample.GetDiag p) = true) by (intros p; reflexivity).
  split; [exact H1 |].
  assert (Hread : exists d',
            ProjectSample.Read ProjectSample.data
              (ProjectSample.session (inr (ProjectSample.config []))) = Ok ([], d'))
    by (eexists; vm_compute; reflexivity).
  destruct Hread as [d' Hread]. exists d'. split; [exact Hread |].
  destruct (project_read_writes_the_configuration
              ProjectSample.stringify ProjectSample.IntValue ProjectSample.fmt_v
              ProjectSample.json_Marshal ProjectSample.json_decode
              ProjectSample.DateTimeToString (error * string)
              ProjectSample.TerraformErrorf ProjectSample.GetDiag Sample.accept
              ProjectSample.data d' [] (ProjectSample.session (inr (ProjectSample.config [])))
              H1 Hread eq_refl)
    as (pc & Hpc & Hversion & _ & _ & _ & _ & Hstate & _ & _ & _ & _ & Hproject & _).
  injection Hpc as <-.
  split; [exact Hversion |]. split; [exact Hstate | exact Hproject].
Defined.

Lemma outputs_never_carry_value_witness :
  (forall p, HasError (ProjectSample.GetDiag p) = true) /\
  exists d' m,
    ProjectSample.Read ProjectSample.data
      (ProjectSample.session
         (inr (ProjectSample.config [ ProjectSample.output (VString "https://x") ])))
    = Ok ([], d') /\
    attrs d' !! "outputs" = Some (VList [ VMap m ]) /\
    m !! "value_json" = Some (VString "https://x") /\
    m !! "value" = None.
Proof.
  assert (H1 : forall p, HasError (ProjectSample.GetDiag p) = true) by (intros p; reflexivity).
  split; [exact H1 |].
  assert (Hread : exists d',
            ProjectSample.Read ProjectSample.data
              (ProjectSample.session
                 (inr (ProjectSample.config [ ProjectSample.output (VString "https://x") ])))
            = Ok ([], d'))
    by (eexists; vm_compute; reflexivity).
  destruct Hread as [d' Hread].
  destruct (outputs_never_carry_value
              ProjectSample.stringify ProjectSample.IntValue ProjectSample.fmt_v
              ProjectSample.json_Marshal ProjectSample.json_decode
              ProjectSample.DateTimeToString (error * string)
              ProjectSample.TerraformErrorf ProjectSample.GetDiag Sample.accept
              ProjectSample.data d' []
              (ProjectSample.session
                 (inr (ProjectSample.config [ ProjectSample.output (VString "https://x") ])))
              H1 Hread eq_refl)
    as (pc & ms & Hpc & Hout & HF).
  injection Hpc as <-.
  apply Forall2_cons_inv_l in HF as (m & ms' & (_ & _ & Hjson & Hvalue) & Hnil & ->).
  apply Forall2_nil_inv_l in Hnil as ->.
  exists d', m. split; [exact Hread |]. split; [exact Hout |].
  split; [exact Hjson | exact Hvalue].
Defined.

Lemma project_read_succeeds_iff_flattenable_witness :
  (forall p, HasError (ProjectSample.GetDiag p) = true) /\
  (forall k v, Sample.accept k v = None) /\
  flattenable ProjectSample.json_Marshal
    (ProjectSample.config [ ProjectSample.output (VString "https://x") ]) /\
  exists d',
    ProjectSample.Read ProjectSample.data
      (ProjectSample.session
         (inr (ProjectSample.config [ ProjectSample.output (VString "https://x") ])))
    = Ok ([], d').
Proof.
  assert (H1 : forall p, HasError (ProjectSample.GetDiag p) = true) by (intros p; reflexivity).
  assert (H2 : forall k v, Sample.accept k v = None) by done.
  assert (H3 : flattenable ProjectSample.json_Marshal
                 (ProjectSample.config [ ProjectSample.output (VString "https://x") ])).
  { split; [| split; [| split; [| split]]]; try done.
    intros o Ho. apply list_elem_of_singleton in Ho as ->. right. by eexists. }
  split; [exact H1 |]. split; [exact H2 |]. split; [exact H3 |].
  exact (proj2 (project_read_succeeds_iff_flattenable
                  ProjectSample.stringify ProjectSample.IntValue ProjectSample.fmt_v
                  ProjectSample.json_Marshal ProjectSample.json_decode
                  ProjectSample.DateTimeToString (error * string)
                  ProjectSample.TerraformErrorf ProjectSample.GetDiag Sample.accept
                  ProjectSample.data
                  (ProjectSample.session
                     (inr (ProjectSample.config [ ProjectSample.output (VString "https://x") ])))
                  (ProjectSample.config [ ProjectSample.output (VString "https://x") ])
                  H1 H2 eq_refl eq_refl) H3).
Defined.
